(** * convertlogs: a ZNC 1.4 log folder to the ZNC 1.6 hierarchy

    A shallow embedding of [convertlogs_python2.py] and the properties of
    its three stages: the finder of mixed-case duplicates, the merger of
    their lines, and the rewriter that moves the staged files into the
    directory hierarchy.

    - [Py]: the string built-ins the script calls. A Python 2 [str] is a
      byte string and is a [string] here.
    - [Re]: the part of [re] the four patterns are written in, as a
      backtracking matcher with Python's order of alternatives.
    - [Os]: the filesystem, the console and the exceptions, as a [world]
      threaded through a state-and-exception monad.
    - The script, function by function, under its own names.
    - The vocabulary of the properties, then the properties. *)

From Stdlib Require Import String Ascii List Bool Arith NArith ZArith Lia.
From Stdlib Require Import Permutation Sorted DecimalString.
Import ListNotations.

Open Scope string_scope.
Open Scope list_scope.

(** String concatenation, Python's [+] on [str]. *)
Infix "+:+" := String.append (at level 60, right associativity).

(* ================================================================== *)
(** * Python string built-ins *)
(* ================================================================== *)

Module Py.

(** The newline byte. *)
Definition nl : ascii := "010"%char.

Definition is_upper (c : ascii) : bool :=
  ((65 <=? nat_of_ascii c) && (nat_of_ascii c <=? 90))%nat.

Definition is_lower (c : ascii) : bool :=
  ((97 <=? nat_of_ascii c) && (nat_of_ascii c <=? 122))%nat.

Definition is_digit (c : ascii) : bool :=
  ((48 <=? nat_of_ascii c) && (nat_of_ascii c <=? 57))%nat.

(** [\w] of a byte pattern without flags: [[a-zA-Z0-9_]]. *)
Definition is_word (c : ascii) : bool :=
  is_lower c || is_upper c || is_digit c || Ascii.eqb c "_".

Definition lower_char (c : ascii) : ascii :=
  if is_upper c then ascii_of_nat (nat_of_ascii c + 32) else c.

(** [s.lower()] in the C locale: only [A-Z] change. *)
Fixpoint lower (s : string) : string :=
  match s with
  | EmptyString => EmptyString
  | String c s' => String (lower_char c) (lower s')
  end.

Definition upper_char (c : ascii) : ascii :=
  if is_lower c then ascii_of_nat (nat_of_ascii c - 32) else c.

(** [s[lo:hi]] for non-negative bounds; out-of-range bounds are clipped. *)
Definition slice (lo hi : nat) (s : string) : string :=
  substring lo (hi - lo) s.

(** [s.endswith(suffix)]. *)
Definition endswith (s suffix : string) : bool :=
  (String.length suffix <=? String.length s)%nat &&
  String.eqb (substring (String.length s - String.length suffix) (String.length suffix) s) suffix.

(** [s.replace(c, '')] for a one-character [c]. *)
Fixpoint remove_char (c : ascii) (s : string) : string :=
  match s with
  | EmptyString => EmptyString
  | String a s' =>
      if Ascii.eqb a c then remove_char c s' else String a (remove_char c s')
  end.

(** [sep.join(parts)]. *)
Definition join (sep : string) (parts : list string) : string :=
  String.concat sep parts.

(** [str(n)] for a non-negative integer. *)
Definition str (n : nat) : string := NilEmpty.string_of_uint (Nat.to_uint n).

(** [f.readlines()]: the content cut after every newline, newlines kept. *)
Fixpoint readlines_from (cur : string) (data : string) : list string :=
  match data with
  | EmptyString => if String.eqb cur "" then [] else [cur]
  | String c rest =>
      if Ascii.eqb c nl
      then (cur +:+ String c "") :: readlines_from "" rest
      else readlines_from (cur +:+ String c "") rest
  end.

Definition readlines (data : string) : list string := readlines_from "" data.

(** [template.format] with keyword arguments [kw], for templates made of text and [{name}] fields.
    [None] stands for the [KeyError] of an unknown field name. *)
Fixpoint format_from (kw : list (string * string)) (field : option string)
    (template : string) : option string :=
  match template with
  | EmptyString =>
      match field with None => Some "" | Some _ => None end
  | String c t =>
      match field with
      | None =>
          if Ascii.eqb c "{" then format_from kw (Some "") t
          else option_map (String c) (format_from kw None t)
      | Some name =>
          if Ascii.eqb c "}" then
            match find (fun kv => String.eqb (fst kv) name) kw with
            | Some kv => option_map (append (snd kv)) (format_from kw None t)
            | None => None
            end
          else format_from kw (Some (name +:+ String c "")) t
      end
  end.

Definition format (template : string) (kw : list (string * string)) : option string :=
  format_from kw None template.

(** [sorted(l, key=key)]: a stable sort. The element taken from the left is
    put in front of the first element whose key is not smaller, so equal keys
    keep their order. Sortedness, permutation and stability determine the
    result, whatever the algorithm. *)
Section Sorted.
Context {A : Type} (key : A -> string).

Fixpoint insert (x : A) (l : list A) : list A :=
  match l with
  | [] => [x]
  | y :: l' => if String.leb (key x) (key y) then x :: l else y :: insert x l'
  end.

Fixpoint sorted (l : list A) : list A :=
  match l with
  | [] => []
  | x :: l' => insert x (sorted l')
  end.

End Sorted.

End Py.

(* ================================================================== *)
(** * The [re] subset of the script: a backtracking matcher *)
(* ================================================================== *)

Module Re.

(** One-character items: a literal, [.], a range, [\w], a bracket union. *)
Inductive cset : Type :=
| Lit (c : ascii)
| Dot
| Range (lo hi : ascii)
| Word
| Union (a b : cset).

Fixpoint in_cset (a : cset) (c : ascii) : bool :=
  match a with
  | Lit x => Ascii.eqb c x
  | Dot => negb (Ascii.eqb c Py.nl)
  | Range lo hi =>
      ((nat_of_ascii lo <=? nat_of_ascii c) && (nat_of_ascii c <=? nat_of_ascii hi))%nat
  | Word => Py.is_word c
  | Union x y => in_cset x c || in_cset y c
  end.

(** A group is reached by number, [m.group(1)], or by name, [m.group("date")]. *)
Inductive gkey : Type :=
| Idx (n : nat)
| Named (name : string).

Definition gkey_eqb (a b : gkey) : bool :=
  match a, b with
  | Idx n, Idx m => Nat.eqb n m
  | Named x, Named y => String.eqb x y
  | _, _ => false
  end.

(** Patterns. [Many greedy a] is [a*] or [a*?]; [Many1 greedy a] is [a+] or
    [a+?]; the script repeats one-character items only. *)
Inductive regex : Type :=
| Bol
| Eol
| One (a : cset)
| Many (greedy : bool) (a : cset)
| Many1 (greedy : bool) (a : cset)
| Seq (r1 r2 : regex)
| Grp (key : gkey) (r : regex).

(** What a match object holds: the text of every group that took part. *)
Definition captures : Type := list (gkey * string).

Fixpoint set_group (key : gkey) (text : string) (gs : captures) : captures :=
  match gs with
  | [] => [(key, text)]
  | (k, v) :: gs' =>
      if gkey_eqb k key then (k, text) :: gs' else (k, v) :: set_group key text gs'
  end.

(** [m.group(key)]; [None] is the [IndexError: no such group]. *)
Fixpoint group (m : captures) (key : gkey) : option string :=
  match m with
  | [] => None
  | (k, v) :: m' => if gkey_eqb k key then Some v else group m' key
  end.

(** What is left to match after a sub-pattern: the rest of the subject and
    the groups set so far. *)
Definition cont : Type := string -> captures -> option captures.

(** [$] without [re.MULTILINE]: the end of the subject, or just before a
    newline that ends it. *)
Definition at_end (s : string) : bool :=
  match s with
  | EmptyString => true
  | String c EmptyString => Ascii.eqb c Py.nl
  | _ => false
  end.

(** The text between two positions of the subject, both given by what is
    left of it. *)
Definition consumed (s rest : string) : string :=
  substring 0 (String.length s - String.length rest) s.

(** Repetition of a one-character item. Greedy: take one more character
    first and fall back to stopping here. Lazy: stop here first and fall
    back to taking one more. *)
Fixpoint many (greedy : bool) (a : cset) (s : string) (gs : captures) (k : cont)
    {struct s} : option captures :=
  match s with
  | EmptyString => k s gs
  | String c s' =>
      if greedy then
        match (if in_cset a c then many greedy a s' gs k else None) with
        | Some m => Some m
        | None => k s gs
        end
      else
        match k s gs with
        | Some m => Some m
        | None => if in_cset a c then many greedy a s' gs k else None
        end
  end.

(** The matcher in continuation-passing style: [k] is tried at every way
    [r] can match, in the order of Python's backtracking; the first success
    is the result. *)
Fixpoint rmatch (r : regex) (subject s : string) (gs : captures) (k : cont)
    : option captures :=
  match r with
  | Bol =>
      if Nat.eqb (String.length s) (String.length subject) then k s gs else None
  | Eol => if at_end s then k s gs else None
  | One a =>
      match s with
      | String c s' => if in_cset a c then k s' gs else None
      | EmptyString => None
      end
  | Many greedy a => many greedy a s gs k
  | Many1 greedy a =>
      match s with
      | String c s' => if in_cset a c then many greedy a s' gs k else None
      | EmptyString => None
      end
  | Seq r1 r2 =>
      rmatch r1 subject s gs (fun s1 gs1 => rmatch r2 subject s1 gs1 k)
  | Grp key r1 =>
      rmatch r1 subject s gs
        (fun s1 gs1 => k s1 (set_group key (consumed s s1) gs1))
  end.

(** [pattern.match(subject)]: anchored at the start, free at the end. *)
Definition match_ (r : regex) (subject : string) : option captures :=
  rmatch r subject subject [] (fun _ gs => Some gs).

End Re.

(* ================================================================== *)
(** * The script's patterns and templates *)
(* ================================================================== *)

Import Re.

Definition OUTDIR : string := "./output/".

(** [[\w-]]. *)
Definition word_or_dash : cset := Union Word (Lit "-").

(** [[0-9]]. *)
Definition digit : cset := Range "0" "9".

(** [\.log]. *)
Definition dot_log : regex :=
  Seq (One (Lit ".")) (Seq (One (Lit "l")) (Seq (One (Lit "o")) (One (Lit "g")))).

(** [^(?P<user>.+?)_(?P<network>[\w-]+?)_(?P<window>.+)_(?P<date>[0-9]+)\.log$] *)
Definition globalRe : regex :=
  Seq Bol
 (Seq (Grp (Named "user") (Many1 false Dot))
 (Seq (One (Lit "_"))
 (Seq (Grp (Named "network") (Many1 false word_or_dash))
 (Seq (One (Lit "_"))
 (Seq (Grp (Named "window") (Many1 true Dot))
 (Seq (One (Lit "_"))
 (Seq (Grp (Named "date") (Many1 true digit))
 (Seq dot_log
      Eol)))))))).

(** [^(?P<window>.+)_(?P<date>[0-9]+)\.log] *)
Definition networkRe : regex :=
  Seq Bol
 (Seq (Grp (Named "window") (Many1 true Dot))
 (Seq (One (Lit "_"))
 (Seq (Grp (Named "date") (Many1 true digit))
      dot_log))).

(** [^(?P<network>[\w-]+?)_(?P<window>.+)_(?P<date>[0-9]+)\.log] *)
Definition userRe : regex :=
  Seq Bol
 (Seq (Grp (Named "network") (Many1 false word_or_dash))
 (Seq (One (Lit "_"))
 (Seq (Grp (Named "window") (Many1 true Dot))
 (Seq (One (Lit "_"))
 (Seq (Grp (Named "date") (Many1 true digit))
      dot_log))))).

(** [^\[(.*?)].*$], compiled inside [sortLines]. *)
Definition lineRe : regex :=
  Seq Bol
 (Seq (One (Lit "["))
 (Seq (Grp (Idx 1) (Many false Dot))
 (Seq (One (Lit "]"))
 (Seq (Many true Dot)
      Eol)))).

Definition globalDirFormat : string := "{user}/{network}/{window}".
Definition userDirFormat : string := "{network}/{window}".
Definition networkDirFormat : string := "{window}".


(* ================================================================== *)
(** * The world: filesystem, console, exceptions *)
(* ================================================================== *)

Module Os.

Inductive errno : Type :=
| EPERM | ENOENT | EEXIST | ENOTDIR | EISDIR | EACCES | EINVAL | ENOSPC | EROFS.

Definition errno_eqb (a b : errno) : bool :=
  match a, b with
  | EPERM, EPERM | ENOENT, ENOENT | EEXIST, EEXIST | ENOTDIR, ENOTDIR
  | EISDIR, EISDIR | EACCES, EACCES | EINVAL, EINVAL | ENOSPC, ENOSPC
  | EROFS, EROFS => true
  | _, _ => false
  end.

(** The exceptions the script can meet. [ShutilError] is [shutil.Error]. *)
Inductive exn : Type :=
| OSError (e : errno)
| IOError (e : errno)
| ShutilError
| IndexError
| KeyError
| EOFError
| KeyboardInterrupt
| SystemExit (status : nat).

(** What [shutil.copystat] carries over: permission bits and times. The
    access time moves only when a file is written here: whether reading a
    file moves it is left to the mount options of the system, and no
    property below depends on it. *)
Record stat : Type := mkstat { st_mode : N; st_atime : Z; st_mtime : Z }.

(** Directories carry no metadata here: the script copies metadata between
    regular files only. *)
Inductive node : Type :=
| File (data : string) (st : stat)
| Dir.

(** A path once resolved: its components below the working directory. There
    are no links; [.] and empty components vanish and [..] is resolved on
    the text of the path, so that a path through [..] is the directory it
    names and not the chain of directories [os.makedirs] walks. The
    properties about made directories are stated for fields that are
    neither [.] nor [..] (see [plain_name]). *)
Definition path : Type := list string.

(** The tree as a table from resolved paths to nodes; the order of the table
    is the order [os.listdir] reports, which the script does not control. *)
Definition fs : Type := list (path * node).

(** One answer typed at a prompt: a line, or Ctrl+C. *)
Inductive keystroke : Type :=
| Line (text : string)
| CtrlC.

Record world : Type := mkworld {
  tree : fs;
  stdout : list string;            (* one entry per [print] or prompt *)
  stdin : list keystroke;
  clock : Z;                       (* the time a written file is stamped with *)
  creat_mode : N;                  (* the permission bits of a created file *)
  mkdir_fault : path -> option errno  (* directories the system refuses to create *)
}.

Definition with_tree (w : world) (t : fs) : world :=
  mkworld t (stdout w) (stdin w) (clock w) (creat_mode w) (mkdir_fault w).

Definition with_stdout (w : world) (o : list string) : world :=
  mkworld (tree w) o (stdin w) (clock w) (creat_mode w) (mkdir_fault w).

Definition with_stdin (w : world) (i : list keystroke) : world :=
  mkworld (tree w) (stdout w) i (clock w) (creat_mode w) (mkdir_fault w).

(** ** Paths *)

Fixpoint split_on (sep : ascii) (s : string) : list string :=
  match s with
  | EmptyString => [EmptyString]
  | String c s' =>
      if Ascii.eqb c sep then EmptyString :: split_on sep s'
      else match split_on sep s' with
           | h :: t => String c h :: t
           | [] => [String c EmptyString]
           end
  end.

(** One component onto the reversed components resolved so far. *)
Definition norm_step (racc : list string) (comp : string) : list string :=
  if String.eqb comp "" || String.eqb comp "." then racc
  else if String.eqb comp ".." then
    match racc with
    | top :: below => if String.eqb top ".." then comp :: racc else below
    | [] => [comp]
    end
  else comp :: racc.

Definition resolve (name : string) : path :=
  rev (fold_left norm_step (split_on "/" name) []).

Fixpoint path_eqb (p q : path) : bool :=
  match p, q with
  | [], [] => true
  | a :: p', b :: q' => String.eqb a b && path_eqb p' q'
  | _, _ => false
  end.

(** [strip_prefix pre p] is what follows [pre] in [p]. *)
Fixpoint strip_prefix (pre p : path) : option path :=
  match pre, p with
  | [], _ => Some p
  | a :: pre', b :: p' => if String.eqb a b then strip_prefix pre' p' else None
  | _ :: _, [] => None
  end.

Definition basename (p : path) : string := last p "".

(** ** The table *)

Fixpoint assoc (t : fs) (p : path) : option node :=
  match t with
  | [] => None
  | (k, n) :: t' => if path_eqb k p then Some n else assoc t' p
  end.

(** The working directory itself always exists. *)
Definition find_node (t : fs) (p : path) : option node :=
  match p with
  | [] => Some Dir
  | _ => assoc t p
  end.

Fixpoint set_node (t : fs) (p : path) (n : node) : fs :=
  match t with
  | [] => [(p, n)]
  | (k, m) :: t' =>
      if path_eqb k p then (k, n) :: t' else (k, m) :: set_node t' p n
  end.

Definition remove_node (t : fs) (p : path) : fs :=
  filter (fun kn => negb (path_eqb (fst kn) p)) t.

(** The names directly inside directory [p]. *)
Definition children (t : fs) (p : path) : list string :=
  flat_map (fun kn => match strip_prefix p (fst kn) with
                      | Some [name] => [name]
                      | _ => []
                      end) t.

(** [src] and everything below it, re-rooted at [dst]; a file that was at
    [dst] is replaced. *)
Definition rename_tree (t : fs) (src dst : path) : fs :=
  map (fun kn => match strip_prefix src (fst kn) with
                 | Some below => (dst ++ below, snd kn)
                 | None => kn
                 end)
      (remove_node t dst).

Definition is_dir (t : fs) (p : path) : bool :=
  match find_node t p with Some Dir => true | _ => false end.

Definition is_present (t : fs) (p : path) : bool :=
  match find_node t p with Some _ => true | None => false end.

(** ** The monad: a world in, a result or an exception and a world out *)

Inductive result (A : Type) : Type :=
| Ok (a : A)
| Raise (e : exn).
Arguments Ok {A} a.
Arguments Raise {A} e.

Definition M (A : Type) : Type := world -> result A * world.

Definition ret {A : Type} (a : A) : M A := fun w => (Ok a, w).

Definition raise {A : Type} (e : exn) : M A := fun w => (Raise e, w).

Definition bind {A B : Type} (m : M A) (k : A -> M B) : M B :=
  fun w => match m w with
           | (Ok a, w') => k a w'
           | (Raise e, w') => (Raise e, w')
           end.

(** [try: m  except ...: h]: the handler takes the exceptions it is written
    for and lets the others go by. *)
Definition catch {A : Type} (m : M A) (h : exn -> option (M A)) : M A :=
  fun w => match m w with
           | (Ok a, w') => (Ok a, w')
           | (Raise e, w') =>
               match h e with
               | Some k => k w'
               | None => (Raise e, w')
               end
           end.

(** [for x in l: body], and the same loop around a local variable. *)
Fixpoint for_each {A : Type} (l : list A) (body : A -> M unit) : M unit :=
  match l with
  | [] => ret tt
  | x :: l' => bind (body x) (fun _ => for_each l' body)
  end.

Fixpoint for_fold {A S : Type} (l : list A) (acc : S) (body : S -> A -> M S) : M S :=
  match l with
  | [] => ret acc
  | x :: l' => bind (body acc x) (fun acc' => for_fold l' acc' body)
  end.

Notation "x <- m ;; k" := (bind m (fun x => k))
  (at level 61, m at next level, right associativity).
Notation "m ;; k" := (bind m (fun _ => k))
  (at level 61, right associativity).

(** ** Console *)

(** [print(line)]. *)
Definition print (line : string) : M unit :=
  fun w => (Ok tt, with_stdout w (stdout w ++ [line])).

(** [raw_input(prompt)]. *)
Definition raw_input (prompt : string) : M string :=
  fun w =>
    let w1 := with_stdout w (stdout w ++ [prompt]) in
    match stdin w1 with
    | [] => (Raise EOFError, w1)
    | Line t :: rest => (Ok t, with_stdin w1 rest)
    | CtrlC :: rest => (Raise KeyboardInterrupt, with_stdin w1 rest)
    end.

(** [exit(status)]. *)
Definition exit {A : Type} (status : nat) : M A := raise (SystemExit status).

(** ** [os] *)

(** [os.listdir(name)]. *)
Definition listdir (name : string) : M (list string) :=
  fun w =>
    match find_node (tree w) (resolve name) with
    | Some Dir => (Ok (children (tree w) (resolve name)), w)
    | Some (File _ _) => (Raise (OSError ENOTDIR), w)
    | None => (Raise (OSError ENOENT), w)
    end.

(** [os.path.isdir(name)] and [os.path.exists(name)]. *)
Definition isdir (name : string) : M bool :=
  fun w => (Ok (is_dir (tree w) (resolve name)), w).

Definition path_exists (p : path) : M bool :=
  fun w => (Ok (is_present (tree w) p), w).

(** [os.mkdir] on a resolved path. *)
Definition mkdir_at (p : path) : M unit :=
  fun w =>
    match mkdir_fault w p with
    | Some e => (Raise (OSError e), w)
    | None =>
        match find_node (tree w) p with
        | Some _ => (Raise (OSError EEXIST), w)
        | None =>
            match find_node (tree w) (removelast p) with
            | Some Dir => (Ok tt, with_tree w (set_node (tree w) p Dir))
            | Some (File _ _) => (Raise (OSError ENOTDIR), w)
            | None => (Raise (OSError ENOENT), w)
            end
        end
    end.

Definition mkdir (name : string) : M unit := mkdir_at (resolve name).

(** [os.makedirs]: make the missing parent first (someone having made it
    meanwhile is fine), then the directory itself. The recursion goes up one
    component at a time, so the number of components bounds it. *)
Fixpoint makedirs_at (depth : nat) (p : path) : M unit :=
  match depth with
  | 0 => mkdir_at p
  | S depth' =>
      let head := removelast p in
      missing <- (present <- path_exists head ;; ret (negb present)) ;;
      (if negb (path_eqb head []) && missing then
         catch (makedirs_at depth' head)
               (fun e => match e with
                         | OSError EEXIST => Some (ret tt)
                         | _ => None
                         end)
       else ret tt) ;;
      mkdir_at p
  end.

Definition makedirs (name : string) : M unit :=
  makedirs_at (length (resolve name)) (resolve name).

(** ** Files *)

(** An open file is known by the path it was opened at. *)
Definition file : Type := path.

(** [open(name)]. *)
Definition open_r (name : string) : M file :=
  fun w =>
    match find_node (tree w) (resolve name) with
    | Some (File _ _) => (Ok (resolve name), w)
    | Some Dir => (Raise (IOError EISDIR), w)
    | None => (Raise (IOError ENOENT), w)
    end.

(** [open(name, 'w')]: an existing file is emptied and keeps its permission
    bits, a new one is created inside an existing directory. *)
Definition open_w (name : string) : M file :=
  fun w =>
    let p := resolve name in
    match find_node (tree w) p with
    | Some Dir => (Raise (IOError EISDIR), w)
    | Some (File _ st) =>
        (Ok p, with_tree w
                 (set_node (tree w) p
                    (File "" (mkstat (st_mode st) (st_atime st) (clock w)))))
    | None =>
        match find_node (tree w) (removelast p) with
        | Some Dir =>
            (Ok p, with_tree w
                     (set_node (tree w) p
                        (File "" (mkstat (creat_mode w) (clock w) (clock w)))))
        | Some (File _ _) => (Raise (IOError ENOTDIR), w)
        | None => (Raise (IOError ENOENT), w)
        end
    end.

(** [f.readlines()]. *)
Definition readlines (f : file) : M (list string) :=
  fun w =>
    match find_node (tree w) f with
    | Some (File data _) => (Ok (Py.readlines data), w)
    | _ => (Raise (IOError ENOENT), w)
    end.

(** [f.write(text)]. *)
Definition write (f : file) (text : string) : M unit :=
  fun w =>
    match find_node (tree w) f with
    | Some (File data st) =>
        (Ok tt, with_tree w
                  (set_node (tree w) f
                     (File (data +:+ text) (mkstat (st_mode st) (st_atime st) (clock w)))))
    | _ => (Raise (IOError ENOENT), w)
    end.

(** [f.close()]. *)
Definition close (f : file) : M unit := ret tt.

(** ** [shutil] *)

Definition copystat_at (src dst : path) : M unit :=
  fun w =>
    match find_node (tree w) src, find_node (tree w) dst with
    | Some (File _ st), Some (File data _) =>
        (Ok tt, with_tree w (set_node (tree w) dst (File data st)))
    | _, _ => (Raise (OSError ENOENT), w)
    end.

(** [shutil.copystat(src, dst)]: [dst] gets the permission bits and times of
    [src]. *)
Definition copystat (src dst : string) : M unit :=
  copystat_at (resolve src) (resolve dst).

(** [shutil.copy2(src, dst)]: content, then metadata; into [dst] when it is
    a directory. *)
Definition copy2_at (src dst : path) : M unit :=
  fun w =>
    let real_dst := if is_dir (tree w) dst then dst ++ [basename src] else dst in
    if path_eqb src real_dst && is_present (tree w) src then (Raise ShutilError, w)
    else
      match find_node (tree w) src with
      | Some (File data st) =>
          match find_node (tree w) real_dst, find_node (tree w) (removelast real_dst) with
          | Some Dir, _ => (Raise (IOError EISDIR), w)
          | Some (File _ _), _ | None, Some Dir =>
              (Ok tt, with_tree w (set_node (tree w) real_dst (File data st)))
          | None, Some (File _ _) => (Raise (IOError ENOTDIR), w)
          | None, None => (Raise (IOError ENOENT), w)
          end
      | Some Dir => (Raise (IOError EISDIR), w)
      | None => (Raise (IOError ENOENT), w)
      end.

Definition copy2 (src dst : string) : M unit :=
  copy2_at (resolve src) (resolve dst).

(** [shutil.move(src, dst)]: a rename; into [dst] when it is a directory.
    A file at the destination is replaced. *)
Definition move_at (src dst : path) : M unit :=
  fun w =>
    let t := tree w in
    let real_dst := if is_dir t dst then dst ++ [basename src] else dst in
    if is_dir t dst && path_eqb src dst then (Ok tt, w)
    else if is_dir t dst && is_present t real_dst then (Raise ShutilError, w)
    else
      match find_node t src with
      | None => (Raise (IOError ENOENT), w)
      | Some (File _ _) =>
          if path_eqb src real_dst then (Ok tt, w)
          else if is_dir t (removelast real_dst)
          then (Ok tt, with_tree w (rename_tree t src real_dst))
          else (Raise (IOError ENOENT), w)
      | Some Dir =>
          match strip_prefix src real_dst with
          | Some [] => (Ok tt, w)
          | Some (_ :: _) => (Raise ShutilError, w)
          | None =>
              if is_present t real_dst then (Raise (OSError EEXIST), w)
              else if is_dir t (removelast real_dst)
              then (Ok tt, with_tree w (rename_tree t src real_dst))
              else (Raise (OSError ENOENT), w)
          end
      end.

Definition move (src dst : string) : M unit :=
  move_at (resolve src) (resolve dst).

End Os.

Import Os.

(* ================================================================== *)
(** * The script *)
(* ================================================================== *)

(** [m.group(key)] as a call that can raise. *)
Definition m_group (m : captures) (key : gkey) : M string :=
  match group m key with
  | Some g => ret g
  | None => raise IndexError
  end.

(** [t[i]] on a tuple. *)
Definition tuple_get (t : list string) (i : nat) : M string :=
  match nth_error t i with
  | Some x => ret x
  | None => raise IndexError
  end.

Definition line_warning (line : string) : string :=
  "WARNING: Line " +:+ line +:+ " doesn't look like a log line and will be removed!".

(** The body of the loop of [sortLines]: [out] is the list being built. *)
Definition sortLines_body (out : list (string * string)) (line : string)
    : M (list (string * string)) :=
  match match_ lineRe line with
  | None => print (line_warning line) ;; ret out
  | Some m =>
      g <- m_group m (Idx 1) ;;
      let ts := Py.remove_char ":" g in
      ret (out ++ [(ts, line)])
  end.

(** Sorts log lines by timestamp and returns the sorted lines. *)
Definition sortLines (lines : list string) : M (list string) :=
  out <- for_fold lines [] sortLines_body ;;
  let out := Py.sorted fst out in
  ret (map snd out).

(** [collections.Counter]: how often each element occurs. *)
Fixpoint count_one (counts : list (string * nat)) (x : string) : list (string * nat) :=
  match counts with
  | [] => [(x, 1)]
  | (k, v) :: counts' =>
      if String.eqb k x then (k, S v) :: counts' else (k, v) :: count_one counts' x
  end.

Definition Counter (l : list string) : list (string * nat) :=
  fold_left count_one l [].

Definition dupe_warning (k : string) : string :=
  "Warning: " +:+ k +:+ " has more than two occurrences. Skipping.".

(** The body of the first loop of [findMixedCaseDupes]. *)
Definition dupenames_body (dupenames : list string) (kv : string * nat)
    : M (list string) :=
  let k := fst kv in
  let v := snd kv in
  let dupenames := if Nat.eqb v 2 then dupenames ++ [k] else dupenames in
  (if Nat.ltb 2 v then print (dupe_warning k) else ret tt) ;;
  ret dupenames.

(** The inner loop: the names that are [dupename] once lowercased. *)
Definition copies_of (names : list string) (dupename : string) : list string :=
  fold_left (fun tmp v => if String.eqb (Py.lower v) dupename then tmp ++ [v] else tmp)
            names [].

(** Finds log files that have mixed-case dupes and returns a list of tuples
    containing the different names of each log file. [items] is the order in
    which the counter hands out its entries: a Python 2 dictionary promises
    none. *)
Definition findMixedCaseDupes
    (items : list (string * nat) -> list (string * nat))
    (names : list string) : M (list (list string)) :=
  let nameslc := map Py.lower names in
  let counts := Counter nameslc in
  dupenames <- for_fold (items counts) [] dupenames_body ;;
  let dupes := fold_left (fun dupes dupename => dupes ++ [copies_of names dupename])
                         dupenames [] in
  ret dupes.

(** The body of the merging loop of [mergeAndCopyLogs]. *)
Definition merge_dupe (dupe : list string) : M unit :=
  d0 <- tuple_get dupe 0 ;;
  f1 <- open_r d0 ;;
  d1 <- tuple_get dupe 1 ;;
  f2 <- open_r d1 ;;
  l1 <- readlines f1 ;;
  l2 <- readlines f2 ;;
  let lines := ([] ++ l1) ++ l2 in
  close f1 ;;
  close f2 ;;
  sortedLines <- sortLines lines ;;
  outf <- open_w (OUTDIR +:+ Py.lower d0) ;;
  for_each sortedLines (fun line => write outf line) ;;
  close outf ;;
  copystat d1 (OUTDIR +:+ Py.lower d0).

(** The body of the copying loop of [mergeAndCopyLogs]. *)
Definition copy_body (dupeslist : list string) (logsCopied : nat) (name : string)
    : M nat :=
  if negb (existsb (String.eqb name) dupeslist) then
    copy2 name (OUTDIR +:+ Py.lower name) ;;
    ret (logsCopied + 1)
  else ret logsCopied.

Definition mergeAndCopyLogs (logfiles : list string) (dupes : list (list string))
    : M unit :=
  print "Merging logs..." ;;
  for_each dupes merge_dupe ;;
  print (Py.str (length dupes) +:+ " logs merged.") ;;
  let dupeslist := List.concat dupes in
  print "Copying remaining logs..." ;;
  logsCopied <- for_fold logfiles 0 (copy_body dupeslist) ;;
  print (Py.str logsCopied +:+ " files copied.").

Definition nomatch_warning (logfile : string) : string :=
  "warning: " +:+ logfile +:+ " did not match! It will be skipped.".

Definition nowindow_warning (logfile : string) : string :=
  "warning: " +:+ logfile +:+ " doesn't have a window. That makes no sense. It's being skipped.".

Definition nodate_warning (logfile : string) : string :=
  "warning: " +:+ logfile +:+ " doesn't have a date. That makes no sense. It's being skipped.".

(** [try: x = m.group(name)  except IndexError: pass], [x] being [''] before. *)
Definition group_or_empty (m : captures) (name : string) : M string :=
  catch (m_group m (Named name))
        (fun e => match e with IndexError => Some (ret "") | _ => None end).

(** [try: x = m.group(name) ...  except IndexError: print(warning); continue]:
    [None] is the [continue]. *)
Definition group_or_skip (m : captures) (name : string) (warning : string)
    : M (option string) :=
  catch (g <- m_group m (Named name) ;; ret (Some g))
        (fun e => match e with
                  | IndexError => Some (print warning ;; ret None)
                  | _ => None
                  end).

(** [date[:4], date[4:6], date[6:8]] joined by dashes. *)
Definition reformat_date (date : string) : string :=
  let ymd := [Py.slice 0 4 date; Py.slice 4 6 date; Py.slice 6 8 date] in
  Py.join "-" ymd.

(** [try: os.makedirs(path)  except OSError as exc: ...]: an existing
    directory is fine, anything else is raised again. *)
Definition ensure_dir (path : string) : M unit :=
  catch (makedirs path)
        (fun exc =>
           match exc with
           | OSError e =>
               Some (fine <- (if errno_eqb e EEXIST then isdir path else ret false) ;;
                     if fine then ret tt else raise (OSError e))
           | _ => None
           end).

(** The body of the loop of [convertToHierarchy]. *)
Definition hierarchy_body (myRe : regex) (myFormat : string) (logfile : string)
    : M unit :=
  match match_ myRe logfile with
  | None => print (nomatch_warning logfile)
  | Some m =>
      user <- group_or_empty m "user" ;;
      network <- group_or_empty m "network" ;;
      window <- group_or_skip m "window" (nowindow_warning logfile) ;;
      match window with
      | None => ret tt
      | Some window =>
          date <- group_or_skip m "date" (nodate_warning logfile) ;;
          match date with
          | None => ret tt
          | Some date =>
              let date := reformat_date date in
              match Py.format myFormat
                      [("user", user); ("network", network); ("window", window)] with
              | None => raise KeyError
              | Some dir =>
                  let path := OUTDIR +:+ dir in
                  ensure_dir path ;;
                  move (OUTDIR +:+ logfile) (path +:+ "/" +:+ date +:+ ".log")
              end
          end
      end
  end.

Definition pattern_of (logType : string) : regex :=
  if String.eqb logType "N" then networkRe
  else if String.eqb logType "U" then userRe
  else globalRe.

Definition format_of (logType : string) : string :=
  if String.eqb logType "N" then networkDirFormat
  else if String.eqb logType "U" then userDirFormat
  else globalDirFormat.

(** Moves the files into a directory hierarchy based on
    http://wiki.znc.in/Log *)
Definition convertToHierarchy (logType : string) : M unit :=
  print "Rearranging logs into 1.6 hierarchy..." ;;
  logfiles <- listdir OUTDIR ;;
  let myRe := pattern_of logType in
  let myFormat := format_of logType in
  for_each logfiles (hierarchy_body myRe myFormat) ;;
  print "Done!".

(** [[x for x in filenames if x.endswith('log')]]. *)
Definition select_logfiles (filenames : list string) : list string :=
  filter (fun x => Py.endswith x "log") filenames.

Definition banner (n_logs n_dupes : nat) : string :=
  "This script should be run in the same directory as your ZNC 1.4 log files.
Logs in subdirectories will not be processed.
Found " +:+ Py.str n_logs +:+ " logs, " +:+ Py.str n_dupes +:+ " of which have duplicates.
Logs will be stored in " +:+ OUTDIR +:+ ", in an all-lowercase directoryhierarchy compliant with ZNC 1.6.0

Your log files should be backed up and ZNC should *not* be running.
".

(** The questions asked before anything is written. *)
Definition ask (n_logs n_dupes : nat) : M string :=
  catch (print (banner n_logs n_dupes) ;;
         print "If your network or user names contain underscores, the directory structure WILL be wrong unless you edit the script." ;;
         raw_input "Press Enter to continue or Ctrl+C to abort" ;;
         print "" ;;
         raw_input "What log module are these logs from? (Global/Network/User)? ")
        (fun e => match e with
                  | KeyboardInterrupt => Some (print "" ;; exit 1)
                  | _ => None
                  end).

(** Global by default. *)
Definition normalise_logType (logType : string) : string :=
  match logType with
  | String c _ => String (Py.upper_char c) ""
  | EmptyString => "G"
  end.

(** The statements after the function definitions, in order. *)
Definition script (items : list (string * nat) -> list (string * nat)) : M unit :=
  filenames <- listdir "." ;;
  let logfiles := select_logfiles filenames in
  dupes <- findMixedCaseDupes items logfiles ;;
  logType <- ask (length logfiles) (length dupes) ;;
  let logType := normalise_logType logType in
  catch (mkdir OUTDIR)
        (fun e => match e with OSError _ => Some (ret tt) | _ => None end) ;;
  mergeAndCopyLogs logfiles dupes ;;
  convertToHierarchy logType.

(* ================================================================== *)
(** * Vocabulary of the properties *)
(* ================================================================== *)

(** What the whole of [lines] is once written one after the other. *)
Definition file_text (lines : list string) : string :=
  fold_right String.append "" lines.

Fixpoint contains (c : ascii) (s : string) : bool :=
  match s with
  | EmptyString => false
  | String a s' => Ascii.eqb a c || contains c s'
  end.

(** A text with no newline, except perhaps as its last character: what
    [readlines] returns. *)
Fixpoint one_line (s : string) : bool :=
  match s with
  | EmptyString => true
  | String c s' => if Ascii.eqb c Py.nl then String.eqb s' "" else one_line s'
  end.

(** The text before the first closing bracket, and the text after it;
    nothing when a newline or the end comes first. *)
Fixpoint split_bracket (s : string) : option (string * string) :=
  match s with
  | EmptyString => None
  | String c s' =>
      if Ascii.eqb c "]" then Some ("", s')
      else if Ascii.eqb c Py.nl then None
      else match split_bracket s' with
           | Some (ts, rest) => Some (String c ts, rest)
           | None => None
           end
  end.

(** The bracketed prefix of a log line, brackets off: the line opens with
    a bracket, the prefix runs to the first closing bracket, and the rest is
    one line. *)
Definition timestamp (line : string) : option string :=
  match line with
  | String c s =>
      if Ascii.eqb c "[" then
        match split_bracket s with
        | Some (ts, rest) => if one_line rest then Some ts else None
        | None => None
        end
      else None
  | EmptyString => None
  end.


Definition is_log_line (line : string) : bool :=
  match timestamp line with Some _ => true | None => false end.

(** The sort key of a line: its timestamp with the colons taken out. *)
Definition sort_key (line : string) : string :=
  match timestamp line with
  | Some ts => Py.remove_char ":" ts
  | None => ""
  end.

(** Ascending order of keys, as bytes. *)
Definition key_order {A : Type} (key : A -> string) (a b : A) : Prop :=
  String.leb (key a) (key b) = true.

(** Ascending order of sort keys. *)
Definition key_le : string -> string -> Prop := key_order sort_key.

(** A name as [os.listdir] gives them: not empty, not [.] or [..], no
    slash. *)
Definition plain_name (s : string) : bool :=
  negb (String.eqb s "") && negb (String.eqb s ".") && negb (String.eqb s "..")
  && negb (contains "/" s).

(** ** What a pattern can match *)

Fixpoint all_in (a : cset) (s : string) : bool :=
  match s with
  | EmptyString => true
  | String c s' => in_cset a c && all_in a s'
  end.

(** [spans r subject s rest]: read from [s], the pattern [r] can stop at
    [rest]. This is the pattern as a set of texts, whatever the order in
    which the matcher tries them. *)
Fixpoint spans (r : regex) (subject s rest : string) : Prop :=
  match r with
  | Bol => rest = s /\ String.length s = String.length subject
  | Eol => rest = s /\ at_end s = true
  | One a => exists c, s = String c rest /\ in_cset a c = true
  | Many _ a => exists pre, s = pre +:+ rest /\ all_in a pre = true
  | Many1 _ a =>
      exists c pre, s = String c (pre +:+ rest) /\ in_cset a c = true
                    /\ all_in a pre = true
  | Seq r1 r2 => exists mid, spans r1 subject s mid /\ spans r2 subject mid rest
  | Grp _ r1 => spans r1 subject s rest
  end.

Fixpoint starts_with (p s : string) : bool :=
  match p, s with
  | EmptyString, _ => true
  | String a p', String b s' => Ascii.eqb a b && starts_with p' s'
  | String _ _, EmptyString => false
  end.

(** An underscore, one or more digits and [.log] somewhere in the name:
    what every pattern of the script asks for as the date. *)
Fixpoint digits_then_log (seen : bool) (s : string) : bool :=
  match s with
  | EmptyString => false
  | String c s' =>
      if Py.is_digit c then digits_then_log true s'
      else seen && starts_with ".log" s
  end.

Fixpoint has_date_field (s : string) : bool :=
  match s with
  | EmptyString => false
  | String c s' =>
      (Ascii.eqb c "_" && digits_then_log false s') || has_date_field s'
  end.

(** ** Where a staged file goes *)

(** The directory made for a staged file and the path it is moved to, as
    the loop of [convertToHierarchy] computes them; nothing when the pattern
    does not match or a group is missing. *)
Definition destination (myRe : regex) (myFormat logfile : string)
    : option (string * string) :=
  match match_ myRe logfile with
  | Some m =>
      match group m (Named "window"), group m (Named "date") with
      | Some window, Some date =>
          let user := match group m (Named "user") with Some g => g | None => "" end in
          let network := match group m (Named "network") with Some g => g | None => "" end in
          match Py.format myFormat
                  [("user", user); ("network", network); ("window", window)] with
          | Some dir =>
              Some (OUTDIR +:+ dir,
                    (OUTDIR +:+ dir) +:+ "/" +:+ reformat_date date +:+ ".log")
          | None => None
          end
      | _, _ => None
      end
  | None => None
  end.

Definition rearranging : string := "Rearranging logs into 1.6 hierarchy...".

(** ** Worlds to run the script in *)

Definition no_fault : path -> option errno := fun _ => None.

(** 0644 and 0600, stamped at different times. *)
Definition stat_a : stat := mkstat 420 100 100.
Definition stat_b : stat := mkstat 384 200 200.

(** A text and the newline that ends it. *)
Definition ln (s : string) : string := s +:+ String Py.nl "".

(** A staging directory holding [names], as the copying stage leaves it. *)
Definition staged (names : list string) : world :=
  mkworld
    ((["output"], Dir)
       :: map (fun n => (["output"; n], File (ln ("[00:00:01] log of " +:+ n)) stat_a))
              names)
    [] [] 1000 420 no_fault.

(** A ZNC 1.4 log folder with a pair that differs in case only, a log whose
    date has seven digits, a file that is no log and one that only ends in
    "log"; the answers typed are Enter and "global". *)
Definition log_folder : world :=
  mkworld
    [ (["alice_FreeNode_#chan_20160115.log"],
       File (ln "[00:01:00] a" +:+ ln "-- topic changed --" +:+ ln "[00:02:00] c") stat_a);
      (["alice_freenode_#chan_20160115.log"],
       File (ln "[00:00:30] b" +:+ ln "[00:01:00] d") stat_b);
      (["bob_efnet_#x_2016011.log"], File (ln "[10:00:00] x") stat_a);
      (["notes.txt"], File "todo" stat_a);
      (["backlog"], File "old" stat_a) ]
    [] [Line ""; Line "global"] 1000 420 no_fault.

(** The same folder with [./output/] made, as [mergeAndCopyLogs] finds it. *)
Definition log_folder_ready : world :=
  with_tree log_folder (tree log_folder ++ [(["output"], Dir)]).

(** The folder once the script has run over it. *)
Definition rearranged : world := snd (script (fun counts => counts) log_folder).

(** The pair of [log_folder] that differs in case only. *)
Definition first_copy : string := "alice_FreeNode_#chan_20160115.log".
Definition second_copy : string := "alice_freenode_#chan_20160115.log".

(** ** The second stage as writes into the table *)

(** Writes into the table, one after the other. *)
Definition apply_writes (t : fs) (ws : list (path * node)) : fs :=
  fold_left (fun t pn => set_node t (fst pn) (snd pn)) ws t.

(** The file the merge of a pair leaves in the staging directory, read off
    the tree the stage started from. *)
Definition merge_write (t : fs) (dupe : list string) : path * node :=
  match dupe with
  | [a; b] =>
      match find_node t [a], find_node t [b] with
      | Some (File data1 _), Some (File data2 st2) =>
          (["output"; Py.lower a],
           File (file_text (Py.sorted sort_key
                   (filter is_log_line (Py.readlines data1 ++ Py.readlines data2))))
                st2)
      | _, _ => ([], Dir)
      end
  | _ => ([], Dir)
  end.

Definition merge_warnings (t : fs) (dupe : list string) : list string :=
  match dupe with
  | [a; b] =>
      match find_node t [a], find_node t [b] with
      | Some (File data1 _), Some (File data2 _) =>
          map line_warning
              (filter (fun line => negb (is_log_line line))
                      (Py.readlines data1 ++ Py.readlines data2))
      | _, _ => []
      end
  | _ => []
  end.

(** The file a straight copy leaves in the staging directory. *)
Definition copy_write (t : fs) (name : string) : path * node :=
  match find_node t [name] with
  | Some n => (["output"; Py.lower name], n)
  | None => ([], Dir)
  end.

(** What the stage needs of the tree: the names are regular files of the
    working directory, the staging directory is there, and no directory
    stands where a file is to be staged. *)
Definition stage_ready (names : list string) (t : fs) : Prop :=
  (forall n, In n names -> plain_name n = true)
  /\ (forall n, In n names -> exists data st, find_node t [n] = Some (File data st))
  /\ find_node t ["output"] = Some Dir
  /\ (forall n, In n names -> find_node t ["output"; Py.lower n] <> Some Dir).

(** Every write of the stage puts a regular file into the staging
    directory. *)
Definition staging_write (pn : path * node) : Prop :=
  exists k data st, pn = (["output"; k], File data st).

(** [counts] tells how often each key occurs in [seen]. *)
Definition counts_of (seen : list string) (counts : list (string * nat)) : Prop :=
  NoDup (map fst counts) /\
  forall k v, In (k, v) counts <-> v = count_occ string_dec seen k /\ 0 < v.


(** [p] is the beginning of [q]. *)
Definition is_prefix (p q : path) : Prop := exists rest, q = p ++ rest.

(** From [t] to [t'] nothing changed but missing directories on the way to
    [p], which were made. *)
Definition grown (t t' : fs) (p : path) : Prop :=
  forall q, find_node t' q = find_node t q
            \/ (is_prefix q p /\ find_node t q = None /\ find_node t' q = Some Dir).

(** A text that is empty or ends with a newline. *)
Fixpoint ends_with_newline (s : string) : bool :=
  match s with
  | EmptyString => true
  | String c s' =>
      match s' with
      | EmptyString => Ascii.eqb c Py.nl
      | String _ _ => ends_with_newline s'
      end
  end.

(** The value of a decimal digit, and of two of them. *)
Definition digit_val (c : ascii) : nat := nat_of_ascii c - 48.

Definition two_digits (a b : ascii) : nat := 10 * digit_val a + digit_val b.

(** A line that opens with [[HH:MM:SS]], minutes and seconds below 60. *)
Definition clock_stamped (line : string) : bool :=
  match line with
  | String o (String h1 (String h2 (String c1 (String m1 (String m2
      (String c2 (String s1 (String s2 (String e rest))))))))) =>
      Ascii.eqb o "[" && Py.is_digit h1 && Py.is_digit h2 && Ascii.eqb c1 ":"
      && Py.is_digit m1 && Py.is_digit m2 && Ascii.eqb c2 ":"
      && Py.is_digit s1 && Py.is_digit s2 && Ascii.eqb e "]"
      && (two_digits m1 m2 <? 60)%nat && (two_digits s1 s2 <? 60)%nat
      && one_line rest
  | _ => false
  end.

(** The time of day of such a line, in seconds. *)
Definition seconds_of (line : string) : nat :=
  match line with
  | String _ (String h1 (String h2 (String _ (String m1 (String m2
      (String _ (String s1 (String s2 _)))))))) =>
      3600 * two_digits h1 h2 + 60 * two_digits m1 m2 + two_digits s1 s2
  | _ => 0
  end.

Definition nl_str : string := String Py.nl "".

(** A line as a file holds it: a text without newline, then the newline. *)
Definition terminated (line : string) : Prop :=
  exists body, line = body +:+ nl_str /\ contains Py.nl body = false.

(** What stops the two questions: Ctrl+C, which the script turns into
    [exit(1)], or the end of the input, which it does not catch. *)
Definition interruption (keys : list keystroke) : option exn :=
  match keys with
  | [] => Some EOFError
  | CtrlC :: _ => Some (SystemExit 1)
  | Line _ :: [] => Some EOFError
  | Line _ :: CtrlC :: _ => Some (SystemExit 1)
  | Line _ :: Line _ :: _ => None
  end.

Definition underscore_note : string :=
  "If your network or user names contain underscores, the directory structure WILL be wrong unless you edit the script.".

Definition continue_prompt : string := "Press Enter to continue or Ctrl+C to abort".

Definition module_prompt : string :=
  "What log module are these logs from? (Global/Network/User)? ".

(** A name the pattern does not match. *)
Definition unmatched (myRe : regex) (name : string) : bool :=
  match match_ myRe name with None => true | Some _ => false end.

(** The state of the loop of [convertToHierarchy] with [todo] still to go:
    [names] are the staged names that match, [t0] is the tree the loop
    started on, [dir k] the components of the directory made for [k] below
    the staging directory and [file k] the new name of [k]. *)
Definition rewriting (names : list string) (dir : string -> list string)
    (file : string -> string) (t0 : fs) (todo : list string) (t : fs) : Prop :=
  (forall k, In k todo -> find_node t ["output"; k] = find_node t0 ["output"; k])
  /\ (forall k q, In k names -> is_prefix q ("output" :: dir k) ->
        find_node t q = None \/ find_node t q = Some Dir)
  /\ (forall k, In k names -> find_node t ("output" :: dir k ++ [file k]) <> Some Dir)
  /\ (forall k, In k names -> ~ In k todo ->
        find_node t ("output" :: dir k ++ [file k]) = find_node t0 ["output"; k]
        /\ find_node t ["output"; k] = None
        /\ find_node t ("output" :: dir k) = Some Dir)
  /\ (forall q,
        (forall k, In k names ->
           ~ is_prefix ["output"; k] q
           /\ ~ is_prefix ("output" :: dir k ++ [file k]) q
           /\ ~ is_prefix q ("output" :: dir k)) ->
        find_node t q = find_node t0 q)
  /\ find_node t ["output"] = Some Dir.

(** A field that can name a directory: a plain name without newline. *)
Definition dir_field (s : string) : bool := plain_name s && all_in Dot s.

(** What the user, network and date fields of a well-formed name are. *)
Definition user_field (s : string) : bool := dir_field s && negb (contains "_" s).

Definition network_field (s : string) : bool :=
  negb (String.eqb s "") && all_in word_or_dash s && negb (contains "_" s).

Definition date_field (s : string) : bool := negb (String.eqb s "") && all_in digit s.

(** The names of the three log modules of ZNC 1.4. *)
Definition global_name (user network window date : string) : string :=
  user +:+ "_" +:+ network +:+ "_" +:+ window +:+ "_" +:+ date +:+ ".log".

Definition user_name (network window date : string) : string :=
  network +:+ "_" +:+ window +:+ "_" +:+ date +:+ ".log".

Definition network_name (window date : string) : string :=
  window +:+ "_" +:+ date +:+ ".log".

(** The name a log of that date gets in the hierarchy. *)
Definition dated (date : string) : string := reformat_date date +:+ ".log".

(** The directory made for a staged name, as components below the staging
    directory, and the name the file gets there. *)
Definition made_dir (myRe : regex) (myFormat logfile : string) : list string :=
  match destination myRe myFormat logfile with
  | Some (path, _) => tl (resolve path)
  | None => []
  end.

Definition moved_name (myRe : regex) (myFormat logfile : string) : string :=
  match destination myRe myFormat logfile with
  | Some (_, target) => last (resolve target) ""
  | None => ""
  end.

(** [convertToHierarchy] puts the staged name [k] into the directory
    [comps] below the staging directory, under the name [f]. *)
Definition placed (myRe : regex) (myFormat k : string) (comps : list string) (f : string)
    : Prop :=
  exists path target,
    destination myRe myFormat k = Some (path, target)
    /\ resolve path = "output" :: comps
    /\ resolve target = "output" :: comps ++ [f]
    /\ comps <> [] /\ plain_name k = true.

(** A log folder before the script has run: no path is listed twice and
    nothing is called [output]. *)
Definition fresh_folder (t : fs) : Prop :=
  NoDup (map fst t) /\ forall p n, In (p, n) t -> hd "" p <> "output".

(** A Global log name whose date has at most eight digits. *)
Definition global_log (name : string) : Prop :=
  exists u n c d,
    name = global_name u n c d /\ user_field u = true /\ network_field n = true
    /\ dir_field c = true /\ date_field d = true /\ String.length d <= 8.

(** A staging directory of two Global logs and a file that is no log. *)
Definition global_staged : world :=
  staged ["alice_freenode_#chan_20160115.log"; "bob_efnet_#x_20160116.log"; "backlog"].



(** Two logs whose dates agree on their first eight digits. *)
Definition crowded_staged : world :=
  staged ["alice_freenode_#chan_201601150.log"; "alice_freenode_#chan_201601151.log"].

(** The names [log_folder] gives the stages. *)
Definition log_names : list string :=
  [first_copy; second_copy; "bob_efnet_#x_2016011.log"; "backlog"].

(** Three spellings of one name and a log on its own. *)
Definition triple_folder : world :=
  mkworld
    [ (["Bob_efnet_#x_20160116.log"], File (ln "[10:00:00] first") stat_a);
      (["bob_EFnet_#x_20160116.log"], File (ln "[11:00:00] second") stat_a);
      (["bob_efnet_#X_20160116.log"], File (ln "[12:00:00] third") stat_b);
      (["carol_efnet_#x_20160116.log"], File (ln "[09:00:00] alone") stat_a);
      (["output"], Dir) ]
    [] [] 1000 420 no_fault.

(** A text with its colons taken out, one character at a time. *)
Definition without_colons (ts : string) : string :=
  string_of_list_ascii
    (filter (fun c => negb (Ascii.eqb c ":")) (list_ascii_of_string ts)).

(** A staging directory as the copying stage leaves it: a directory of
    distinct entries with nothing below them, in a system that refuses no
    directory. *)
Definition flat_staging (w : world) : Prop :=
  find_node (tree w) ["output"] = Some Dir
  /\ NoDup (children (tree w) ["output"])
  /\ (forall q, is_prefix ["output"] q -> 2 < length q -> find_node (tree w) q = None)
  /\ (forall q, mkdir_fault w q = None).


(** A second run of [convertToHierarchy] that moves nothing: it ends
    normally, leaves the tree as it was, and prints one "did not match"
    warning per entry of the staging directory between its first and last
    message. *)
Definition moves_nothing (logType : string) (w : world) : Prop :=
  exists w',
    convertToHierarchy logType w = (Ok tt, w')
    /\ tree w' = tree w
    /\ stdout w'
       = stdout w ++ ["Rearranging logs into 1.6 hierarchy..."]
           ++ map (fun n => "warning: " +:+ n +:+ " did not match! It will be skipped.")
                  (children (tree w) ["output"])
           ++ ["Done!"].

(** A pair whose timestamps are not written to the same width. *)
Definition uneven_folder : world :=
  mkworld
    [ (["Chat_20160115.log"], File (ln "[12:3:46] late") stat_a);
      (["chat_20160115.log"], File (ln "[1:23:45] early") stat_b);
      (["output"], Dir) ]
    [] [] 1000 420 no_fault.

(** A ZNC 1.4 log folder of well-formed Global logs: a pair that differs in
    case only, a log on its own and a file that is no log; the answers typed
    are Enter and "global". *)
Definition znc_folder : world :=
  mkworld
    [ (["alice_FreeNode_#chan_20160115.log"],
       File (ln "[00:01:00] a" +:+ ln "[00:02:00] c") stat_a);
      (["alice_freenode_#chan_20160115.log"], File (ln "[00:00:30] b") stat_b);
      (["bob_efnet_#x_20160116.log"], File (ln "[10:00:00] x") stat_a);
      (["notes.txt"], File "todo" stat_a) ]
    [] [Line ""; Line "global"] 1000 420 no_fault.

(* ================================================================== *)
(** * Properties *)
(* ================================================================== *)

(** ** Strings *)

Lemma append_empty_r (s : string) : s +:+ "" = s.
Proof. induction s as [|c s IH]; simpl; [reflexivity | now rewrite IH]. Qed.

Lemma append_assoc (a b c : string) : (a +:+ b) +:+ c = a +:+ (b +:+ c).
Proof. induction a as [|x a IH]; simpl; [reflexivity | now rewrite IH]. Qed.

Lemma length_append (a b : string) :
  String.length (a +:+ b) = String.length a + String.length b.
Proof. induction a as [|x a IH]; simpl; [reflexivity | now rewrite IH]. Qed.

Lemma substring_all (s : string) : substring 0 (String.length s) s = s.
Proof. induction s as [|c s IH]; simpl; [reflexivity | now rewrite IH]. Qed.

Lemma substring_split (n : nat) (s : string) :
  n <= String.length s ->
  s = substring 0 n s +:+ substring n (String.length s - n) s.
Proof.
  revert n; induction s as [|c s IH]; intros n Hn; simpl in *.
  - destruct n; reflexivity.
  - destruct n as [|n]; simpl.
    + now rewrite substring_all.
    + f_equal. apply IH. lia.
Qed.

Lemma substring_suffix (p s : string) :
  substring (String.length p) (String.length s) (p +:+ s) = s.
Proof.
  induction p as [|c p IH]; simpl.
  - apply substring_all.
  - exact IH.
Qed.

Lemma endswith_iff (s suffix : string) :
  Py.endswith s suffix = true <-> exists stem, s = stem +:+ suffix.
Proof.
  unfold Py.endswith. rewrite andb_true_iff, Nat.leb_le, String.eqb_eq. split.
  - intros [Hlen Hsub].
    exists (substring 0 (String.length s - String.length suffix) s).
    pose proof (substring_split (String.length s - String.length suffix) s) as E.
    replace (String.length s - (String.length s - String.length suffix))
      with (String.length suffix) in E by lia.
    rewrite Hsub in E. apply E. lia.
  - intros [stem ->]. rewrite length_append. split; [lia|].
    replace (String.length stem + String.length suffix - String.length suffix)
      with (String.length stem) by lia.
    apply substring_suffix.
Qed.


(** ** The world monad *)

Lemma with_stdout_same (w : world) : with_stdout w (stdout w) = w.
Proof. destruct w; reflexivity. Qed.

Lemma with_stdout_twice (w : world) (a b : list string) :
  with_stdout (with_stdout w a) b = with_stdout w b.
Proof. reflexivity. Qed.

Lemma print_run (line : string) (w : world) :
  print line w = (Ok tt, with_stdout w (stdout w ++ [line])).
Proof. reflexivity. Qed.

(** ** Lists *)

Lemma filter_nil_iff {A : Type} (p : A -> bool) (l : list A) :
  filter p l = [] -> forall x, In x l -> p x = false.
Proof.
  induction l as [|y l IH]; simpl; intros E x Hx; [contradiction|].
  destruct (p y) eqn:Hy; [discriminate|].
  destruct Hx as [<-|Hx]; auto.
Qed.

Lemma filter_cons_split {A : Type} (p : A -> bool) (l : list A) (a : A) (r : list A) :
  filter p l = a :: r ->
  exists l1 l2, l = l1 ++ a :: l2 /\ (forall x, In x l1 -> p x = false)
                /\ p a = true /\ filter p l2 = r.
Proof.
  induction l as [|y l IH]; simpl; intros E; [discriminate|].
  destruct (p y) eqn:Hy.
  - injection E as E1 E2. subst y. exists [], l. simpl. intuition.
  - destruct (IH E) as (l1 & l2 & -> & H1 & Ha & Hr).
    exists (y :: l1), l2. simpl. repeat split; auto.
    intros x [<-|Hx]; auto.
Qed.

Lemma count_occ_map_filter {A : Type} (f : A -> string) (l : list A) (k : string) :
  count_occ string_dec (map f l) k
  = length (filter (fun v => String.eqb (f v) k) l).
Proof.
  induction l as [|x l IH]; simpl; [reflexivity|].
  destruct (string_dec (f x) k) as [E|E].
  - apply String.eqb_eq in E. rewrite E. simpl. now rewrite IH.
  - apply String.eqb_neq in E. rewrite E. exact IH.
Qed.

(** ** The counter *)

Lemma count_one_keys (counts : list (string * nat)) (x k : string) :
  In k (map fst (count_one counts x)) <-> k = x \/ In k (map fst counts).
Proof.
  induction counts as [|[k0 v0] counts IH]; simpl.
  - intuition.
  - destruct (String.eqb k0 x) eqn:E; simpl.
    + apply String.eqb_eq in E. subst. intuition.
    + rewrite IH. intuition.
Qed.

Lemma count_one_NoDup (counts : list (string * nat)) (x : string) :
  NoDup (map fst counts) -> NoDup (map fst (count_one counts x)).
Proof.
  induction counts as [|[k0 v0] counts IH]; simpl; intros ND.
  - constructor; [intros []|constructor].
  - inversion ND as [|? ? Hnotin ND']; subst.
    destruct (String.eqb k0 x) eqn:E; simpl.
    + constructor; assumption.
    + constructor; [|auto].
      rewrite count_one_keys. intros [->|H]; [|contradiction].
      rewrite String.eqb_refl in E. discriminate.
Qed.

Lemma count_one_other (counts : list (string * nat)) (x k : string) (v : nat) :
  k <> x -> (In (k, v) (count_one counts x) <-> In (k, v) counts).
Proof.
  intros Hk. induction counts as [|[k0 v0] counts IH]; simpl.
  - split; [intros [E|[]]; congruence | intros []].
  - destruct (String.eqb k0 x) eqn:E; simpl.
    + apply String.eqb_eq in E. subst k0.
      split; (intros [H|H]; [congruence | now right]).
    + rewrite IH. reflexivity.
Qed.

Lemma count_one_same (counts : list (string * nat)) (x : string) (v : nat) :
  NoDup (map fst counts) ->
  (In (x, v) (count_one counts x) <->
   (v = 1 /\ ~ In x (map fst counts)) \/ (exists v0, v = S v0 /\ In (x, v0) counts)).
Proof.
  induction counts as [|[k0 v0] counts IH]; simpl; intros ND.
  - split.
    + intros [E|[]]. injection E as <-. left. intuition.
    + intros [[-> _]|(v1 & _ & [])]. now left.
  - inversion ND as [|? ? Hnotin ND']; subst.
    destruct (String.eqb k0 x) eqn:E; simpl.
    + apply String.eqb_eq in E. subst k0. split.
      * intros [H|H].
        -- injection H as <-. right. exists v0. auto.
        -- exfalso. apply Hnotin. apply (in_map fst) in H. exact H.
      * intros [[_ H]|(v1 & -> & [H|H])].
        -- exfalso. apply H. now left.
        -- injection H as ->. now left.
        -- exfalso. apply Hnotin. apply (in_map fst) in H. exact H.
    + apply String.eqb_neq in E. rewrite (IH ND'). split.
      * intros [H|[[-> H]|(v1 & -> & H)]].
        -- congruence.
        -- left. split; [reflexivity|]. intros [H'|H']; [congruence|contradiction].
        -- right. exists v1. auto.
      * intros [[-> H]|(v1 & -> & [H|H])].
        -- right. left. split; [reflexivity|]. intros H'. apply H. now right.
        -- congruence.
        -- right. right. exists v1. auto.
Qed.

Lemma counts_of_step (seen : list string) (counts : list (string * nat)) (x : string) :
  counts_of seen counts -> counts_of (seen ++ [x]) (count_one counts x).
Proof.
  intros [ND H]. split; [now apply count_one_NoDup|].
  intros k v. rewrite count_occ_app. simpl.
  destruct (string_dec x k) as [->|Hx].
  - rewrite (count_one_same _ _ _ ND). split.
    + intros [[-> Hk]|(v0 & -> & Hin)].
      * destruct (count_occ string_dec seen k) eqn:Ec; [lia|].
        exfalso. apply Hk. apply (in_map fst) with (x := (k, S n)).
        apply H. split; [auto | lia].
      * apply H in Hin. lia.
    + intros [-> _].
      destruct (count_occ string_dec seen k) eqn:Ec.
      * left. split; [reflexivity|]. intros Hin.
        apply in_map_iff in Hin. destruct Hin as ([k' v'] & Ek & Hin).
        simpl in Ek. subst k'. apply H in Hin. lia.
      * right. exists (S n). split; [lia|]. apply H. split; [auto | lia].
  - rewrite count_one_other by congruence. rewrite H. lia.
Qed.

Lemma counts_of_fold (l seen : list string) (counts : list (string * nat)) :
  counts_of seen counts -> counts_of (seen ++ l) (fold_left count_one l counts).
Proof.
  revert seen counts. induction l as [|x l IH]; intros seen counts H; simpl.
  - now rewrite app_nil_r.
  - replace (seen ++ x :: l) with ((seen ++ [x]) ++ l) by now rewrite <- app_assoc.
    apply IH. now apply counts_of_step.
Qed.

Lemma Counter_counts (l : list string) : counts_of l (Counter l).
Proof.
  apply (counts_of_fold l [] []). split; [constructor|].
  intros k v. simpl. split; [intros [] | lia].
Qed.

(** ** The duplicate finder *)

Lemma dupenames_loop (l : list (string * nat)) (acc : list string) (w : world) :
  for_fold l acc dupenames_body w
  = (Ok (acc ++ map fst (filter (fun kv => Nat.eqb (snd kv) 2) l)),
     with_stdout w (stdout w ++
       map dupe_warning (map fst (filter (fun kv => Nat.ltb 2 (snd kv)) l)))).
Proof.
  revert acc w. induction l as [|[k v] l IH]; intros acc w; simpl.
  - now rewrite !app_nil_r, with_stdout_same.
  - unfold bind at 1. unfold dupenames_body at 1. simpl.
    destruct (Nat.ltb 2 v) eqn:Hgt; destruct (Nat.eqb v 2) eqn:Heq;
      unfold bind; simpl; rewrite IH; simpl;
      rewrite <- ?app_assoc; simpl; try reflexivity.
    all: rewrite app_nil_r; reflexivity.
Qed.

Lemma copies_of_filter (names : list string) (dupename : string) :
  copies_of names dupename
  = filter (fun v => String.eqb (Py.lower v) dupename) names.
Proof.
  unfold copies_of.
  enough (forall acc,
    fold_left (fun tmp v => if String.eqb (Py.lower v) dupename then tmp ++ [v] else tmp)
      names acc
    = acc ++ filter (fun v => String.eqb (Py.lower v) dupename) names) as H
    by apply (H []).
  induction names as [|x names IH]; intros acc; simpl.
  - now rewrite app_nil_r.
  - rewrite IH. destruct (String.eqb (Py.lower x) dupename); [|reflexivity].
    now rewrite <- app_assoc.
Qed.

Lemma dupes_loop (names dupenames : list string) :
  fold_left (fun dupes dupename => dupes ++ [copies_of names dupename]) dupenames []
  = map (copies_of names) dupenames.
Proof.
  enough (forall acc,
    fold_left (fun dupes dupename => dupes ++ [copies_of names dupename]) dupenames acc
    = acc ++ map (copies_of names) dupenames) as H by apply (H []).
  induction dupenames as [|d ds IH]; intros acc; simpl.
  - now rewrite app_nil_r.
  - rewrite IH. now rewrite <- app_assoc.
Qed.

Lemma NoDup_map_fst_filter {A B : Type} (p : A * B -> bool) (l : list (A * B)) :
  NoDup (map fst l) -> NoDup (map fst (filter p l)).
Proof.
  induction l as [|x l IH]; simpl; intros ND; [constructor|].
  inversion ND as [|? ? Hn ND']; subst.
  destruct (p x); simpl; auto.
  constructor; auto.
  intros H. apply Hn. apply in_map_iff in H. destruct H as (y & E & Hy).
  apply filter_In in Hy. apply in_map_iff. exists y. tauto.
Qed.

Lemma findMixedCaseDupes_run
    (items : list (string * nat) -> list (string * nat)) (names : list string) (w : world) :
  findMixedCaseDupes items names w
  = (Ok (map (fun k => filter (fun v => String.eqb (Py.lower v) k) names)
             (map fst (filter (fun kv => Nat.eqb (snd kv) 2)
                              (items (Counter (map Py.lower names)))))),
     with_stdout w (stdout w ++
       map dupe_warning
           (map fst (filter (fun kv => Nat.ltb 2 (snd kv))
                            (items (Counter (map Py.lower names))))))).
Proof.
  unfold findMixedCaseDupes, bind. rewrite dupenames_loop. simpl.
  unfold ret. f_equal. f_equal. rewrite dupes_loop.
  apply map_ext. intros k. apply copies_of_filter.
Qed.


(** ** The line pattern *)

Lemma consumed_prefix (pre rest : string) : consumed (pre +:+ rest) rest = pre.
Proof.
  unfold consumed. rewrite length_append.
  replace (String.length pre + String.length rest - String.length rest)
    with (String.length pre) by lia.
  induction pre as [|c pre IH]; simpl.
  - destruct rest; reflexivity.
  - now rewrite IH.
Qed.

(** [.*$], greedy, succeeds exactly on what is one line. *)
Lemma many_dot_to_end (s : string) (gs : captures) :
  many true Dot s gs (fun s' gs' => if at_end s' then Some gs' else None)
  = if one_line s then Some gs else None.
Proof.
  induction s as [|c s IH]; simpl; [reflexivity|].
  rewrite IH. destruct (Ascii.eqb c Py.nl) eqn:Ec; simpl.
  - destruct s; reflexivity.
  - destruct (one_line s) eqn:Es; [reflexivity|].
    destruct s; [discriminate | reflexivity].
Qed.

Lemma split_bracket_one_line (s ts rest : string) :
  split_bracket s = Some (ts, rest) -> one_line s = one_line rest.
Proof.
  revert ts. induction s as [|c s IH]; simpl; intros ts E; [discriminate|].
  destruct (Ascii.eqb c "]") eqn:Eb.
  - injection E as _ <-. apply Ascii.eqb_eq in Eb. subst c. reflexivity.
  - destruct (Ascii.eqb c Py.nl); [discriminate|].
    destruct (split_bracket s) as [[ts' rest']|]; [|discriminate].
    injection E as _ <-. now apply (IH ts').
Qed.

(** A lazy [.*?] in front of a continuation that wants a closing bracket
    and then one line: it stops at the first closing bracket, and nowhere
    when what follows that bracket is not one line. *)
Lemma lazy_scan_to_bracket (k : cont) (s0 : string)
    (k_empty : forall gs, k "" gs = None)
    (k_char : forall c s gs,
        k (String c s) gs
        = if Ascii.eqb c "]"
          then if one_line s
               then Some (set_group (Idx 1) (consumed s0 (String c s)) gs)
               else None
          else None) :
  forall s pre gs, s0 = pre +:+ s ->
  many false Dot s gs k
  = match split_bracket s with
    | Some (ts, rest) =>
        if one_line rest then Some (set_group (Idx 1) (pre +:+ ts) gs) else None
    | None => None
    end.
Proof.
  induction s as [|c s IH]; intros pre gs E; [apply k_empty|].
  cbn [many split_bracket in_cset]. rewrite k_char.
  destruct (Ascii.eqb c "]") eqn:Eb.
  - apply Ascii.eqb_eq in Eb. subst c.
    destruct (one_line s) eqn:Es.
    + rewrite E, consumed_prefix, append_empty_r. reflexivity.
    + change (negb (Ascii.eqb "]" Py.nl)) with true. cbv iota.
      rewrite (IH (pre +:+ "]")) by (rewrite E, append_assoc; reflexivity).
      destruct (split_bracket s) as [[ts rest]|] eqn:Esp; [|reflexivity].
      rewrite <- (split_bracket_one_line _ _ _ Esp), Es. reflexivity.
  - destruct (Ascii.eqb c Py.nl) eqn:En; [reflexivity|]. simpl negb. cbv iota.
    rewrite (IH (pre +:+ String c "")) by (rewrite E, append_assoc; reflexivity).
    destruct (split_bracket s) as [[ts rest]|]; [|reflexivity].
    rewrite append_assoc. reflexivity.
Qed.

(** The line pattern, in closed form. *)
Lemma lineRe_timestamp (line : string) :
  match_ lineRe line = option_map (fun ts => [(Idx 1, ts)]) (timestamp line).
Proof.
  destruct line as [|c s]; [reflexivity|].
  unfold match_, lineRe, timestamp. cbn [rmatch].
  rewrite Nat.eqb_refl. cbn [in_cset].
  destruct (Ascii.eqb c "["); [|reflexivity].
  rewrite (lazy_scan_to_bracket _ s) with (pre := "").
  - destruct (split_bracket s) as [[ts rest]|]; [|reflexivity].
    destruct (one_line rest); reflexivity.
  - reflexivity.
  - intros c' s' gs. destruct (Ascii.eqb c' "]"); [|reflexivity].
    apply many_dot_to_end.
  - reflexivity.
Qed.

Lemma one_line_no_newline (s : string) :
  contains Py.nl s = false -> one_line s = true.
Proof.
  induction s as [|c s IH]; simpl; [reflexivity|].
  destruct (Ascii.eqb c Py.nl); [discriminate | exact IH].
Qed.

Lemma one_line_snoc (s : string) (c : ascii) :
  contains Py.nl s = false -> one_line (s +:+ String c "") = true.
Proof.
  induction s as [|a s IH]; simpl.
  - intros _. destruct (Ascii.eqb c Py.nl); reflexivity.
  - destruct (Ascii.eqb a Py.nl); [discriminate | exact IH].
Qed.

Lemma contains_snoc (x : ascii) (s : string) (c : ascii) :
  contains x (s +:+ String c "") = contains x s || Ascii.eqb c x.
Proof.
  induction s as [|a s IH]; simpl.
  - now rewrite orb_false_r.
  - now rewrite IH, orb_assoc.
Qed.

(** Every line [readlines] returns is one line. *)
Lemma readlines_from_one_line (data cur line : string) :
  contains Py.nl cur = false ->
  In line (Py.readlines_from cur data) -> one_line line = true.
Proof.
  revert cur. induction data as [|c data IH]; simpl; intros cur Hcur Hin.
  - destruct (String.eqb cur ""); [contradiction|].
    destruct Hin as [<-|[]]. now apply one_line_no_newline.
  - destruct (Ascii.eqb c Py.nl) eqn:Ec.
    + destruct Hin as [<-|Hin].
      * now apply one_line_snoc.
      * now apply (IH "").
    + apply (IH (cur +:+ String c "")); [|exact Hin].
      rewrite contains_snoc, Hcur, Ec. reflexivity.
Qed.

Lemma readlines_one_line (data line : string) :
  In line (Py.readlines data) -> one_line line = true.
Proof. now apply readlines_from_one_line. Qed.





(** The timestamp is the text between the opening bracket and the first
    closing one. *)
Lemma split_bracket_app (ts rest : string) :
  contains "]" ts = false -> contains Py.nl ts = false ->
  split_bracket (ts +:+ String "]" rest) = Some (ts, rest).
Proof.
  induction ts as [|c ts IH]; simpl; [reflexivity|].
  destruct (Ascii.eqb c "]"); [discriminate|].
  destruct (Ascii.eqb c Py.nl); [discriminate|]. simpl.
  intros H1 H2. now rewrite IH.
Qed.

Lemma timestamp_of_bracketed (ts rest : string) :
  contains "]" ts = false -> contains Py.nl ts = false -> one_line rest = true ->
  timestamp ("[" +:+ ts +:+ "]" +:+ rest) = Some ts.
Proof.
  intros H1 H2 H3. simpl. rewrite split_bracket_app, H3 by assumption. reflexivity.
Qed.

(** ** The matcher finds only what the pattern spans *)

Lemma many_sound (greedy : bool) (a : cset) (k : cont) (m : captures) :
  forall s gs,
    many greedy a s gs k = Some m ->
    exists pre rest, s = pre +:+ rest /\ all_in a pre = true /\ k rest gs = Some m.
Proof.
  induction s as [|c s IH]; intros gs H.
  - exists "", "". auto.
  - cbn [many] in H.
    assert (Hmore : (if in_cset a c then many greedy a s gs k else None) = Some m ->
              exists pre rest, String c s = pre +:+ rest /\ all_in a pre = true
                               /\ k rest gs = Some m).
    { destruct (in_cset a c) eqn:Ec; [|discriminate]. intros H'.
      destruct (IH _ H') as (pre & rest & -> & Hall & Hk).
      exists (String c pre), rest. simpl. rewrite Ec. auto. }
    assert (Hstop : k (String c s) gs = Some m ->
              exists pre rest, String c s = pre +:+ rest /\ all_in a pre = true
                               /\ k rest gs = Some m).
    { intros H'. exists "", (String c s). auto. }
    destruct greedy.
    + destruct (if in_cset a c then many true a s gs k else None) eqn:E.
      * injection H as ->. auto.
      * auto.
    + destruct (k (String c s) gs) eqn:E.
      * injection H as ->. auto.
      * auto.
Qed.

Theorem rmatch_sound (r : regex) (subject : string) :
  forall s gs (k : cont) m,
    rmatch r subject s gs k = Some m ->
    exists rest gs', spans r subject s rest /\ k rest gs' = Some m.
Proof.
  induction r as [| |a|g a|g a|r1 IH1 r2 IH2|key r1 IH1]; intros s gs k m H;
    cbn [rmatch spans] in *.
  - destruct (Nat.eqb (String.length s) (String.length subject)) eqn:E; [|discriminate].
    apply Nat.eqb_eq in E. eauto.
  - destruct (at_end s) eqn:E; [|discriminate]. eauto.
  - destruct s as [|c s]; [discriminate|].
    destruct (in_cset a c) eqn:E; [|discriminate]. eauto 6.
  - destruct (many_sound _ _ _ _ _ _ H) as (pre & rest & E & Hall & Hk). eauto 6.
  - destruct s as [|c s]; [discriminate|].
    destruct (in_cset a c) eqn:E; [|discriminate].
    destruct (many_sound _ _ _ _ _ _ H) as (pre & rest & -> & Hall & Hk).
    exists rest, gs. split; [|exact Hk]. exists c, pre. auto.
  - destruct (IH1 _ _ _ _ H) as (mid & gs1 & H1 & H').
    destruct (IH2 _ _ _ _ H') as (rest & gs2 & H2 & Hk).
    eauto 6.
  - destruct (IH1 _ _ _ _ H) as (rest & gs1 & H1 & Hk). eauto.
Qed.

Lemma match_sound (r : regex) (subject : string) (m : captures) :
  match_ r subject = Some m -> exists rest, spans r subject subject rest.
Proof.
  intros H. destruct (rmatch_sound _ _ _ _ _ _ H) as (rest & _ & Hs & _). eauto.
Qed.

(** ** The date field *)

Lemma digits_then_log_app (d rest : string) (seen : bool) :
  all_in digit d = true -> (seen = true \/ d <> "") ->
  digits_then_log seen (d +:+ ".log" +:+ rest) = true.
Proof.
  revert seen. induction d as [|c d IH]; intros seen Hall Hs.
  - destruct Hs as [->|Hs]; [reflexivity | congruence].
  - cbn [all_in] in Hall. apply andb_true_iff in Hall. destruct Hall as [Hc Hd].
    cbn [String.append digits_then_log].
    change (in_cset digit c) with (Py.is_digit c) in Hc. rewrite Hc.
    apply IH; auto.
Qed.

Lemma has_date_field_app (stem d rest : string) :
  all_in digit d = true -> d <> "" ->
  has_date_field (stem +:+ "_" +:+ d +:+ ".log" +:+ rest) = true.
Proof.
  intros Hall Hd. induction stem as [|c stem IH].
  - change (has_date_field (String "_" (d +:+ ".log" +:+ rest)) = true).
    cbn [has_date_field]. rewrite digits_then_log_app by auto. reflexivity.
  - change (has_date_field (String c (stem +:+ "_" +:+ d +:+ ".log" +:+ rest)) = true).
    cbn [has_date_field]. rewrite IH. apply orb_true_r.
Qed.

Lemma spans_dot_log (subject s rest : string) :
  spans dot_log subject s rest -> s = ".log" +:+ rest.
Proof.
  cbn [spans dot_log].
  intros (m1 & (c1 & -> & E1) & m2 & (c2 & -> & E2) & m3 & (c3 & -> & E3)
          & (c4 & -> & E4)).
  cbn [in_cset] in E1, E2, E3, E4.
  apply Ascii.eqb_eq in E1, E2, E3, E4. now subst.
Qed.

(** Equations between concatenations, up to bracketing. *)
Ltac norm_append :=
  repeat (progress (cbn [String.append]; rewrite ?append_assoc)); reflexivity.

Lemma has_date_field_shape (s stem d rest : string) :
  s = stem +:+ "_" +:+ d +:+ ".log" +:+ rest ->
  all_in digit d = true -> d <> "" -> has_date_field s = true.
Proof. intros ->. apply has_date_field_app. Qed.

(** A name a pattern of the script matches has a date field. *)
Lemma matched_has_date_field (logType logfile : string) (m : captures) :
  match_ (pattern_of logType) logfile = Some m -> has_date_field logfile = true.
Proof.
  intros H. apply match_sound in H. destruct H as (rest & H).
  unfold pattern_of in H.
  destruct (String.eqb logType "N"); [|destruct (String.eqb logType "U")].
  - unfold networkRe in H. cbn [spans] in H.
    destruct H as (m0 & [-> _] & m1 & (c & pre & -> & _ & _)
                   & m6 & (c6 & -> & E6) & m7 & (c7 & pre7 & -> & E7 & Hpre7) & Hlog).
    apply spans_dot_log in Hlog. subst m7.
    cbn [in_cset] in E6. apply Ascii.eqb_eq in E6. subst c6.
    apply (has_date_field_shape _ (String c pre) (String c7 pre7) rest).
    + norm_append.
    + cbn [all_in]. now rewrite E7, Hpre7.
    + discriminate.
  - unfold userRe in H. cbn [spans] in H.
    destruct H as (m0 & [-> _] & m1 & (c & pre & -> & _ & _)
                   & m2 & (c2 & -> & _) & m3 & (c3 & pre3 & -> & _ & _)
                   & m6 & (c6 & -> & E6) & m7 & (c7 & pre7 & -> & E7 & Hpre7) & Hlog).
    apply spans_dot_log in Hlog. subst m7.
    cbn [in_cset] in E6. apply Ascii.eqb_eq in E6. subst c6.
    apply (has_date_field_shape _ (String c (pre +:+ String c2 (String c3 pre3)))
                                (String c7 pre7) rest).
    + norm_append.
    + cbn [all_in]. now rewrite E7, Hpre7.
    + discriminate.
  - unfold globalRe in H. cbn [spans] in H.
    destruct H as (m0 & [-> _] & m1 & (c & pre & -> & _ & _)
                   & m2 & (c2 & -> & _) & m3 & (c3 & pre3 & -> & _ & _)
                   & m4 & (c4 & -> & _) & m5 & (c5 & pre5 & -> & _ & _)
                   & m6 & (c6 & -> & E6) & m7 & (c7 & pre7 & -> & E7 & Hpre7)
                   & m8 & Hlog & _).
    apply spans_dot_log in Hlog. subst m7.
    cbn [in_cset] in E6. apply Ascii.eqb_eq in E6. subst c6.
    apply (has_date_field_shape _
             (String c (pre +:+ String c2 (String c3 (pre3 +:+ String c4 (String c5 pre5)))))
             (String c7 pre7) m8).
    + norm_append.
    + cbn [all_in]. now rewrite E7, Hpre7.
    + discriminate.
Qed.


(** ** The Global pattern is anchored at the end *)

Lemma append_snoc_inj (a b : string) (x y : ascii) :
  a +:+ String x "" = b +:+ String y "" -> a = b /\ x = y.
Proof.
  revert b. induction a as [|c a IH]; intros [|d b] E; simpl in E.
  - injection E as ->. auto.
  - injection E as -> E. destruct b; discriminate.
  - injection E as -> E. destruct a; discriminate.
  - injection E as -> E. destruct (IH _ E) as [-> ->]. auto.
Qed.

Lemma append_inj_r (a b c : string) : a +:+ c = b +:+ c -> a = b.
Proof.
  revert a b. induction c as [|x c IH]; intros a b E.
  - now rewrite !append_empty_r in E.
  - replace (a +:+ String x c) with ((a +:+ String x "") +:+ c) in E
      by now rewrite append_assoc.
    replace (b +:+ String x c) with ((b +:+ String x "") +:+ c) in E
      by now rewrite append_assoc.
    apply IH in E. now apply append_snoc_inj in E.
Qed.

Lemma digits_no_underscore (d : string) : all_in digit d = true -> contains "_" d = false.
Proof.
  induction d as [|c d IH]; simpl; [reflexivity|].
  intros H. apply andb_true_iff in H. destruct H as [Hc Hd].
  rewrite (IH Hd), orb_false_r. apply Ascii.eqb_neq. intros ->. discriminate Hc.
Qed.

Lemma contains_app (c : ascii) (a b : string) :
  contains c (a +:+ b) = contains c a || contains c b.
Proof.
  induction a as [|x a IH]; simpl; [reflexivity|]. now rewrite IH, orb_assoc.
Qed.

(** What follows the last underscore is the same however the text before it
    is cut. *)
Lemma last_underscore_unique (x1 x2 d1 d2 : string) :
  x1 +:+ "_" +:+ d1 = x2 +:+ "_" +:+ d2 ->
  contains "_" d1 = false -> contains "_" d2 = false -> d1 = d2.
Proof.
  revert x2. induction x1 as [|c x1 IH]; intros [|c2 x2] E H1 H2; simpl in E.
  - now injection E.
  - injection E as <- E. subst d1. rewrite contains_app in H1. simpl in H1.
    rewrite orb_true_r in H1. discriminate.
  - injection E as -> E. subst d2. rewrite contains_app in H2. simpl in H2.
    rewrite orb_true_r in H2. discriminate.
  - injection E as _ E. eapply IH; eauto.
Qed.




(** ** Where a repetition stops *)

(** A lazy repetition stops at the first place its continuation accepts. *)
Lemma many_lazy_first (a : cset) (k : cont) (rest : string) (gs m : captures) :
  forall p,
    all_in a p = true ->
    (forall p1 p2, p = p1 +:+ p2 -> p2 <> "" -> k (p2 +:+ rest) gs = None) ->
    k rest gs = Some m ->
    many false a (p +:+ rest) gs k = Some m.
Proof.
  induction p as [|c p IH]; intros Hall Hfail Hk.
  - cbn [String.append]. destruct rest; cbn [many]; now rewrite Hk.
  - cbn [all_in] in Hall. apply andb_true_iff in Hall. destruct Hall as [Hc Hp].
    cbn [String.append many].
    assert (Hf : k (String c (p +:+ rest)) gs = None)
      by (apply (Hfail "" (String c p)); [reflexivity | discriminate]).
    rewrite Hf, Hc.
    apply IH; auto.
    intros p1 p2 -> Hne. apply (Hfail (String c p1) p2); auto.
Qed.

Lemma many_greedy_none (a : cset) (k : cont) (gs : captures) :
  forall s,
    (forall s1 s2, s = s1 +:+ s2 -> k s2 gs = None) ->
    many true a s gs k = None.
Proof.
  induction s as [|c s IH]; intros Hfail.
  - apply (Hfail "" ""). reflexivity.
  - cbn [many].
    assert (Hin : (if in_cset a c then many true a s gs k else None) = None).
    { destruct (in_cset a c); [|reflexivity]. apply IH.
      intros s1 s2 ->. apply (Hfail (String c s1) s2). reflexivity. }
    rewrite Hin. apply (Hfail "" (String c s)). reflexivity.
Qed.

(** A greedy repetition stops at the last place its continuation accepts. *)
Lemma many_greedy_last (a : cset) (k : cont) (rest : string) (gs m : captures) :
  forall p,
    all_in a p = true ->
    k rest gs = Some m ->
    (forall r1 r2, rest = r1 +:+ r2 -> r1 <> "" -> k r2 gs = None) ->
    many true a (p +:+ rest) gs k = Some m.
Proof.
  induction p as [|c p IH]; intros Hall Hk Hfail.
  - cbn [String.append]. destruct rest as [|c r]; cbn [many]; [exact Hk|].
    assert (Hin : (if in_cset a c then many true a r gs k else None) = None).
    { destruct (in_cset a c); [|reflexivity]. apply many_greedy_none.
      intros s1 s2 ->. apply (Hfail (String c s1) s2); [reflexivity | discriminate]. }
    now rewrite Hin.
  - cbn [all_in] in Hall. apply andb_true_iff in Hall. destruct Hall as [Hc Hp].
    cbn [String.append many]. rewrite Hc. now rewrite IH.
Qed.

Lemma contains_false_head (x : ascii) (s : string) :
  contains x s = false ->
  match s with
  | EmptyString => True
  | String c _ => Ascii.eqb c x = false
  end.
Proof.
  destruct s as [|c s]; simpl; [trivial|]. intros H. now apply orb_false_iff in H.
Qed.

Lemma contains_suffix (x : ascii) (s s1 s2 : string) :
  s = s1 +:+ s2 -> contains x s = false -> contains x s2 = false.
Proof.
  intros -> H. rewrite contains_app in H. now apply orb_false_iff in H.
Qed.

(** A lazy repetition over an underscore-free text, in front of a
    continuation that wants an underscore, runs to the end of the text. *)
Lemma many_lazy_to_underscore (a : cset) (k : cont) (rest : string) (gs m : captures)
    (p : string) :
  all_in a p = true -> contains "_" p = false ->
  (forall c s, Ascii.eqb c "_" = false -> k (String c s) gs = None) ->
  k rest gs = Some m ->
  many false a (p +:+ rest) gs k = Some m.
Proof.
  intros Hall Hp Hk Hrest. apply many_lazy_first; [exact Hall| |exact Hrest].
  intros p1 p2 E Hne.
  pose proof (contains_false_head _ _ (contains_suffix _ _ _ _ E Hp)) as Hh.
  destruct p2 as [|c p2]; [congruence|]. cbn [String.append]. now apply Hk.
Qed.

(** ** The patterns on well-formed names *)

Section WellFormed.

(** How a pattern ends: [\.log] with or without [$]. *)
Variable tail : regex.
Hypothesis tail_log :
  forall subject gs, rmatch tail subject ".log" gs (fun _ gs' => Some gs') = Some gs.
Hypothesis tail_short :
  forall subject r1 r2 gs,
    ".log" = r1 +:+ r2 -> r1 <> "" ->
    rmatch tail subject r2 gs (fun _ gs' => Some gs') = None.

(** The date and what follows it. *)
Lemma date_tail_match (subject d : string) (gs : captures) :
  d <> "" -> all_in digit d = true ->
  rmatch (Seq (One (Lit "_")) (Seq (Grp (Named "date") (Many1 true digit)) tail))
         subject ("_" +:+ d +:+ ".log") gs (fun _ gs' => Some gs')
  = Some (set_group (Named "date") d gs).
Proof.
  intros Hne Hall. destruct d as [|d0 d]; [congruence|].
  cbn [all_in] in Hall. apply andb_true_iff in Hall. destruct Hall as [H0 Hd].
  change ("_" +:+ String d0 d +:+ ".log") with (String "_" (String d0 (d +:+ ".log"))).
  cbn [rmatch].
  change (in_cset (Lit "_") "_") with true. cbv iota.
  rewrite H0.
  apply many_greedy_last.
  - exact Hd.
  - cbv beta. change (String d0 (d +:+ ".log")) with (String d0 d +:+ ".log").
    rewrite consumed_prefix. apply tail_log.
  - intros r1 r2 E Hr1. cbv beta. now apply (tail_short subject r1 r2).
Qed.

(** The window, greedy, runs to the last underscore. *)
Lemma window_tail_match (subject w d : string) (gs : captures) :
  w <> "" -> all_in Dot w = true -> d <> "" -> all_in digit d = true ->
  rmatch (Seq (Grp (Named "window") (Many1 true Dot))
            (Seq (One (Lit "_")) (Seq (Grp (Named "date") (Many1 true digit)) tail)))
         subject (w +:+ "_" +:+ d +:+ ".log") gs (fun _ gs' => Some gs')
  = Some (set_group (Named "date") d (set_group (Named "window") w gs)).
Proof.
  intros Hw Hwall Hd Hdall. destruct w as [|w0 w]; [congruence|].
  cbn [all_in] in Hwall. apply andb_true_iff in Hwall. destruct Hwall as [H0 Hwall].
  change (String w0 w +:+ "_" +:+ d +:+ ".log")
    with (String w0 (w +:+ "_" +:+ d +:+ ".log")).
  cbn [rmatch]. rewrite H0.
  apply many_greedy_last.
  - exact Hwall.
  - cbv beta.
    change (String w0 (w +:+ "_" +:+ d +:+ ".log"))
      with (String w0 w +:+ "_" +:+ d +:+ ".log").
    rewrite consumed_prefix. now apply date_tail_match.
  - intros r1 r2 E Hr1. cbv beta.
    destruct r1 as [|c1 r1]; [congruence|]. cbn [String.append] in E.
    injection E as _ E.
    assert (Hno : contains "_" r2 = false).
    { apply (contains_suffix _ _ _ _ E). rewrite contains_app.
      now rewrite (digits_no_underscore d Hdall). }
    apply contains_false_head in Hno.
    destruct r2 as [|c r2]; [reflexivity|]. cbn [rmatch in_cset]. now rewrite Hno.
Qed.

(** The network, lazy, stops at its first underscore. *)
Lemma network_tail_match (subject n w d : string) (gs : captures) :
  n <> "" -> all_in word_or_dash n = true -> contains "_" n = false ->
  w <> "" -> all_in Dot w = true -> d <> "" -> all_in digit d = true ->
  rmatch (Seq (Grp (Named "network") (Many1 false word_or_dash))
            (Seq (One (Lit "_"))
               (Seq (Grp (Named "window") (Many1 true Dot))
                  (Seq (One (Lit "_"))
                     (Seq (Grp (Named "date") (Many1 true digit)) tail)))))
         subject (n +:+ "_" +:+ w +:+ "_" +:+ d +:+ ".log") gs (fun _ gs' => Some gs')
  = Some (set_group (Named "date") d
            (set_group (Named "window") w (set_group (Named "network") n gs))).
Proof.
  intros Hn Hnall Hnu Hw Hwall Hd Hdall. destruct n as [|n0 n]; [congruence|].
  cbn [all_in] in Hnall. apply andb_true_iff in Hnall. destruct Hnall as [H0 Hnall].
  cbn [contains] in Hnu. apply orb_false_iff in Hnu. destruct Hnu as [_ Hnu].
  change (String n0 n +:+ "_" +:+ w +:+ "_" +:+ d +:+ ".log")
    with (String n0 (n +:+ "_" +:+ w +:+ "_" +:+ d +:+ ".log")).
  cbn [rmatch]. rewrite H0.
  apply many_lazy_to_underscore.
  - exact Hnall.
  - exact Hnu.
  - intros c s Hc. cbn [rmatch in_cset]. now rewrite Hc.
  - cbv beta.
    change (String n0 (n +:+ "_" +:+ w +:+ "_" +:+ d +:+ ".log"))
      with (String n0 n +:+ "_" +:+ w +:+ "_" +:+ d +:+ ".log").
    rewrite consumed_prefix.
    change ("_" +:+ w +:+ "_" +:+ d +:+ ".log")
      with (String "_" (w +:+ "_" +:+ d +:+ ".log")).
    cbn [rmatch]. change (in_cset (Lit "_") "_") with true. cbv iota.
    now apply window_tail_match.
Qed.

(** The user, lazy, stops at its first underscore. *)
Lemma user_tail_match (subject u n w d : string) (gs : captures) :
  u <> "" -> all_in Dot u = true -> contains "_" u = false ->
  n <> "" -> all_in word_or_dash n = true -> contains "_" n = false ->
  w <> "" -> all_in Dot w = true -> d <> "" -> all_in digit d = true ->
  rmatch (Seq (Grp (Named "user") (Many1 false Dot))
            (Seq (One (Lit "_"))
               (Seq (Grp (Named "network") (Many1 false word_or_dash))
                  (Seq (One (Lit "_"))
                     (Seq (Grp (Named "window") (Many1 true Dot))
                        (Seq (One (Lit "_"))
                           (Seq (Grp (Named "date") (Many1 true digit)) tail)))))))
         subject (u +:+ "_" +:+ n +:+ "_" +:+ w +:+ "_" +:+ d +:+ ".log") gs
         (fun _ gs' => Some gs')
  = Some (set_group (Named "date") d
            (set_group (Named "window") w
               (set_group (Named "network") n (set_group (Named "user") u gs)))).
Proof.
  intros Hu Huall Huu Hn Hnall Hnu Hw Hwall Hd Hdall.
  destruct u as [|u0 u]; [congruence|].
  cbn [all_in] in Huall. apply andb_true_iff in Huall. destruct Huall as [H0 Huall].
  cbn [contains] in Huu. apply orb_false_iff in Huu. destruct Huu as [_ Huu].
  change (String u0 u +:+ "_" +:+ n +:+ "_" +:+ w +:+ "_" +:+ d +:+ ".log")
    with (String u0 (u +:+ "_" +:+ n +:+ "_" +:+ w +:+ "_" +:+ d +:+ ".log")).
  cbn [rmatch]. rewrite H0.
  apply many_lazy_to_underscore.
  - exact Huall.
  - exact Huu.
  - intros c s Hc. cbn [rmatch in_cset]. now rewrite Hc.
  - cbv beta.
    change (String u0 (u +:+ "_" +:+ n +:+ "_" +:+ w +:+ "_" +:+ d +:+ ".log"))
      with (String u0 u +:+ "_" +:+ n +:+ "_" +:+ w +:+ "_" +:+ d +:+ ".log").
    rewrite consumed_prefix.
    change ("_" +:+ n +:+ "_" +:+ w +:+ "_" +:+ d +:+ ".log")
      with (String "_" (n +:+ "_" +:+ w +:+ "_" +:+ d +:+ ".log")).
    cbn [rmatch]. change (in_cset (Lit "_") "_") with true. cbv iota.
    now apply network_tail_match.
Qed.

End WellFormed.

Lemma dot_log_short (tail : regex) (subject r1 r2 : string) (gs : captures) :
  tail = dot_log \/ tail = Seq dot_log Eol ->
  ".log" = r1 +:+ r2 -> r1 <> "" ->
  rmatch tail subject r2 gs (fun _ gs' => Some gs') = None.
Proof.
  intros Ht E Hr1.
  destruct r1 as [|c1 [|c2 [|c3 [|c4 [|c5 r1]]]]]; try congruence;
    cbn in E; injection E; intros; subst; destruct Ht as [->| ->]; try reflexivity;
    destruct r1; discriminate.
Qed.

(** The three patterns read a well-formed name as it is meant: user and
    network run to their first underscore, the window to the last one, and
    the date is the digits between it and [.log], however many they are. *)
Theorem global_parse (user network window date : string) :
  user <> "" -> all_in Dot user = true -> contains "_" user = false ->
  network <> "" -> all_in word_or_dash network = true -> contains "_" network = false ->
  window <> "" -> all_in Dot window = true ->
  date <> "" -> all_in digit date = true ->
  match_ globalRe (user +:+ "_" +:+ network +:+ "_" +:+ window +:+ "_" +:+ date +:+ ".log")
  = Some [(Named "user", user); (Named "network", network);
          (Named "window", window); (Named "date", date)].
Proof.
  intros. unfold match_, globalRe. cbn [rmatch]. rewrite Nat.eqb_refl.
  apply (user_tail_match (Seq dot_log Eol)); auto.
  intros subject r1 r2 gs E Hr1. apply (dot_log_short _ subject r1 r2); auto.
Qed.

Theorem user_parse (network window date : string) :
  network <> "" -> all_in word_or_dash network = true -> contains "_" network = false ->
  window <> "" -> all_in Dot window = true ->
  date <> "" -> all_in digit date = true ->
  match_ userRe (network +:+ "_" +:+ window +:+ "_" +:+ date +:+ ".log")
  = Some [(Named "network", network); (Named "window", window); (Named "date", date)].
Proof.
  intros. unfold match_, userRe. cbn [rmatch]. rewrite Nat.eqb_refl.
  apply (network_tail_match dot_log); auto.
  intros subject r1 r2 gs E Hr1. apply (dot_log_short _ subject r1 r2); auto.
Qed.

Theorem network_parse (window date : string) :
  window <> "" -> all_in Dot window = true ->
  date <> "" -> all_in digit date = true ->
  match_ networkRe (window +:+ "_" +:+ date +:+ ".log")
  = Some [(Named "window", window); (Named "date", date)].
Proof.
  intros. unfold match_, networkRe. cbn [rmatch]. rewrite Nat.eqb_refl.
  apply (window_tail_match dot_log); auto.
  intros subject r1 r2 gs E Hr1. apply (dot_log_short _ subject r1 r2); auto.
Qed.

(** ** Where a well-formed name goes *)

Lemma format_global (u n w : string) :
  Py.format globalDirFormat [("user", u); ("network", n); ("window", w)]
  = Some (u +:+ "/" +:+ n +:+ "/" +:+ w).
Proof.
  unfold Py.format, globalDirFormat. cbn. now rewrite append_empty_r.
Qed.

Lemma format_user (u n w : string) :
  Py.format userDirFormat [("user", u); ("network", n); ("window", w)]
  = Some (n +:+ "/" +:+ w).
Proof.
  unfold Py.format, userDirFormat. cbn. now rewrite append_empty_r.
Qed.

Lemma format_network (u n w : string) :
  Py.format networkDirFormat [("user", u); ("network", n); ("window", w)]
  = Some w.
Proof.
  unfold Py.format, networkDirFormat. cbn. now rewrite append_empty_r.
Qed.

Theorem global_destination (user network window date : string) :
  user <> "" -> all_in Dot user = true -> contains "_" user = false ->
  network <> "" -> all_in word_or_dash network = true -> contains "_" network = false ->
  window <> "" -> all_in Dot window = true ->
  date <> "" -> all_in digit date = true ->
  destination globalRe globalDirFormat
    (user +:+ "_" +:+ network +:+ "_" +:+ window +:+ "_" +:+ date +:+ ".log")
  = Some (OUTDIR +:+ user +:+ "/" +:+ network +:+ "/" +:+ window,
          (OUTDIR +:+ user +:+ "/" +:+ network +:+ "/" +:+ window)
            +:+ "/" +:+ reformat_date date +:+ ".log").
Proof.
  intros. unfold destination. rewrite global_parse by assumption.
  cbn [group gkey_eqb String.eqb Ascii.eqb Bool.eqb]. now rewrite format_global.
Qed.

Theorem user_destination (network window date : string) :
  network <> "" -> all_in word_or_dash network = true -> contains "_" network = false ->
  window <> "" -> all_in Dot window = true ->
  date <> "" -> all_in digit date = true ->
  destination userRe userDirFormat (network +:+ "_" +:+ window +:+ "_" +:+ date +:+ ".log")
  = Some (OUTDIR +:+ network +:+ "/" +:+ window,
          (OUTDIR +:+ network +:+ "/" +:+ window)
            +:+ "/" +:+ reformat_date date +:+ ".log").
Proof.
  intros. unfold destination. rewrite user_parse by assumption.
  cbn [group gkey_eqb String.eqb Ascii.eqb Bool.eqb]. now rewrite format_user.
Qed.

Theorem network_destination (window date : string) :
  window <> "" -> all_in Dot window = true ->
  date <> "" -> all_in digit date = true ->
  destination networkRe networkDirFormat (window +:+ "_" +:+ date +:+ ".log")
  = Some (OUTDIR +:+ window,
          (OUTDIR +:+ window) +:+ "/" +:+ reformat_date date +:+ ".log").
Proof.
  intros. unfold destination. rewrite network_parse by assumption.
  cbn [group gkey_eqb String.eqb Ascii.eqb Bool.eqb]. now rewrite format_network.
Qed.

(** ** The order on strings *)

Lemma ascii_compare_refl (a : ascii) : Ascii.compare a a = Eq.
Proof. unfold Ascii.compare. apply N.compare_refl. Qed.

Lemma ascii_compare_lt_trans (a b c : ascii) :
  Ascii.compare a b = Lt -> Ascii.compare b c = Lt -> Ascii.compare a c = Lt.
Proof.
  unfold Ascii.compare. rewrite !N.compare_lt_iff. apply N.lt_trans.
Qed.

Lemma string_leb_refl (s : string) : String.leb s s = true.
Proof.
  unfold String.leb.
  assert (H : String.compare s s = Eq).
  { induction s as [|c s IH]; simpl; [reflexivity|]. now rewrite ascii_compare_refl. }
  now rewrite H.
Qed.

Lemma string_compare_trans (a b c : string) :
  String.compare a b <> Gt -> String.compare b c <> Gt -> String.compare a c <> Gt.
Proof.
  revert b c. induction a as [|x a IH]; intros [|y b] [|z c]; simpl;
    try congruence.
  destruct (Ascii.compare x y) eqn:Exy; [| |congruence];
    destruct (Ascii.compare y z) eqn:Eyz; try congruence.
  - apply Ascii.compare_eq_iff in Exy, Eyz. subst. rewrite ascii_compare_refl. apply IH.
  - apply Ascii.compare_eq_iff in Exy. subst. rewrite Eyz. congruence.
  - apply Ascii.compare_eq_iff in Eyz. subst. rewrite Exy. congruence.
  - rewrite (ascii_compare_lt_trans _ _ _ Exy Eyz). congruence.
Qed.

Lemma string_leb_trans (a b c : string) :
  String.leb a b = true -> String.leb b c = true -> String.leb a c = true.
Proof.
  unfold String.leb. intros H1 H2.
  pose proof (string_compare_trans a b c) as H.
  destruct (String.compare a b); try discriminate;
    destruct (String.compare b c); try discriminate;
    destruct (String.compare a c); try reflexivity;
    exfalso; apply H; congruence.
Qed.

Lemma string_leb_false (a b : string) :
  String.leb a b = false -> String.leb b a = true.
Proof.
  intros H. destruct (String.leb_total a b) as [E|E]; [congruence | exact E].
Qed.

(** ** The stable sort *)

Section SortedFacts.
Context {A : Type} (key : A -> string).

Lemma insert_perm (x : A) (l : list A) : Permutation (Py.insert key x l) (x :: l).
Proof.
  induction l as [|y l IH]; simpl; [reflexivity|].
  destruct (String.leb (key x) (key y)); [reflexivity|].
  rewrite IH. apply perm_swap.
Qed.

Lemma sorted_perm (l : list A) : Permutation (Py.sorted key l) l.
Proof.
  induction l as [|x l IH]; simpl; [reflexivity|].
  rewrite insert_perm. now constructor.
Qed.

Lemma insert_ascending (x : A) (l : list A) :
  StronglySorted (key_order key) l -> StronglySorted (key_order key) (Py.insert key x l).
Proof.
  induction l as [|y l IH]; simpl; intros S.
  - constructor; constructor.
  - inversion S as [|? ? S' Hy]; subst.
    destruct (String.leb (key x) (key y)) eqn:E.
    + constructor; [exact S|]. constructor; [exact E|].
      eapply Forall_impl; [|exact Hy]. intros z Hz.
      unfold key_order in *. eapply string_leb_trans; eassumption.
    + constructor; [now apply IH|].
      eapply Permutation_Forall; [symmetry; apply insert_perm|].
      constructor; [|exact Hy]. now apply string_leb_false.
Qed.

Lemma sorted_ascending (l : list A) : StronglySorted (key_order key) (Py.sorted key l).
Proof.
  induction l as [|x l IH]; simpl; [constructor | now apply insert_ascending].
Qed.

(** Elements of one key keep their order. *)
Lemma insert_stable (k : string) (x : A) (l : list A) :
  filter (fun a => String.eqb (key a) k) (Py.insert key x l)
  = filter (fun a => String.eqb (key a) k) (x :: l).
Proof.
  induction l as [|y l IH]; [reflexivity|].
  cbn [Py.insert]. destruct (String.leb (key x) (key y)) eqn:E; [reflexivity|].
  cbn [filter] in *. rewrite IH.
  destruct (String.eqb (key x) k) eqn:Ex; destruct (String.eqb (key y) k) eqn:Ey;
    try reflexivity.
  apply String.eqb_eq in Ex, Ey. rewrite Ex, Ey, string_leb_refl in E. discriminate.
Qed.

Lemma sorted_stable (k : string) (l : list A) :
  filter (fun a => String.eqb (key a) k) (Py.sorted key l)
  = filter (fun a => String.eqb (key a) k) l.
Proof.
  induction l as [|x l IH]; [reflexivity|].
  cbn [Py.sorted]. rewrite insert_stable. cbn [filter]. now rewrite IH.
Qed.

(** Two ascending lists that hold, for every key, the same elements in the
    same order are one list: a stable sort has one possible result. *)
Lemma stable_sort_unique (l1 l2 : list A) :
  StronglySorted (key_order key) l1 -> StronglySorted (key_order key) l2 ->
  (forall k, filter (fun a => String.eqb (key a) k) l1
             = filter (fun a => String.eqb (key a) k) l2) ->
  l1 = l2.
Proof.
  intros S1. revert l2. induction S1 as [|x t1 S1 IH F1]; intros l2 S2 H.
  - destruct l2 as [|y t2]; [reflexivity|].
    specialize (H (key y)). cbn [filter] in H. rewrite String.eqb_refl in H. discriminate.
  - destruct S2 as [|y t2 S2 F2].
    + specialize (H (key x)). cbn [filter] in H. rewrite String.eqb_refl in H. discriminate.
    + assert (Hxy : key x = key y).
      { apply String.leb_antisym.
        - pose proof (H (key y)) as Hy. cbn [filter] in Hy.
          rewrite (String.eqb_refl (key y)) in Hy.
          destruct (String.eqb (key x) (key y)) eqn:E.
          + apply String.eqb_eq in E. rewrite E. apply string_leb_refl.
          + assert (Hin : In y (filter (fun a => String.eqb (key a) (key y)) t1))
              by (rewrite Hy; now left).
            apply filter_In in Hin. rewrite Forall_forall in F1. apply F1, Hin.
        - pose proof (H (key x)) as Hx. cbn [filter] in Hx.
          rewrite (String.eqb_refl (key x)) in Hx.
          destruct (String.eqb (key y) (key x)) eqn:E.
          + apply String.eqb_eq in E. rewrite E. apply string_leb_refl.
          + assert (Hin : In x (filter (fun a => String.eqb (key a) (key x)) t2))
              by (rewrite <- Hx; now left).
            apply filter_In in Hin. rewrite Forall_forall in F2. apply F2, Hin. }
      assert (Hhead : x = y /\ forall k, filter (fun a => String.eqb (key a) k) t1
                                         = filter (fun a => String.eqb (key a) k) t2).
      { split.
        - pose proof (H (key x)) as Hx. cbn [filter] in Hx.
          rewrite <- Hxy, String.eqb_refl in Hx. now injection Hx.
        - intros k. pose proof (H k) as Hk. cbn [filter] in Hk. rewrite <- Hxy in Hk.
          destruct (String.eqb (key x) k); [now injection Hk | exact Hk]. }
      destruct Hhead as [-> Htail]. f_equal. now apply IH.
Qed.

(** So [Py.sorted] is what any stable sort returns. *)
Corollary sorted_is_the_stable_sort (l out : list A) :
  StronglySorted (key_order key) out ->
  (forall k, filter (fun a => String.eqb (key a) k) out
             = filter (fun a => String.eqb (key a) k) l) ->
  out = Py.sorted key l.
Proof.
  intros S H. apply stable_sort_unique; [exact S | apply sorted_ascending|].
  intros k. now rewrite H, sorted_stable.
Qed.
End SortedFacts.

(** Sorting pairs by their first component is sorting the second components
    by the key the first one was computed with. *)
Lemma insert_decorated {A : Type} (key : A -> string) (x : A) (d : list (string * A)) :
  Forall (fun p => fst p = key (snd p)) d ->
  map snd (Py.insert fst (key x, x) d) = Py.insert key x (map snd d).
Proof.
  induction d as [|[k y] d IH]; intros F; [reflexivity|].
  inversion F as [|? ? Hk F']; subst. cbn [fst snd] in Hk. subst k.
  cbn [Py.insert map fst snd].
  destruct (String.leb (key x) (key y)); [reflexivity|].
  cbn [map snd]. now rewrite IH.
Qed.

Lemma sorted_decorated {A : Type} (key : A -> string) (l : list A) :
  map snd (Py.sorted fst (map (fun a => (key a, a)) l)) = Py.sorted key l.
Proof.
  induction l as [|x l IH]; [reflexivity|].
  cbn [map Py.sorted]. rewrite <- IH. apply insert_decorated.
  eapply Permutation_Forall; [symmetry; apply sorted_perm|].
  apply Forall_forall. intros p Hp. apply in_map_iff in Hp.
  destruct Hp as (a & <- & _). reflexivity.
Qed.

(** In an ascending list a smaller key comes first. *)
Lemma ascending_precedes (out : list string) (a b : string) :
  StronglySorted key_le out -> In a out -> In b out ->
  String.ltb (sort_key a) (sort_key b) = true ->
  exists l1 l2 l3, out = l1 ++ a :: l2 ++ b :: l3.
Proof.
  intros S Ha Hb Hlt.
  assert (Hnle : key_le b a -> False).
  { unfold key_le, key_order, String.leb. unfold String.ltb in Hlt.
    rewrite String.compare_antisym.
    destruct (String.compare (sort_key a) (sort_key b)); discriminate. }
  assert (Hab : a <> b).
  { intros ->. apply Hnle. apply string_leb_refl. }
  induction S as [|x out S IH F].
  - contradiction.
  - destruct Ha as [->|Ha].
    + destruct Hb as [Hb|Hb]; [congruence|].
      apply in_split in Hb. destruct Hb as (l2 & l3 & ->).
      now exists [], l2, l3.
    + destruct Hb as [->|Hb].
      * exfalso. apply Hnle. rewrite Forall_forall in F. now apply F.
      * destruct (IH Ha Hb) as (l1 & l2 & l3 & ->).
        now exists (x :: l1), l2, l3.
Qed.

(** ** [sortLines] *)

Lemma sortLines_loop (lines : list string) (out : list (string * string)) (w : world) :
  for_fold lines out sortLines_body w
  = (Ok (out ++ map (fun line => (sort_key line, line)) (filter is_log_line lines)),
     with_stdout w (stdout w ++
       map line_warning (filter (fun line => negb (is_log_line line)) lines))).
Proof.
  revert out w. induction lines as [|line lines IH]; intros out w.
  - simpl. now rewrite !app_nil_r, with_stdout_same.
  - cbn [for_fold]. unfold bind at 1. unfold sortLines_body at 1.
    rewrite lineRe_timestamp.
    destruct (timestamp line) as [ts|] eqn:Et; cbn [option_map].
    + assert (Hl : is_log_line line = true) by (unfold is_log_line; now rewrite Et).
      assert (Hk : sort_key line = Py.remove_char ":" ts)
        by (unfold sort_key; now rewrite Et).
      unfold bind, m_group, ret. cbn [group gkey_eqb]. rewrite Nat.eqb_refl.
      rewrite IH. cbn [filter]. rewrite Hl. cbn [negb map]. rewrite Hk.
      now rewrite <- app_assoc.
    + assert (Hl : is_log_line line = false) by (unfold is_log_line; now rewrite Et).
      unfold bind. rewrite print_run. unfold ret. rewrite IH.
      cbn [filter]. rewrite Hl. cbn [negb map stdout with_stdout].
      rewrite with_stdout_twice, <- app_assoc. reflexivity.
Qed.

(** What [sortLines] returns and prints. *)
Lemma sortLines_run (lines : list string) (w : world) :
  sortLines lines w
  = (Ok (Py.sorted sort_key (filter is_log_line lines)),
     with_stdout w (stdout w ++
       map line_warning (filter (fun line => negb (is_log_line line)) lines))).
Proof.
  unfold sortLines, bind. rewrite sortLines_loop. unfold ret.
  cbn [app]. now rewrite sorted_decorated.
Qed.

(** ** Paths and the table *)

Lemma path_eqb_eq (p q : path) : path_eqb p q = true <-> p = q.
Proof.
  revert q. induction p as [|a p IH]; intros [|b q]; simpl;
    try (split; [discriminate | congruence]); [tauto|].
  rewrite andb_true_iff, String.eqb_eq, IH. split; [intros [-> ->] | intros [= -> ->]]; auto.
Qed.

Lemma path_eqb_refl (p : path) : path_eqb p p = true.
Proof. now apply path_eqb_eq. Qed.

Lemma path_eqb_neq (p q : path) : path_eqb p q = false <-> p <> q.
Proof.
  rewrite <- path_eqb_eq. destruct (path_eqb p q); split; congruence.
Qed.

Lemma assoc_set_same (t : fs) (p : path) (n : node) :
  assoc (set_node t p n) p = Some n.
Proof.
  induction t as [|[k m] t IH]; simpl.
  - now rewrite path_eqb_refl.
  - destruct (path_eqb k p) eqn:E; simpl; now rewrite E.
Qed.

Lemma assoc_set_other (t : fs) (p q : path) (n : node) :
  p <> q -> assoc (set_node t p n) q = assoc t q.
Proof.
  intros Hpq. induction t as [|[k m] t IH]; simpl.
  - apply path_eqb_neq in Hpq. now rewrite Hpq.
  - destruct (path_eqb k p) eqn:E; simpl.
    + apply path_eqb_eq in E. subst k. apply path_eqb_neq in Hpq. now rewrite Hpq.
    + now rewrite IH.
Qed.

Lemma set_node_twice (t : fs) (p : path) (n n' : node) :
  set_node (set_node t p n) p n' = set_node t p n'.
Proof.
  induction t as [|[k m] t IH]; simpl.
  - now rewrite path_eqb_refl.
  - destruct (path_eqb k p) eqn:E; simpl; rewrite E; [reflexivity | now rewrite IH].
Qed.

Lemma find_set_same (t : fs) (p : path) (n : node) :
  p <> [] -> find_node (set_node t p n) p = Some n.
Proof. destruct p; [congruence|]. intros _. apply assoc_set_same. Qed.

Lemma find_set_other (t : fs) (p q : path) (n : node) :
  p <> q -> find_node (set_node t p n) q = find_node t q.
Proof. destruct q; [reflexivity|]. apply assoc_set_other. Qed.

Lemma split_on_plain (sep : ascii) (s : string) :
  contains sep s = false -> split_on sep s = [s].
Proof.
  induction s as [|c s IH]; simpl; [reflexivity|].
  rewrite Ascii.eqb_sym. destruct (Ascii.eqb sep c); [discriminate|]. simpl.
  intros H. now rewrite IH.
Qed.

Lemma plain_name_parts (s : string) :
  plain_name s = true ->
  String.eqb s "" = false /\ String.eqb s "." = false /\ String.eqb s ".." = false
  /\ contains "/" s = false.
Proof.
  unfold plain_name. rewrite !andb_true_iff, !negb_true_iff. tauto.
Qed.

(** A plain name is a file of the working directory. *)
Lemma resolve_plain (s : string) : plain_name s = true -> resolve s = [s].
Proof.
  intros H. apply plain_name_parts in H. destruct H as (H0 & H1 & H2 & H3).
  unfold resolve. rewrite split_on_plain by assumption.
  simpl. unfold norm_step. now rewrite H0, H1, H2.
Qed.

(** [OUTDIR + name] is the entry [name] of the staging directory. *)
Lemma resolve_staged (s : string) :
  plain_name s = true -> resolve (OUTDIR +:+ s) = ["output"; s].
Proof.
  intros H. apply plain_name_parts in H. destruct H as (H0 & H1 & H2 & H3).
  unfold resolve, OUTDIR. cbn [String.append split_on Ascii.eqb Bool.eqb].
  rewrite split_on_plain by assumption.
  cbn [fold_left]. unfold norm_step at 2 3. cbn.
  unfold norm_step. now rewrite H0, H1, H2.
Qed.

Lemma lower_char_not_slash (c : ascii) :
  Ascii.eqb (Py.lower_char c) "/" = Ascii.eqb c "/".
Proof.
  unfold Py.lower_char. destruct (Py.is_upper c) eqn:Eu; [|reflexivity].
  unfold Py.is_upper in Eu. apply andb_true_iff in Eu. destruct Eu as [H1 H2].
  apply Nat.leb_le in H1, H2.
  transitivity false.
  - apply Ascii.eqb_neq. intros E. apply (f_equal nat_of_ascii) in E.
    rewrite nat_ascii_embedding in E by lia.
    change (nat_of_ascii "/") with 47 in E. lia.
  - symmetry. apply Ascii.eqb_neq. intros ->.
    change (nat_of_ascii "/") with 47 in H1. lia.
Qed.

Lemma lower_char_not_dot (c : ascii) :
  Ascii.eqb (Py.lower_char c) "." = Ascii.eqb c ".".
Proof.
  unfold Py.lower_char. destruct (Py.is_upper c) eqn:Eu; [|reflexivity].
  unfold Py.is_upper in Eu. apply andb_true_iff in Eu. destruct Eu as [H1 H2].
  apply Nat.leb_le in H1, H2.
  transitivity false.
  - apply Ascii.eqb_neq. intros E. apply (f_equal nat_of_ascii) in E.
    rewrite nat_ascii_embedding in E by lia.
    change (nat_of_ascii ".") with 46 in E. lia.
  - symmetry. apply Ascii.eqb_neq. intros ->.
    change (nat_of_ascii ".") with 46 in H1. lia.
Qed.

Lemma lower_contains_slash (s : string) : contains "/" (Py.lower s) = contains "/" s.
Proof.
  induction s as [|c s IH]; simpl; [reflexivity|].
  now rewrite lower_char_not_slash, IH.
Qed.

(** Lowercasing keeps a plain name plain. *)
Lemma plain_name_lower (s : string) : plain_name s = true -> plain_name (Py.lower s) = true.
Proof.
  intros H. apply plain_name_parts in H. destruct H as (H0 & H1 & H2 & H3).
  unfold plain_name. rewrite lower_contains_slash, H3.
  destruct s as [|a [|b [|c s]]]; try discriminate; simpl;
    rewrite ?lower_char_not_dot.
  - cbn in H1. destruct (Ascii.eqb a "."); [discriminate | reflexivity].
  - cbn in H2. destruct (Ascii.eqb a "."); [|reflexivity].
    destruct (Ascii.eqb b "."); [discriminate | reflexivity].
  - destruct (Ascii.eqb a "."); [|reflexivity].
    destruct (Ascii.eqb b "."); reflexivity.
Qed.

(** ** Merging one pair *)

Lemma with_tree_same (w : world) : with_tree w (tree w) = w.
Proof. destruct w; reflexivity. Qed.

Lemma stat_touch (st : stat) (now : Z) :
  st_mtime st = now -> mkstat (st_mode st) (st_atime st) now = st.
Proof. destruct st; simpl; now intros ->. Qed.

(** Writing line after line appends the whole text. *)
Lemma write_loop (lines : list string) (t0 : fs) (p : path) (st : stat) :
  p <> [] ->
  forall (data : string) (w : world),
    st_mtime st = clock w ->
    tree w = set_node t0 p (File data st) ->
    for_each lines (fun line => write p line) w
    = (Ok tt, with_tree w (set_node t0 p (File (data +:+ file_text lines) st))).
Proof.
  intros Hp. induction lines as [|line lines IH]; intros data w Hst Ht.
  - simpl. unfold ret. now rewrite append_empty_r, <- Ht, with_tree_same.
  - cbn [for_each file_text fold_right]. unfold bind, write at 1.
    rewrite Ht, find_set_same by assumption.
    rewrite stat_touch by assumption. rewrite set_node_twice.
    rewrite (IH (data +:+ line)); [|exact Hst|reflexivity].
    now rewrite append_assoc.
Qed.

(** What merging one pair does to the world. *)
Lemma merge_dupe_run (f1 f2 data1 data2 : string) (st1 st2 : stat) (w : world) :
  plain_name f1 = true -> plain_name f2 = true ->
  find_node (tree w) [f1] = Some (File data1 st1) ->
  find_node (tree w) [f2] = Some (File data2 st2) ->
  find_node (tree w) ["output"] = Some Dir ->
  find_node (tree w) ["output"; Py.lower f1] <> Some Dir ->
  let lines := Py.readlines data1 ++ Py.readlines data2 in
  merge_dupe [f1; f2] w
  = (Ok tt,
     with_tree
       (with_stdout w (stdout w ++
          map line_warning (filter (fun line => negb (is_log_line line)) lines)))
       (set_node (tree w) ["output"; Py.lower f1]
          (File (file_text (Py.sorted sort_key (filter is_log_line lines))) st2))).
Proof.
  intros P1 P2 H1 H2 Hout Hdst lines.
  unfold merge_dupe. cbn [tuple_get nth_error].
  unfold bind at 1. unfold ret at 1.
  unfold bind at 1. unfold open_r at 1. rewrite (resolve_plain f1 P1), H1.
  unfold bind at 1. unfold ret at 1.
  unfold bind at 1. unfold open_r at 1. rewrite (resolve_plain f2 P2), H2.
  unfold bind at 1. unfold readlines at 1. rewrite H1.
  unfold bind at 1. unfold readlines at 1. rewrite H2.
  unfold bind at 1. unfold close at 1, ret at 1.
  unfold bind at 1. unfold close at 1, ret at 1.
  unfold bind at 1. cbn [app]. fold lines. rewrite sortLines_run.
  set (warnings := map line_warning _).
  set (out := Py.sorted sort_key _).
  set (w1 := with_stdout w (stdout w ++ warnings)).
  pose proof (plain_name_lower f1 P1) as PL.
  set (p := ["output"; Py.lower f1]) in *.
  assert (Hp : p <> []) by discriminate.
  assert (Hp2 : p <> [f2]) by discriminate.
  assert (Hopen : exists st0, st_mtime st0 = clock w1 /\
            open_w (OUTDIR +:+ Py.lower f1) w1
            = (Ok p, with_tree w1 (set_node (tree w) p (File "" st0)))).
  { unfold open_w. rewrite (resolve_staged _ PL). fold p.
    change (tree w1) with (tree w).
    destruct (find_node (tree w) p) as [[d st|]|] eqn:Ef.
    - eexists. split; [|reflexivity]. reflexivity.
    - congruence.
    - change (removelast p) with ["output"]. rewrite Hout.
      eexists. split; [|reflexivity]. reflexivity. }
  destruct Hopen as (st0 & Hst0 & Hopen).
  unfold bind at 1. rewrite Hopen.
  unfold bind at 1.
  rewrite (write_loop out (tree w) p st0 Hp ""
             (with_tree w1 (set_node (tree w) p (File "" st0))) Hst0 eq_refl).
  unfold bind at 1. unfold close at 1, ret at 1.
  unfold copystat, copystat_at. rewrite (resolve_plain f2 P2), (resolve_staged _ PL).
  fold p. cbn [tree with_tree].
  rewrite find_set_other by assumption. rewrite H2.
  rewrite find_set_same by assumption.
  rewrite set_node_twice. reflexivity.
Qed.

(** ** The whole second stage *)

Lemma stage_ready_write (names : list string) (t : fs) (k data : string) (st : stat) :
  stage_ready names t -> stage_ready names (set_node t ["output"; k] (File data st)).
Proof.
  intros (H1 & H2 & H3 & H4). split; [exact H1|]. split; [|split].
  - intros n Hn. rewrite find_set_other by discriminate. now apply H2.
  - rewrite find_set_other by discriminate. exact H3.
  - intros n Hn. destruct (string_dec k (Py.lower n)) as [->|Hk].
    + rewrite find_set_same by discriminate. discriminate.
    + rewrite find_set_other by congruence. now apply H4.
Qed.

Lemma source_after_write (t : fs) (k : string) (node : node) (n : string) :
  find_node (set_node t ["output"; k] node) [n] = find_node t [n].
Proof. apply find_set_other. discriminate. Qed.

(** The merging loop. *)
Lemma merge_loop (names : list string) (t0 : fs) (dupes : list (list string)) :
  (forall d, In d dupes -> exists a b, d = [a; b] /\ In a names /\ In b names) ->
  forall w,
    stage_ready names (tree w) ->
    (forall n, find_node (tree w) [n] = find_node t0 [n]) ->
    for_each dupes merge_dupe w
    = (Ok tt,
       with_tree (with_stdout w (stdout w ++ flat_map (merge_warnings t0) dupes))
                 (apply_writes (tree w) (map (merge_write t0) dupes))).
Proof.
  induction dupes as [|d dupes IH]; intros Hd w Hready Hsrc.
  - simpl. unfold ret. now rewrite app_nil_r, with_stdout_same, with_tree_same.
  - destruct (Hd d (or_introl eq_refl)) as (a & b & -> & Ha & Hb).
    pose proof Hready as (H1 & H2 & H3 & H4).
    destruct (H2 a Ha) as (data1 & st1 & E1). destruct (H2 b Hb) as (data2 & st2 & E2).
    cbn [for_each]. unfold bind.
    rewrite (merge_dupe_run a b data1 data2 st1 st2 w) by auto.
    rewrite IH.
    + cbn [map flat_map merge_write merge_warnings apply_writes fold_left
             tree stdout with_tree with_stdout fst snd].
      rewrite <- (Hsrc a), <- (Hsrc b), E1, E2. cbn [fst snd].
      rewrite <- app_assoc. reflexivity.
    + intros d' Hd'. apply Hd. now right.
    + cbn [tree with_tree]. now apply stage_ready_write.
    + intros n. cbn [tree with_tree]. rewrite source_after_write. apply Hsrc.
Qed.

Lemma copy2_run (name data : string) (st : stat) (w : world) :
  plain_name name = true ->
  find_node (tree w) [name] = Some (File data st) ->
  find_node (tree w) ["output"] = Some Dir ->
  find_node (tree w) ["output"; Py.lower name] <> Some Dir ->
  copy2 name (OUTDIR +:+ Py.lower name) w
  = (Ok tt, with_tree w (set_node (tree w) ["output"; Py.lower name] (File data st))).
Proof.
  intros P Hsrc Hout Hdst.
  unfold copy2, copy2_at.
  rewrite (resolve_plain _ P), (resolve_staged _ (plain_name_lower _ P)).
  unfold is_dir.
  destruct (find_node (tree w) ["output"; Py.lower name]) as [[d s|]|] eqn:Ed;
    try congruence; cbn [path_eqb andb]; rewrite ?andb_false_r; cbn [andb];
    rewrite Hsrc, Ed; [reflexivity|].
  change (removelast ["output"; Py.lower name]) with ["output"]. now rewrite Hout.
Qed.

(** The copying loop. *)
Lemma copy_loop (names : list string) (t0 : fs) (dupeslist : list string)
    (todo : list string) :
  (forall n, In n todo -> In n names) ->
  forall (copied : nat) (w : world),
    stage_ready names (tree w) ->
    (forall n, find_node (tree w) [n] = find_node t0 [n]) ->
    let others := filter (fun n => negb (existsb (String.eqb n) dupeslist)) todo in
    for_fold todo copied (copy_body dupeslist) w
    = (Ok (copied + length others),
       with_tree w (apply_writes (tree w) (map (copy_write t0) others))).
Proof.
  induction todo as [|n todo IH]; intros Hsub copied w Hready Hsrc others.
  - simpl. unfold ret. now rewrite Nat.add_0_r, with_tree_same.
  - pose proof Hready as (H1 & H2 & H3 & H4).
    assert (Hn : In n names) by (apply Hsub; now left).
    destruct (H2 n Hn) as (data & st & E).
    cbn [for_fold]. unfold bind, copy_body at 1. subst others. cbn [filter].
    destruct (negb (existsb (String.eqb n) dupeslist)).
    + unfold bind. rewrite (copy2_run n data st w) by auto. unfold ret.
      rewrite IH.
      * assert (Hw : copy_write t0 n = (["output"; Py.lower n], File data st))
          by (unfold copy_write; now rewrite <- (Hsrc n), E).
        cbn [map length apply_writes fold_left tree with_tree]. rewrite Hw.
        cbn [fst snd]. f_equal. f_equal. lia.
      * intros n' Hn'. apply Hsub. now right.
      * cbn [tree with_tree]. now apply stage_ready_write.
      * intros n'. cbn [tree with_tree]. rewrite source_after_write. apply Hsrc.
    + unfold ret. rewrite IH; auto.
      intros n' Hn'. apply Hsub. now right.
Qed.

Lemma apply_writes_app (t : fs) (ws1 ws2 : list (path * node)) :
  apply_writes t (ws1 ++ ws2) = apply_writes (apply_writes t ws1) ws2.
Proof. unfold apply_writes. apply fold_left_app. Qed.

(** A path nothing is written to keeps its node. *)
Lemma find_apply_writes_untouched (ws : list (path * node)) (t : fs) (p : path) :
  (forall n, ~ In (p, n) ws) -> find_node (apply_writes t ws) p = find_node t p.
Proof.
  revert t. induction ws as [|[q m] ws IH]; intros t H; [reflexivity|].
  cbn [apply_writes fold_left fst snd]. fold (apply_writes (set_node t q m) ws).
  rewrite IH by (intros n Hn; apply (H n); now right).
  apply find_set_other. intros ->. apply (H m). now left.
Qed.

(** A path one node is written to, however often, ends with that node. *)
Lemma find_apply_writes_written (ws : list (path * node)) (t : fs) (p : path) (n : node) :
  p <> [] -> In (p, n) ws -> (forall n', In (p, n') ws -> n' = n) ->
  find_node (apply_writes t ws) p = Some n.
Proof.
  intros Hp. revert t. induction ws as [|[q m] ws IH] using rev_ind;
    intros t Hin Huniq; [contradiction|].
  rewrite apply_writes_app. cbn [apply_writes fold_left fst snd].
  destruct (path_eqb q p) eqn:Eq.
  - apply path_eqb_eq in Eq. subst q.
    rewrite (Huniq m) by (apply in_or_app; right; now left).
    now apply find_set_same.
  - apply path_eqb_neq in Eq. rewrite find_set_other by assumption.
    apply IH.
    + apply in_app_or in Hin. destruct Hin as [Hin|[Hin|[]]]; [exact Hin|].
      congruence.
    + intros n' Hn'. apply Huniq. apply in_or_app. now left.
Qed.

Lemma stage_ready_writes (names : list string) (ws : list (path * node)) :
  Forall staging_write ws ->
  forall t, stage_ready names t -> stage_ready names (apply_writes t ws).
Proof.
  induction 1 as [|pn ws (k & data & st & ->) _ IH]; intros t Hr; [exact Hr|].
  cbn [apply_writes fold_left fst snd]. apply IH. now apply stage_ready_write.
Qed.

Lemma sources_after_writes (ws : list (path * node)) (n : string) :
  Forall staging_write ws ->
  forall t, find_node (apply_writes t ws) [n] = find_node t [n].
Proof.
  induction 1 as [|pn ws (k & data & st & ->) _ IH]; intros t; [reflexivity|].
  cbn [apply_writes fold_left fst snd]. fold (apply_writes (set_node t ["output"; k] (File data st)) ws).
  rewrite IH. apply source_after_write.
Qed.

Lemma merge_writes_staging (names : list string) (t : fs) (dupes : list (list string)) :
  stage_ready names t ->
  (forall d, In d dupes -> exists a b, d = [a; b] /\ In a names /\ In b names) ->
  Forall staging_write (map (merge_write t) dupes).
Proof.
  intros (_ & H2 & _) Hd. apply Forall_forall. intros pn Hpn.
  apply in_map_iff in Hpn. destruct Hpn as (d & <- & Hin).
  destruct (Hd d Hin) as (a & b & -> & Ha & Hb).
  destruct (H2 a Ha) as (data1 & st1 & E1). destruct (H2 b Hb) as (data2 & st2 & E2).
  unfold merge_write. rewrite E1, E2. red. eauto.
Qed.

Lemma copy_writes_staging (names : list string) (t : fs) (others : list string) :
  stage_ready names t -> (forall n, In n others -> In n names) ->
  Forall staging_write (map (copy_write t) others).
Proof.
  intros (_ & H2 & _) Hsub. apply Forall_forall. intros pn Hpn.
  apply in_map_iff in Hpn. destruct Hpn as (n & <- & Hin).
  destruct (H2 n (Hsub n Hin)) as (data & st & E).
  unfold copy_write. rewrite E. red. eauto.
Qed.

(** What the second stage does to the world. *)
Lemma mergeAndCopyLogs_run (names : list string) (dupes : list (list string)) (w : world) :
  stage_ready names (tree w) ->
  (forall d, In d dupes -> exists a b, d = [a; b] /\ In a names /\ In b names) ->
  let others := filter (fun n => negb (existsb (String.eqb n) (List.concat dupes))) names in
  mergeAndCopyLogs names dupes w
  = (Ok tt,
     with_tree
       (with_stdout w
          (stdout w ++ ["Merging logs..."] ++ flat_map (merge_warnings (tree w)) dupes
             ++ [Py.str (length dupes) +:+ " logs merged.";
                 "Copying remaining logs...";
                 Py.str (length others) +:+ " files copied."]))
       (apply_writes (tree w)
          (map (merge_write (tree w)) dupes ++ map (copy_write (tree w)) others))).
Proof.
  intros Hready Hd others. unfold mergeAndCopyLogs.
  pose proof (merge_writes_staging names (tree w) dupes Hready Hd) as Hmw.
  unfold bind at 1. rewrite print_run.
  unfold bind at 1.
  rewrite (merge_loop names (tree w) dupes Hd) by (auto; reflexivity).
  unfold bind at 1. rewrite print_run.
  unfold bind at 1. rewrite print_run.
  unfold bind at 1.
  rewrite (copy_loop names (tree w) (List.concat dupes) names).
  - fold others. rewrite print_run. cbn [tree stdout with_tree with_stdout Nat.add].
    rewrite apply_writes_app. rewrite <- !app_assoc. reflexivity.
  - auto.
  - cbn [tree with_tree with_stdout]. now apply stage_ready_writes.
  - intros n. cbn [tree with_tree with_stdout]. now apply sources_after_writes.
Qed.

Lemma copies_pair (names : list string) (k : string) :
  count_occ string_dec (map Py.lower names) k = 2 ->
  exists a b,
    filter (fun v => String.eqb (Py.lower v) k) names = [a; b]
    /\ In a names /\ In b names /\ Py.lower a = k /\ Py.lower b = k.
Proof.
  rewrite count_occ_map_filter. intros Hlen.
  destruct (filter _ names) as [|a [|b [|c r]]] eqn:E; try discriminate.
  exists a, b. split; [reflexivity|].
  assert (Ha : In a (filter (fun v => String.eqb (Py.lower v) k) names))
    by (rewrite E; now left).
  assert (Hb : In b (filter (fun v => String.eqb (Py.lower v) k) names))
    by (rewrite E; right; now left).
  apply filter_In in Ha, Hb. destruct Ha as [Ha Ea], Hb as [Hb Eb].
  apply String.eqb_eq in Ea, Eb. auto.
Qed.

Lemma existsb_eqb_In (n : string) (l : list string) :
  existsb (String.eqb n) l = true <-> In n l.
Proof.
  rewrite existsb_exists. split.
  - intros (x & Hx & E). apply String.eqb_eq in E. now subst.
  - intros H. exists n. split; [exact H | apply String.eqb_refl].
Qed.

(** The second stage as a whole: the sources are left as they were; every
    pair is merged into the staged lowercase name with the metadata of its
    second member; every name that has no other spelling is copied there with
    its own content and metadata. *)
Theorem second_stage (names dupenames : list string) (w : world) :
  stage_ready names (tree w) ->
  NoDup dupenames ->
  (forall k, In k dupenames -> count_occ string_dec (map Py.lower names) k = 2) ->
  let copies k := filter (fun v => String.eqb (Py.lower v) k) names in
  exists w',
    mergeAndCopyLogs names (map copies dupenames) w = (Ok tt, w')
    /\ (forall n, find_node (tree w') [n] = find_node (tree w) [n])
    /\ (forall k a b data1 st1 data2 st2,
          In k dupenames -> copies k = [a; b] ->
          find_node (tree w) [a] = Some (File data1 st1) ->
          find_node (tree w) [b] = Some (File data2 st2) ->
          find_node (tree w') ["output"; k]
          = Some (File (file_text (Py.sorted sort_key
                          (filter is_log_line (Py.readlines data1 ++ Py.readlines data2))))
                       st2))
    /\ (forall n, In n names ->
          count_occ string_dec (map Py.lower names) (Py.lower n) = 1 ->
          find_node (tree w') ["output"; Py.lower n] = find_node (tree w) [n]).
Proof.
  intros Hready ND Hcount copies.
  set (dupes := map copies dupenames).
  set (others := filter (fun n => negb (existsb (String.eqb n) (List.concat dupes))) names).
  assert (Hd : forall d, In d dupes -> exists a b, d = [a; b] /\ In a names /\ In b names).
  { intros d Hin. apply in_map_iff in Hin. destruct Hin as (k & <- & Hk).
    destruct (copies_pair names k (Hcount k Hk)) as (a & b & E & Ha & Hb & _).
    exists a, b. auto. }
  assert (Hothers : forall n, In n others -> In n names /\ ~ In n (List.concat dupes)).
  { intros n Hn. apply filter_In in Hn. destruct Hn as [Hn He]. split; [exact Hn|].
    rewrite <- existsb_eqb_In. now destruct (existsb (String.eqb n) (List.concat dupes)). }
  assert (Hcat : forall n k, In k dupenames -> In n names -> Py.lower n = k ->
                            In n (List.concat dupes)).
  { intros n k Hk Hn E. apply in_concat. exists (copies k). split.
    - apply in_map. exact Hk.
    - apply filter_In. split; [exact Hn | now apply String.eqb_eq]. }
  assert (Hmw : Forall staging_write (map (merge_write (tree w)) dupes))
    by now apply (merge_writes_staging names).
  assert (Hcw : Forall staging_write (map (copy_write (tree w)) others))
    by (apply (copy_writes_staging names); [exact Hready | intros n Hn; now apply Hothers]).
  assert (Hmerge : forall k pn, In k dupenames -> merge_write (tree w) (copies k) = pn ->
             exists a b data1 st1 data2 st2,
               copies k = [a; b] /\ Py.lower a = k
               /\ find_node (tree w) [a] = Some (File data1 st1)
               /\ find_node (tree w) [b] = Some (File data2 st2)
               /\ pn = (["output"; k],
                        File (file_text (Py.sorted sort_key
                                (filter is_log_line
                                   (Py.readlines data1 ++ Py.readlines data2))))
                             st2)).
  { intros k pn Hk <-.
    destruct (copies_pair names k (Hcount k Hk)) as (a & b & E & Ha & Hb & La & Lb).
    destruct Hready as (_ & H2 & _).
    destruct (H2 a Ha) as (data1 & st1 & E1). destruct (H2 b Hb) as (data2 & st2 & E2).
    exists a, b, data1, st1, data2, st2. fold (copies k) in E.
    repeat split; auto. rewrite E. unfold merge_write. now rewrite E1, E2, La. }
  eexists. split; [apply (mergeAndCopyLogs_run names dupes w Hready Hd)|].
  cbn [tree with_tree]. fold others.
  split; [|split].
  - intros n. apply sources_after_writes. apply Forall_app. auto.
  - intros k a b data1 st1 data2 st2 Hk Ec E1 E2.
    apply find_apply_writes_written; [discriminate| |].
    + apply in_or_app. left. apply in_map_iff. exists (copies k). split.
      * destruct (Hmerge k _ Hk eq_refl)
          as (a' & b' & d1 & s1 & d2 & s2 & Ec' & La & E1' & E2' & ->).
        assert (Hab : [a; b] = [a'; b']) by exact (eq_trans (eq_sym Ec) Ec').
        injection Hab as <- <-.
        rewrite E1 in E1'. rewrite E2 in E2'. injection E1' as <- <-. injection E2' as <- <-.
        reflexivity.
      * apply in_map. exact Hk.
    + intros n' Hn'. apply in_app_or in Hn'. destruct Hn' as [Hn'|Hn'].
      * apply in_map_iff in Hn'. destruct Hn' as (d & Ed & Hin).
        apply in_map_iff in Hin. destruct Hin as (k' & <- & Hk').
        destruct (Hmerge k' _ Hk' Ed)
          as (a' & b' & d1 & s1 & d2 & s2 & Ec' & La & E1' & E2' & Epn).
        injection Epn as Ek ->. rewrite <- Ek in Ec'.
        assert (Hab : [a; b] = [a'; b']) by exact (eq_trans (eq_sym Ec) Ec').
        injection Hab as <- <-.
        rewrite E1 in E1'. rewrite E2 in E2'. injection E1' as <- <-. injection E2' as <- <-.
        reflexivity.
      * exfalso. apply in_map_iff in Hn'. destruct Hn' as (n & En & Hin).
        destruct (Hothers n Hin) as [Hn Hnot]. apply Hnot.
        unfold copy_write in En.
        destruct (find_node (tree w) [n]); [|discriminate].
        injection En as Ek _. now apply (Hcat n k).
  - intros n Hn Hone.
    assert (Hnd : ~ In n (List.concat dupes)).
    { intros Hin. apply in_concat in Hin. destruct Hin as (d & Hd' & Hnd).
      apply in_map_iff in Hd'. destruct Hd' as (k & <- & Hk).
      apply filter_In in Hnd. destruct Hnd as [_ E]. apply String.eqb_eq in E.
      rewrite E, (Hcount k Hk) in Hone. discriminate. }
    assert (Hno : In n others).
    { apply filter_In. split; [exact Hn|].
      destruct (existsb (String.eqb n) (List.concat dupes)) eqn:Ex; [|reflexivity].
      exfalso. apply Hnd. now apply existsb_eqb_In. }
    destruct Hready as (_ & H2 & _). destruct (H2 n Hn) as (data & st & E).
    rewrite E.
    apply find_apply_writes_written; [discriminate| |].
    + apply in_or_app. right. apply in_map_iff. exists n. split; [|exact Hno].
      unfold copy_write. now rewrite E.
    + intros n' Hn'. apply in_app_or in Hn'. destruct Hn' as [Hn'|Hn'].
      * exfalso. apply in_map_iff in Hn'. destruct Hn' as (d & Ed & Hin).
        apply in_map_iff in Hin. destruct Hin as (k' & <- & Hk').
        destruct (Hmerge k' _ Hk' Ed)
          as (a' & b' & d1 & s1 & d2 & s2 & Ec' & La & E1' & E2' & Epn).
        injection Epn as Ek _. rewrite Ek, (Hcount _ Hk') in Hone. discriminate.
      * apply in_map_iff in Hn'. destruct Hn' as (m & Em & Hin).
        destruct (Hothers m Hin) as [Hm _].
        unfold copy_write in Em.
        destruct (find_node (tree w) [m]) as [nm|] eqn:Efm; [|discriminate].
        injection Em as Ek <-.
        assert (m = n); [|subst m; congruence].
        rewrite count_occ_map_filter in Hone.
        destruct (filter (fun v => String.eqb (Py.lower v) (Py.lower n)) names)
          as [|x [|y r]] eqn:Ef; try discriminate.
        assert (Hin_n : In n [x]) by (rewrite <- Ef; apply filter_In; split;
                                       [exact Hn | apply String.eqb_refl]).
        assert (Hin_m : In m [x]) by (rewrite <- Ef; apply filter_In; split;
                                       [exact Hm | now apply String.eqb_eq]).
        destruct Hin_n as [<-|[]]. destruct Hin_m as [<-|[]]. reflexivity.
Qed.

(** ** The loop of [convertToHierarchy] *)

Lemma for_each_app {A : Type} (l1 l2 : list A) (body : A -> M unit) (w : world) :
  for_each (l1 ++ l2) body w
  = match for_each l1 body w with
    | (Ok _, w') => for_each l2 body w'
    | (Raise e, w') => (Raise e, w')
    end.
Proof.
  revert w. induction l1 as [|x l1 IH]; intros w; [reflexivity|].
  cbn [app for_each]. unfold bind.
  destruct (body x w) as [[[]|e] w']; [apply IH | reflexivity].
Qed.

(** A name the pattern does not match is left where it is, with a warning. *)
Lemma hierarchy_body_nomatch (myRe : regex) (myFormat logfile : string) (w : world) :
  match_ myRe logfile = None ->
  hierarchy_body myRe myFormat logfile w
  = (Ok tt, with_stdout w (stdout w ++ [nomatch_warning logfile])).
Proof. unfold hierarchy_body. now intros ->. Qed.

(** A name the pattern matches gets its directory, then is moved. *)
Lemma hierarchy_body_matched (myRe : regex) (myFormat logfile path target : string)
    (w : world) :
  destination myRe myFormat logfile = Some (path, target) ->
  hierarchy_body myRe myFormat logfile w
  = (ensure_dir path ;; move (OUTDIR +:+ logfile) target) w.
Proof.
  unfold destination, hierarchy_body.
  destruct (match_ myRe logfile) as [m|]; [|discriminate].
  unfold group_or_empty, group_or_skip, m_group.
  destruct (group m (Named "window")) as [window|]; [|discriminate].
  destruct (group m (Named "date")) as [date|]; [|discriminate].
  destruct (group m (Named "user")) as [user|];
    destruct (group m (Named "network")) as [network|];
    unfold catch, bind, ret, raise; cbn [fst snd];
    match goal with
    | |- context [Py.format ?f ?kw] => destruct (Py.format f kw) as [dir|]
    end; try discriminate; intros [= <- <-]; reflexivity.
Qed.

Lemma hierarchy_loop_nomatch (myRe : regex) (myFormat : string) (names : list string) :
  (forall n, In n names -> match_ myRe n = None) ->
  forall w,
    for_each names (hierarchy_body myRe myFormat) w
    = (Ok tt, with_stdout w (stdout w ++ map nomatch_warning names)).
Proof.
  induction names as [|n names IH]; intros H w.
  - simpl. unfold ret. now rewrite app_nil_r, with_stdout_same.
  - cbn [for_each map]. unfold bind.
    rewrite hierarchy_body_nomatch by (apply H; now left).
    rewrite IH by (intros n' Hn'; apply H; now right).
    cbn [stdout with_stdout]. now rewrite <- app_assoc.
Qed.

Lemma convertToHierarchy_unfold (logType : string) (w : world) :
  find_node (tree w) (resolve OUTDIR) = Some Dir ->
  convertToHierarchy logType w
  = match for_each (children (tree w) (resolve OUTDIR))
                   (hierarchy_body (pattern_of logType) (format_of logType))
                   (with_stdout w (stdout w ++ [rearranging])) with
    | (Ok _, w') => print "Done!" w'
    | (Raise e, w') => (Raise e, w')
    end.
Proof.
  intros Hdir. unfold convertToHierarchy, bind at 1.
  rewrite print_run. unfold bind at 1, listdir.
  cbn [tree with_stdout]. rewrite Hdir.
  unfold bind. fold rearranging.
  destruct (for_each _ _ _) as [[[]|e] w']; reflexivity.
Qed.


Lemma strip_prefix_some (pre p r : path) : strip_prefix pre p = Some r <-> p = pre ++ r.
Proof.
  revert p. induction pre as [|a pre IH]; intros p; cbn [strip_prefix app].
  - split; [intros [= ->] | intros ->]; reflexivity.
  - destruct p as [|b p]; [split; discriminate|].
    destruct (String.eqb a b) eqn:E.
    + apply String.eqb_eq in E. subst b. rewrite IH. split; [intros -> | intros [= ->]]; reflexivity.
    + apply String.eqb_neq in E. split; [discriminate | intros [= -> _]; congruence].
Qed.

Lemma strip_prefix_none (pre p : path) : strip_prefix pre p = None <-> ~ is_prefix pre p.
Proof.
  split.
  - intros H (r & E). apply strip_prefix_some in E. congruence.
  - intros H. destruct (strip_prefix pre p) as [r|] eqn:E; [|reflexivity].
    exfalso. apply H. exists r. now apply strip_prefix_some.
Qed.

Lemma is_prefix_refl (p : path) : is_prefix p p.
Proof. exists []. now rewrite app_nil_r. Qed.

Lemma is_prefix_trans (p q r : path) : is_prefix p q -> is_prefix q r -> is_prefix p r.
Proof. intros (a & ->) (b & ->). exists (a ++ b). now rewrite app_assoc. Qed.

Lemma is_prefix_length (p q : path) : is_prefix p q -> length p <= length q.
Proof. intros (r & ->). rewrite length_app. lia. Qed.

Lemma is_prefix_same_length (p q : path) : is_prefix p q -> length p = length q -> p = q.
Proof.
  intros (r & ->) H. rewrite length_app in H. destruct r; [now rewrite app_nil_r|].
  cbn in H. lia.
Qed.

Lemma is_prefix_snoc (q p : path) (c : string) :
  is_prefix q (p ++ [c]) <-> is_prefix q p \/ q = p ++ [c].
Proof.
  split.
  - intros (r & E). destruct r as [|x r] using rev_ind.
    + right. now rewrite app_nil_r in E.
    + left. rewrite app_assoc in E. apply app_inj_tail in E. destruct E as [-> _]. now exists r.
  - intros [(r & ->)| ->]; [exists (r ++ [c]); now rewrite app_assoc | apply is_prefix_refl].
Qed.

Lemma is_prefix_cons (a b : string) (p q : path) :
  is_prefix (a :: p) (b :: q) <-> a = b /\ is_prefix p q.
Proof.
  split.
  - intros (r & E). cbn in E. injection E as -> ->. split; [reflexivity | now exists r].
  - intros [-> (r & ->)]. now exists r.
Qed.

Lemma keys_set_node (t : fs) (p : path) (n : node) :
  map fst (set_node t p n) = if existsb (path_eqb p) (map fst t) then map fst t
                             else map fst t ++ [p].
Proof.
  induction t as [|[k m] t IH]; [reflexivity|].
  cbn [set_node map fst existsb].
  rewrite (eq_true_iff_eq (path_eqb p k) (path_eqb k p)) by (rewrite !path_eqb_eq; split; congruence).
  destruct (path_eqb k p) eqn:E; cbn [orb map fst]; [reflexivity|].
  rewrite IH. destruct (existsb (path_eqb p) (map fst t)); reflexivity.
Qed.

Lemma in_keys_set_node (t : fs) (p q : path) (n : node) :
  In q (map fst (set_node t p n)) <-> In q (map fst t) \/ q = p.
Proof.
  rewrite keys_set_node. destruct (existsb (path_eqb p) (map fst t)) eqn:E.
  - split; [now left|]. intros [H| ->]; [exact H|].
    apply existsb_exists in E. destruct E as (x & Hx & Ex).
    apply path_eqb_eq in Ex. now subst.
  - rewrite in_app_iff. cbn [In]. intuition.
Qed.

Lemma NoDup_keys_set_node (t : fs) (p : path) (n : node) :
  NoDup (map fst t) -> NoDup (map fst (set_node t p n)).
Proof.
  intros ND. rewrite keys_set_node.
  destruct (existsb (path_eqb p) (map fst t)) eqn:E; [exact ND|].
  apply NoDup_app; [exact ND | repeat constructor; intros [] |].
  intros x Hx [Ex|[]]. subst x.
  assert (existsb (path_eqb p) (map fst t) = true); [|congruence].
  apply existsb_exists. exists p. split; [exact Hx | apply path_eqb_refl].
Qed.

Lemma assoc_in_keys (t : fs) (p : path) : assoc t p <> None <-> In p (map fst t).
Proof.
  induction t as [|[k m] t IH]; cbn [assoc map fst In]; [tauto|].
  destruct (path_eqb k p) eqn:E.
  - apply path_eqb_eq in E. split; [now left | discriminate].
  - apply path_eqb_neq in E. rewrite IH. intuition.
Qed.

Lemma find_in_keys (t : fs) (p : path) :
  p <> [] -> (find_node t p <> None <-> In p (map fst t)).
Proof. destruct p; [congruence|]. intros _. apply assoc_in_keys. Qed.

Lemma in_children (t : fs) (d : path) (c : string) :
  In c (children t d) <-> In (d ++ [c]) (map fst t).
Proof.
  unfold children. induction t as [|[k m] t IH]; cbn [flat_map map fst In]; [tauto|].
  rewrite in_app_iff, IH.
  destruct (strip_prefix d k) as [[|x [|y r]]|] eqn:E.
  - apply strip_prefix_some in E. rewrite app_nil_r in E. subst k. cbn [In].
    split; [tauto|]. intros [H|H]; [|tauto].
    apply (f_equal (@length _)) in H. rewrite length_app in H. cbn in H. lia.
  - apply strip_prefix_some in E. subst k. cbn [In]. split.
    + intros [[->|[]]|H]; tauto.
    + intros [H|H]; [|tauto]. apply app_inv_head in H. injection H as ->. tauto.
  - apply strip_prefix_some in E. subst k. cbn [In]. split; [tauto|].
    intros [H|H]; [|tauto]. apply app_inv_head in H. discriminate.
  - cbn [In]. split; [tauto|]. intros [H|H]; [|tauto].
    exfalso. subst k. apply strip_prefix_none in E. apply E. now exists [c].
Qed.

Lemma NoDup_children (t : fs) (d : path) : NoDup (map fst t) -> NoDup (children t d).
Proof.
  unfold children. induction t as [|[k m] t IH]; cbn [flat_map map fst]; intros ND;
    [constructor|].
  inversion ND as [|? ? Hk ND']; subst. specialize (IH ND').
  destruct (strip_prefix d k) as [[|x [|y r]]|] eqn:E; cbn [app]; auto.
  constructor; [|exact IH].
  apply strip_prefix_some in E. subst k. intros Hin. apply Hk.
  now apply (in_children t d x).
Qed.

Lemma in_keys_apply_writes (ws : list (path * node)) (t : fs) (q : path) :
  In q (map fst (apply_writes t ws)) <-> In q (map fst t) \/ In q (map fst ws).
Proof.
  revert t. induction ws as [|[p n] ws IH]; intros t.
  - cbn. tauto.
  - change (apply_writes t ((p, n) :: ws)) with (apply_writes (set_node t p n) ws).
    rewrite IH, in_keys_set_node. cbn [map fst In].
    split; [intros [[H|H]|H] | intros [H|[H|H]]]; auto.
Qed.

Lemma NoDup_keys_apply_writes (ws : list (path * node)) (t : fs) :
  NoDup (map fst t) -> NoDup (map fst (apply_writes t ws)).
Proof.
  revert t. induction ws as [|[p n] ws IH]; intros t ND; [exact ND|].
  change (apply_writes t ((p, n) :: ws)) with (apply_writes (set_node t p n) ws).
  apply IH. now apply NoDup_keys_set_node.
Qed.

Lemma filter_all {A : Type} (p : A -> bool) (l : list A) :
  (forall x, In x l -> p x = true) -> filter p l = l.
Proof.
  induction l as [|x l IH]; intros H; [reflexivity|].
  cbn [filter]. rewrite (H x (or_introl eq_refl)). f_equal. apply IH.
  intros y Hy. apply H. now right.
Qed.

Lemma filter_none {A : Type} (p : A -> bool) (l : list A) :
  (forall x, In x l -> p x = false) -> filter p l = [].
Proof.
  induction l as [|x l IH]; intros H; [reflexivity|].
  cbn [filter]. rewrite (H x (or_introl eq_refl)). apply IH.
  intros y Hy. apply H. now right.
Qed.

(** Sorting two sorted halves put end to end is sorting the two halves put
    end to end. *)
Lemma sorted_app_sorted {A : Type} (key : A -> string) (a b : list A) :
  Py.sorted key (Py.sorted key a ++ Py.sorted key b) = Py.sorted key (a ++ b).
Proof.
  apply sorted_is_the_stable_sort; [apply sorted_ascending|].
  intros k. rewrite sorted_stable, !filter_app, !sorted_stable. reflexivity.
Qed.

Lemma sorted_sorted {A : Type} (key : A -> string) (l : list A) :
  Py.sorted key (Py.sorted key l) = Py.sorted key l.
Proof.
  apply sorted_is_the_stable_sort; [apply sorted_ascending|].
  intros k. now rewrite !sorted_stable.
Qed.

Lemma sorted_kept (l : list string) :
  filter is_log_line (Py.sorted sort_key (filter is_log_line l))
  = Py.sorted sort_key (filter is_log_line l).
Proof.
  apply filter_all. intros x Hx.
  apply (Permutation_in _ (sorted_perm sort_key _)) in Hx.
  apply filter_In in Hx. tauto.
Qed.

Lemma sorted_none_dropped (l : list string) :
  filter (fun line => negb (is_log_line line)) (Py.sorted sort_key (filter is_log_line l))
  = [].
Proof.
  apply filter_none. intros x Hx.
  apply (Permutation_in _ (sorted_perm sort_key _)) in Hx.
  apply filter_In in Hx. destruct Hx as [_ ->]. reflexivity.
Qed.

Lemma readlines_from_text (data cur : string) :
  file_text (Py.readlines_from cur data) = cur +:+ data.
Proof.
  revert cur. induction data as [|c data IH]; intros cur; cbn [Py.readlines_from].
  - destruct (String.eqb cur "") eqn:E.
    + apply String.eqb_eq in E. now subst.
    + cbn [file_text fold_right]. reflexivity.
  - destruct (Ascii.eqb c Py.nl).
    + cbn [file_text fold_right]. fold (file_text (Py.readlines_from "" data)).
      rewrite IH. cbn [String.append]. now rewrite append_assoc.
    + rewrite IH. now rewrite append_assoc.
Qed.

(** Reading loses nothing: the lines put end to end are the content. *)
Lemma file_text_readlines (data : string) : file_text (Py.readlines data) = data.
Proof. apply (readlines_from_text data ""). Qed.

Lemma readlines_from_line (body rest cur : string) :
  contains Py.nl body = false ->
  Py.readlines_from cur (body +:+ nl_str +:+ rest)
  = (cur +:+ body +:+ nl_str) :: Py.readlines_from "" rest.
Proof.
  revert cur. induction body as [|c body IH]; intros cur H.
  - reflexivity.
  - cbn [contains] in H. apply orb_false_iff in H. destruct H as [Hc Hb].
    cbn [String.append Py.readlines_from]. rewrite Hc.
    rewrite IH by assumption. f_equal. rewrite !append_assoc. reflexivity.
Qed.

Lemma readlines_file_text (lines : list string) :
  Forall terminated lines -> Py.readlines (file_text lines) = lines.
Proof.
  induction 1 as [|line lines (body & -> & Hb) _ IH]; [reflexivity|].
  cbn [file_text fold_right]. fold (file_text lines).
  unfold Py.readlines. rewrite append_assoc.
  rewrite readlines_from_line by assumption. cbn [String.append].
  f_equal. exact IH.
Qed.

Lemma readlines_from_terminated (data cur : string) :
  contains Py.nl cur = false ->
  (data = "" -> cur = "") ->
  ends_with_newline data = true ->
  Forall terminated (Py.readlines_from cur data).
Proof.
  revert cur. induction data as [|c data IH]; intros cur Hcur Hd He.
  - rewrite (Hd eq_refl). constructor.
  - cbn [Py.readlines_from]. destruct (Ascii.eqb c Py.nl) eqn:Ec.
    + apply Ascii.eqb_eq in Ec. subst c. constructor.
      * exists cur. split; [reflexivity | exact Hcur].
      * apply IH; [reflexivity | reflexivity |].
        destruct data; [reflexivity | exact He].
    + apply IH.
      * rewrite contains_snoc, Hcur, Ec. reflexivity.
      * intros ->. cbn in He. congruence.
      * destruct data; [cbn in He; congruence | exact He].
Qed.

Lemma readlines_terminated (data : string) :
  ends_with_newline data = true -> Forall terminated (Py.readlines data).
Proof. intros H. apply readlines_from_terminated; auto. Qed.

Lemma digit_cases (c : ascii) :
  Py.is_digit c = true ->
  In c ["0"; "1"; "2"; "3"; "4"; "5"; "6"; "7"; "8"; "9"]%char.
Proof.
  intros H. unfold Py.is_digit in H. apply andb_true_iff in H. destruct H as [H1 H2].
  apply Nat.leb_le in H1, H2.
  rewrite <- (ascii_nat_embedding c).
  remember (nat_of_ascii c) as n eqn:En. clear En.
  do 48 (destruct n as [|n]; [lia|]).
  do 10 (destruct n as [|n]; [cbn; tauto|]). lia.
Qed.

Lemma digit_is_plain (c : ascii) :
  Py.is_digit c = true ->
  Ascii.eqb c "]" = false /\ Ascii.eqb c Py.nl = false /\ Ascii.eqb c ":" = false
  /\ digit_val c <= 9.
Proof.
  intros H. apply digit_cases in H. cbn [In] in H.
  repeat (destruct H as [<-|H]; [repeat split; try reflexivity; cbn; lia|]).
  contradiction.
Qed.

Lemma digit_compare (a b : ascii) :
  Py.is_digit a = true -> Py.is_digit b = true ->
  Ascii.compare a b = Nat.compare (digit_val a) (digit_val b).
Proof.
  intros Ha Hb. apply digit_cases in Ha, Hb. cbn [In] in Ha, Hb.
  repeat (destruct Ha as [<-|Ha]; [
    repeat (destruct Hb as [<-|Hb]; [reflexivity|]); contradiction|]).
  contradiction.
Qed.

Lemma clock_stamped_key (line : string) :
  clock_stamped line = true ->
  exists h1 h2 m1 m2 s1 s2,
    sort_key line
    = String h1 (String h2 (String m1 (String m2 (String s1 (String s2 ""))))) 
    /\ is_log_line line = true
    /\ seconds_of line = 3600 * two_digits h1 h2 + 60 * two_digits m1 m2 + two_digits s1 s2
    /\ Py.is_digit h1 = true /\ Py.is_digit h2 = true
    /\ Py.is_digit m1 = true /\ Py.is_digit m2 = true
    /\ Py.is_digit s1 = true /\ Py.is_digit s2 = true
    /\ two_digits m1 m2 < 60 /\ two_digits s1 s2 < 60.
Proof.
  destruct line as [|o [|h1 [|h2 [|c1 [|m1 [|m2 [|c2 [|s1 [|s2 [|e rest]]]]]]]]]];
    try discriminate.
  cbn [clock_stamped]. rewrite !andb_true_iff.
  intros ((((((((((((Ho & H1) & H2) & Hc1) & M1) & M2) & Hc2) & S1) & S2) & He) & Hm) & Hs) & Hr).
  apply Ascii.eqb_eq in Ho, Hc1, Hc2, He. subst o c1 c2 e.
  apply Nat.ltb_lt in Hm, Hs.
  exists h1, h2, m1, m2, s1, s2.
  destruct (digit_is_plain _ H1) as (A1 & B1 & C1 & _).
  destruct (digit_is_plain _ H2) as (A2 & B2 & C2 & _).
  destruct (digit_is_plain _ M1) as (A3 & B3 & C3 & _).
  destruct (digit_is_plain _ M2) as (A4 & B4 & C4 & _).
  destruct (digit_is_plain _ S1) as (A5 & B5 & C5 & _).
  destruct (digit_is_plain _ S2) as (A6 & B6 & C6 & _).
  assert (Et : timestamp (String "[" (String h1 (String h2 (String ":" (String m1 (String m2
                 (String ":" (String s1 (String s2 (String "]" rest))))))))))
               = Some (String h1 (String h2 (String ":" (String m1 (String m2
                         (String ":" (String s1 (String s2 "")))))))) ).
  { apply (timestamp_of_bracketed
             (String h1 (String h2 (String ":" (String m1 (String m2
                (String ":" (String s1 (String s2 ""))))))))).
    - cbn [contains]. rewrite A1, A2, A3, A4, A5, A6. reflexivity.
    - cbn [contains]. rewrite B1, B2, B3, B4, B5, B6. reflexivity.
    - exact Hr. }
  unfold sort_key, is_log_line. rewrite Et.
  cbn [Py.remove_char]. rewrite C1, C2, C3, C4, C5, C6.
  rewrite Ascii.eqb_refl.
  repeat split; auto.
Qed.

Lemma clock_order (a b : string) :
  clock_stamped a = true -> clock_stamped b = true ->
  (key_le a b <-> seconds_of a <= seconds_of b).
Proof.
  intros Ha Hb.
  destruct (clock_stamped_key a Ha)
    as (a1 & a2 & a3 & a4 & a5 & a6 & Ka & _ & Sa & A1 & A2 & A3 & A4 & A5 & A6 & Ma & Na).
  destruct (clock_stamped_key b Hb)
    as (b1 & b2 & b3 & b4 & b5 & b6 & Kb & _ & Sb & B1 & B2 & B3 & B4 & B5 & B6 & Mb & Nb).
  unfold key_le, key_order. rewrite Ka, Kb, Sa, Sb.
  unfold String.leb. cbn [String.compare].
  rewrite !digit_compare by assumption.
  unfold two_digits in *.
  pose proof (proj2 (proj2 (proj2 (digit_is_plain _ A1)))).
  pose proof (proj2 (proj2 (proj2 (digit_is_plain _ A2)))).
  pose proof (proj2 (proj2 (proj2 (digit_is_plain _ A3)))).
  pose proof (proj2 (proj2 (proj2 (digit_is_plain _ A4)))).
  pose proof (proj2 (proj2 (proj2 (digit_is_plain _ A5)))).
  pose proof (proj2 (proj2 (proj2 (digit_is_plain _ A6)))).
  pose proof (proj2 (proj2 (proj2 (digit_is_plain _ B1)))).
  pose proof (proj2 (proj2 (proj2 (digit_is_plain _ B2)))).
  pose proof (proj2 (proj2 (proj2 (digit_is_plain _ B3)))).
  pose proof (proj2 (proj2 (proj2 (digit_is_plain _ B4)))).
  pose proof (proj2 (proj2 (proj2 (digit_is_plain _ B5)))).
  pose proof (proj2 (proj2 (proj2 (digit_is_plain _ B6)))).
  destruct (Nat.compare_spec (digit_val a1) (digit_val b1));
    [|split; [lia | reflexivity] | split; [discriminate | lia]].
  destruct (Nat.compare_spec (digit_val a2) (digit_val b2));
    [|split; [lia | reflexivity] | split; [discriminate | lia]].
  destruct (Nat.compare_spec (digit_val a3) (digit_val b3));
    [|split; [lia | reflexivity] | split; [discriminate | lia]].
  destruct (Nat.compare_spec (digit_val a4) (digit_val b4));
    [|split; [lia | reflexivity] | split; [discriminate | lia]].
  destruct (Nat.compare_spec (digit_val a5) (digit_val b5));
    [|split; [lia | reflexivity] | split; [discriminate | lia]].
  destruct (Nat.compare_spec (digit_val a6) (digit_val b6));
    [|split; [lia | reflexivity] | split; [discriminate | lia]].
  split; [lia | reflexivity].
Qed.

Lemma StronglySorted_weaken {A : Type} (R R' : A -> A -> Prop) (l : list A) :
  (forall a b, In a l -> In b l -> R a b -> R' a b) ->
  StronglySorted R l -> StronglySorted R' l.
Proof.
  intros H S. induction S as [|x l S IH F]; constructor.
  - apply IH. intros a b Ha Hb. apply H; now right.
  - rewrite Forall_forall in *. intros y Hy. apply H; [now left | now right | now apply F].
Qed.

Lemma listdir_here (w : world) : listdir "." w = (Ok (children (tree w) []), w).
Proof. reflexivity. Qed.

Lemma ask_answered (n d : nat) (a b : string) (rest : list keystroke) (w : world) :
  stdin w = Line a :: Line b :: rest ->
  ask n d w
  = (Ok b,
     with_stdin
       (with_stdout w
          (stdout w ++ [banner n d; underscore_note; continue_prompt; ""; module_prompt]))
       rest).
Proof.
  destruct w as [t o i c m f]. cbn [stdin]. intros ->.
  unfold ask, catch, bind, print, raw_input.
  cbn [stdin stdout with_stdout with_stdin tree clock creat_mode mkdir_fault].
  unfold with_stdin, with_stdout.
  cbn [stdin stdout tree clock creat_mode mkdir_fault].
  repeat rewrite <- app_assoc. reflexivity.
Qed.

Lemma ask_interrupted (n d : nat) (e : exn) (w : world) :
  interruption (stdin w) = Some e ->
  exists w', ask n d w = (Raise e, w') /\ tree w' = tree w.
Proof.
  destruct w as [t o i c m f]. cbn [stdin].
  destruct i as [|[a|] [|[b|] rest]]; cbn [interruption]; intros [= <-];
    eexists; (split; [reflexivity|reflexivity]).
Qed.

(** ** Renaming in the table *)
Lemma assoc_rename_other (t : fs) (src dst q : path) :
  ~ is_prefix src q -> ~ is_prefix dst q ->
  assoc (rename_tree t src dst) q = assoc t q.
Proof.
  intros Hs Hd. unfold rename_tree, remove_node.
  induction t as [|[k n] t IH]; [reflexivity|].
  cbn [filter fst assoc].
  assert (Hdq : path_eqb dst q = false).
  { apply path_eqb_neq. intros ->. apply Hd, is_prefix_refl. }
  destruct (path_eqb k dst) eqn:Ek; cbn [negb].
  - apply path_eqb_eq in Ek. subst k. rewrite Hdq. exact IH.
  - cbn [map fst snd]. destruct (strip_prefix src k) as [below|] eqn:Es.
    + apply strip_prefix_some in Es. subst k. cbn [assoc].
      assert (E1 : path_eqb (dst ++ below) q = false).
      { apply path_eqb_neq. intros <-. apply Hd. now exists below. }
      assert (E2 : path_eqb (src ++ below) q = false).
      { apply path_eqb_neq. intros <-. apply Hs. now exists below. }
      rewrite E1, E2. exact IH.
    + cbn [assoc]. rewrite IH. reflexivity.
Qed.

Lemma assoc_rename_dst (t : fs) (src dst : path) :
  ~ is_prefix dst src ->
  assoc (rename_tree t src dst) dst = assoc t src.
Proof.
  intros Hd. unfold rename_tree, remove_node.
  assert (Hds : path_eqb dst src = false).
  { apply path_eqb_neq. intros ->. apply Hd, is_prefix_refl. }
  induction t as [|[k n] t IH]; [reflexivity|].
  cbn [filter fst assoc].
  destruct (path_eqb k dst) eqn:Ek; cbn [negb].
  - apply path_eqb_eq in Ek. subst k. rewrite Hds. exact IH.
  - cbn [map fst snd]. destruct (strip_prefix src k) as [below|] eqn:Es.
    + apply strip_prefix_some in Es. subst k. cbn [assoc].
      destruct below as [|b below].
      * rewrite !app_nil_r, !path_eqb_refl. reflexivity.
      * assert (E1 : path_eqb (dst ++ b :: below) dst = false).
        { apply path_eqb_neq. intros E. apply (f_equal (@length _)) in E.
          rewrite length_app in E. cbn in E. lia. }
        assert (E2 : path_eqb (src ++ b :: below) src = false).
        { apply path_eqb_neq. intros E. apply (f_equal (@length _)) in E.
          rewrite length_app in E. cbn in E. lia. }
        rewrite E1, E2. exact IH.
    + cbn [assoc]. rewrite Ek.
      assert (E2 : path_eqb k src = false).
      { apply path_eqb_neq. intros ->. apply strip_prefix_none in Es.
        apply Es, is_prefix_refl. }
      rewrite E2. exact IH.
Qed.

Lemma assoc_rename_src (t : fs) (src dst : path) :
  ~ is_prefix dst src ->
  assoc (rename_tree t src dst) src = None.
Proof.
  intros Hd. unfold rename_tree, remove_node.
  induction t as [|[k n] t IH]; [reflexivity|].
  cbn [filter fst].
  destruct (path_eqb k dst) eqn:Ek; cbn [negb]; [exact IH|].
  cbn [map fst snd]. destruct (strip_prefix src k) as [below|] eqn:Es.
  - cbn [assoc].
    assert (E1 : path_eqb (dst ++ below) src = false).
    { apply path_eqb_neq. intros E. apply Hd. now exists below. }
    rewrite E1. exact IH.
  - cbn [assoc].
    assert (E2 : path_eqb k src = false).
    { apply path_eqb_neq. intros ->. apply strip_prefix_none in Es.
      apply Es, is_prefix_refl. }
    rewrite E2. exact IH.
Qed.

Lemma find_rename_other (t : fs) (src dst q : path) :
  ~ is_prefix src q -> ~ is_prefix dst q ->
  find_node (rename_tree t src dst) q = find_node t q.
Proof. destruct q; [reflexivity|]. apply assoc_rename_other. Qed.

Lemma find_rename_dst (t : fs) (src dst : path) :
  src <> [] -> dst <> [] -> ~ is_prefix dst src ->
  find_node (rename_tree t src dst) dst = find_node t src.
Proof.
  destruct src; [congruence|]. destruct dst; [congruence|]. intros _ _.
  apply assoc_rename_dst.
Qed.

Lemma find_rename_src (t : fs) (src dst : path) :
  src <> [] -> ~ is_prefix dst src ->
  find_node (rename_tree t src dst) src = None.
Proof. destruct src; [congruence|]. intros _. apply assoc_rename_src. Qed.

(** ** Making directories *)
Lemma grown_refl (t : fs) (p : path) : grown t t p.
Proof. intros q. now left. Qed.

Lemma grown_longer (t t' : fs) (p p' : path) :
  is_prefix p p' -> grown t t' p -> grown t t' p'.
Proof.
  intros Hp G q. destruct (G q) as [E|(Hq & E1 & E2)]; [now left|].
  right. split; [|auto]. eapply is_prefix_trans; eauto.
Qed.

Lemma grown_mkdir (t t1 : fs) (p : path) :
  p <> [] -> grown t t1 p -> find_node t1 p = None ->
  grown t (set_node t1 p Dir) p.
Proof.
  intros Hp G Hn q. destruct (list_eq_dec string_dec p q) as [<-|Hq].
  - right. split; [apply is_prefix_refl|]. split; [|now apply find_set_same].
    destruct (G p) as [E|(_ & _ & E)]; congruence.
  - rewrite find_set_other by assumption. apply G.
Qed.

Lemma mkdir_at_new (p : path) (w : world) :
  mkdir_fault w p = None -> find_node (tree w) p = None ->
  find_node (tree w) (removelast p) = Some Dir ->
  mkdir_at p w = (Ok tt, with_tree w (set_node (tree w) p Dir)).
Proof. intros Hf Hn Hp. unfold mkdir_at. now rewrite Hf, Hn, Hp. Qed.

Lemma mkdir_at_there (p : path) (n : node) (w : world) :
  mkdir_fault w p = None -> find_node (tree w) p = Some n ->
  mkdir_at p w = (Raise (OSError EEXIST), w).
Proof. intros Hf Hn. unfold mkdir_at. now rewrite Hf, Hn. Qed.

Lemma with_tree_twice (w : world) (t t' : fs) :
  with_tree (with_tree w t) t' = with_tree w t'.
Proof. reflexivity. Qed.

(** [os.makedirs] where every directory on the way is there or can be
    made: it makes the missing ones, and says so when the last was there. *)
Lemma makedirs_at_run (p : path) :
  p <> [] ->
  forall w,
    (forall q, q <> [] -> is_prefix q p -> mkdir_fault w q = None) ->
    (forall q, is_prefix q p ->
               find_node (tree w) q = None \/ find_node (tree w) q = Some Dir) ->
    exists r t',
      makedirs_at (length p) p w = (r, with_tree w t')
      /\ (r = Ok tt \/ r = Raise (OSError EEXIST))
      /\ find_node t' p = Some Dir
      /\ grown (tree w) t' p.
Proof.
  induction p as [|c head IH] using rev_ind; [congruence|]. intros _ w Hf Hd.
  rewrite length_app, Nat.add_1_r. cbn [makedirs_at]. rewrite removelast_last.
  assert (Hlast : forall w1 t1,
            w1 = with_tree w t1 -> grown (tree w) t1 head ->
            find_node t1 head = Some Dir ->
            exists r t',
              mkdir_at (head ++ [c]) w1 = (r, with_tree w t')
              /\ (r = Ok tt \/ r = Raise (OSError EEXIST))
              /\ find_node t' (head ++ [c]) = Some Dir
              /\ grown (tree w) t' (head ++ [c])).
  { intros w1 t1 -> G Hh.
    assert (Hpne : head ++ [c] <> []) by (destruct head; discriminate).
    assert (Hfp : mkdir_fault (with_tree w t1) (head ++ [c]) = None)
      by (apply Hf; [exact Hpne | apply is_prefix_refl]).
    assert (Ep : find_node t1 (head ++ [c]) = find_node (tree w) (head ++ [c])).
    { destruct (G (head ++ [c])) as [E|(Hq & _)]; [exact E|].
      apply is_prefix_length in Hq. rewrite length_app in Hq. cbn in Hq. lia. }
    assert (G' : grown (tree w) t1 (head ++ [c])).
    { apply (grown_longer _ _ head); [now exists [c] | exact G]. }
    destruct (Hd (head ++ [c]) (is_prefix_refl _)) as [En|En]; rewrite <- Ep in En.
    - exists (Ok tt), (set_node t1 (head ++ [c]) Dir).
      rewrite mkdir_at_new; cbn [tree with_tree]; auto;
        [|now rewrite removelast_last].
      split; [reflexivity|]. split; [now left|].
      split; [now apply find_set_same | now apply grown_mkdir].
    - exists (Raise (OSError EEXIST)), t1.
      rewrite (mkdir_at_there _ Dir) by (cbn [tree with_tree]; auto).
      auto. }
  unfold bind at 1. unfold bind at 1. unfold path_exists, ret at 1.
  destruct (path_eqb head []) eqn:Ehe.
  - apply path_eqb_eq in Ehe. subst head. cbn [negb andb]. unfold bind at 1, ret at 1.
    apply (Hlast w (tree w)); [now rewrite with_tree_same | apply grown_refl | reflexivity].
  - assert (Hhne : head <> []) by now apply path_eqb_neq.
    cbn [negb andb]. unfold is_present.
    destruct (Hd head) as [En|En]; [now exists [c]| |]; rewrite En; cbn [negb].
    + destruct (IH Hhne w) as (r1 & t1 & E1 & Hr1 & Hh1 & G1).
      { intros q Hq Hp. apply Hf; [exact Hq|]. apply is_prefix_snoc. now left. }
      { intros q Hp. apply Hd. apply is_prefix_snoc. now left. }
      unfold bind at 1, catch. rewrite E1.
      assert (Ego : (let (r, w') :=
                       match r1 with
                       | Ok a => (Ok a, with_tree w t1)
                       | Raise e =>
                           match match e with
                                 | OSError EEXIST => Some (ret tt)
                                 | _ => None
                                 end with
                           | Some k => k (with_tree w t1)
                           | None => (Raise e, with_tree w t1)
                           end
                       end in
                     match r with
                     | Ok _ => mkdir_at (head ++ [c]) w'
                     | Raise e => (Raise e, w')
                     end)
                    = mkdir_at (head ++ [c]) (with_tree w t1)).
      { destruct Hr1 as [->| ->]; reflexivity. }
      rewrite Ego. apply (Hlast _ t1); auto.
    + unfold bind at 1, ret at 1.
      apply (Hlast w (tree w)); [now rewrite with_tree_same | apply grown_refl | exact En].
Qed.

Lemma ensure_dir_run (path : string) (w : world) :
  resolve path <> [] ->
  (forall q, q <> [] -> is_prefix q (resolve path) -> mkdir_fault w q = None) ->
  (forall q, is_prefix q (resolve path) ->
             find_node (tree w) q = None \/ find_node (tree w) q = Some Dir) ->
  exists t',
    ensure_dir path w = (Ok tt, with_tree w t')
    /\ find_node t' (resolve path) = Some Dir
    /\ grown (tree w) t' (resolve path).
Proof.
  intros Hne Hf Hd.
  destruct (makedirs_at_run (resolve path) Hne w Hf Hd) as (r & t' & E & Hr & Hp & G).
  exists t'. split; [|auto].
  unfold ensure_dir, catch, makedirs. rewrite E.
  destruct Hr as [->| ->]; [reflexivity|].
  cbn [errno_eqb]. unfold bind, isdir, is_dir. cbn [tree with_tree]. now rewrite Hp.
Qed.

Lemma move_file_run (src dst data : string) (st : stat) (w : world) :
  find_node (tree w) (resolve src) = Some (File data st) ->
  find_node (tree w) (resolve dst) <> Some Dir ->
  resolve src <> resolve dst ->
  find_node (tree w) (removelast (resolve dst)) = Some Dir ->
  move src dst w
  = (Ok tt, with_tree w (rename_tree (tree w) (resolve src) (resolve dst))).
Proof.
  intros Hs Hd Hne Hp. unfold move, move_at. cbv zeta.
  assert (Ed : is_dir (tree w) (resolve dst) = false).
  { unfold is_dir. destruct (find_node (tree w) (resolve dst)) as [[|]|]; congruence. }
  rewrite Ed. cbn [andb]. rewrite Hs.
  apply path_eqb_neq in Hne. rewrite Hne.
  unfold is_dir. now rewrite Hp.
Qed.

(** One turn of the loop of [convertToHierarchy] on a name the pattern
    matches. *)
Lemma rewrite_one (myRe : regex) (myFormat logfile path target : string)
    (dir : list string) (file data : string) (st : stat) (w : world) :
  destination myRe myFormat logfile = Some (path, target) ->
  resolve (OUTDIR +:+ logfile) = ["output"; logfile] ->
  resolve path = "output" :: dir -> dir <> [] ->
  resolve target = "output" :: dir ++ [file] ->
  (forall q, q <> [] -> is_prefix q ("output" :: dir) -> mkdir_fault w q = None) ->
  (forall q, is_prefix q ("output" :: dir) ->
             find_node (tree w) q = None \/ find_node (tree w) q = Some Dir) ->
  find_node (tree w) ["output"; logfile] = Some (File data st) ->
  find_node (tree w) ("output" :: dir ++ [file]) <> Some Dir ->
  exists t',
    hierarchy_body myRe myFormat logfile w = (Ok tt, with_tree w t')
    /\ find_node t' ("output" :: dir ++ [file]) = Some (File data st)
    /\ find_node t' ["output"; logfile] = None
    /\ find_node t' ("output" :: dir) = Some Dir
    /\ (forall q, ~ is_prefix ["output"; logfile] q ->
                  ~ is_prefix ("output" :: dir ++ [file]) q ->
                  find_node t' q = find_node (tree w) q
                  \/ (is_prefix q ("output" :: dir)
                      /\ find_node (tree w) q = None /\ find_node t' q = Some Dir)).
Proof.
  intros Hdest Hsrc Hpath Hdir Htarget Hf Hd Hfile Hdst.
  rewrite (hierarchy_body_matched _ _ _ _ _ _ Hdest).
  destruct (ensure_dir_run path w) as (t1 & E1 & Hp1 & G1);
    try (rewrite Hpath; auto; discriminate).
  rewrite Hpath in Hp1, G1.
  unfold bind. rewrite E1.
  set (src := ["output"; logfile]) in *.
  set (dst := "output" :: dir ++ [file]) in *.
  assert (Hlen : length dst = S (length ("output" :: dir))).
  { unfold dst. cbn [length]. rewrite length_app. cbn. lia. }
  assert (Hlen2 : 3 <= length dst).
  { rewrite Hlen. cbn [length]. destruct dir; [congruence | cbn; lia]. }
  assert (Hnsrc : ~ is_prefix src ("output" :: dir)).
  { intros Hp. destruct (Hd src Hp); congruence. }
  assert (Hndst : ~ is_prefix dst ("output" :: dir)).
  { intros Hp. apply is_prefix_length in Hp. lia. }
  assert (Hds : ~ is_prefix dst src).
  { intros Hp. apply is_prefix_length in Hp. cbn [src length] in Hp. lia. }
  assert (Es1 : find_node t1 src = Some (File data st)).
  { destruct (G1 src) as [E|(Hp & _)]; [congruence | contradiction]. }
  assert (Ed1 : find_node t1 dst = find_node (tree w) dst).
  { destruct (G1 dst) as [E|(Hp & _)]; [congruence | contradiction]. }
  rewrite (move_file_run _ _ data st); cbn [tree with_tree];
    rewrite ?Hsrc, ?Htarget; fold src dst.
  - exists (rename_tree t1 src dst). split; [reflexivity|].
    split; [|split; [|split]].
    + rewrite find_rename_dst; auto; discriminate.
    + apply find_rename_src; auto; discriminate.
    + rewrite find_rename_other; auto.
    + intros q Hq1 Hq2. rewrite find_rename_other by assumption. apply G1.
  - exact Es1.
  - congruence.
  - intros E. apply Hds. rewrite E. apply is_prefix_refl.
  - unfold dst. change ("output" :: dir ++ [file]) with (("output" :: dir) ++ [file]).
    now rewrite removelast_last.
Qed.

Lemma is_prefix_dec (p q : path) : {is_prefix p q} + {~ is_prefix p q}.
Proof.
  destruct (strip_prefix p q) as [r|] eqn:E.
  - left. exists r. now apply strip_prefix_some.
  - right. now apply strip_prefix_none.
Qed.

Lemma destination_matched (myRe : regex) (myFormat k : string) (pt : string * string) :
  destination myRe myFormat k = Some pt -> unmatched myRe k = false.
Proof.
  unfold destination, unmatched. destruct (match_ myRe k); [reflexivity | discriminate].
Qed.

Section Rewriter.

Variables (myRe : regex) (myFormat : string).

Variable names : list string.

Variable dir : string -> list string.

Variable file : string -> string.

Variable t0 : fs.

Hypothesis H_dest :
  forall k, In k names ->
    exists path target,
      destination myRe myFormat k = Some (path, target)
      /\ resolve path = "output" :: dir k
      /\ resolve target = "output" :: dir k ++ [file k].

Hypothesis H_plain : forall k, In k names -> resolve (OUTDIR +:+ k) = ["output"; k].

Hypothesis H_dir : forall k, In k names -> dir k <> [].

Hypothesis H_file :
  forall k, In k names -> exists data st, find_node t0 ["output"; k] = Some (File data st).

Hypothesis S1 :
  forall k k', In k names -> In k' names ->
    ~ is_prefix ("output" :: dir k' ++ [file k']) ("output" :: dir k).

Hypothesis S2 :
  forall k k', In k names -> In k' names -> ~ is_prefix ["output"; k'] ("output" :: dir k).

Hypothesis S3 :
  forall k k', In k names -> In k' names ->
    dir k ++ [file k] = dir k' ++ [file k'] -> k = k'.

Lemma src_not_in_dst (k k' : string) :
  In k names -> In k' names ->
  ~ is_prefix ["output"; k] ("output" :: dir k' ++ [file k']).
Proof.
  intros Hk Hk' Hp. apply (S2 k' k Hk' Hk).
  destruct Hp as (r & E). pose proof (H_dir k' Hk') as Hd.
  destruct (dir k') as [|d0 ds]; [congruence|].
  cbn in E. injection E as E _. subst d0. exists ds. reflexivity.
Qed.

Lemma dst_in_dst (k k' : string) :
  In k names -> In k' names ->
  is_prefix ("output" :: dir k ++ [file k]) ("output" :: dir k' ++ [file k']) -> k = k'.
Proof.
  intros Hk Hk' Hp.
  change ("output" :: dir k' ++ [file k']) with (("output" :: dir k') ++ [file k']) in Hp.
  apply is_prefix_snoc in Hp. destruct Hp as [Hp|E].
  - exfalso. exact (S1 k' k Hk' Hk Hp).
  - injection E as E. now apply S3.
Qed.

Lemma matched_name (k : string) : In k names -> unmatched myRe k = false.
Proof.
  intros Hk. destruct (H_dest k Hk) as (path & target & Hd & _).
  exact (destination_matched _ _ _ _ Hd).
Qed.

(** One turn on a name that matches keeps the state of the loop. *)
Lemma rewriting_step (k : string) (todo : list string) (w : world) :
  In k names -> ~ In k todo ->
  (forall k', In k' todo -> find_node t0 ["output"; k'] <> None) ->
  (forall k q, In k names -> q <> [] -> is_prefix q ("output" :: dir k) ->
               mkdir_fault w q = None) ->
  rewriting names dir file t0 (k :: todo) (tree w) ->
  exists t1,
    hierarchy_body myRe myFormat k w = (Ok tt, with_tree w t1)
    /\ rewriting names dir file t0 todo t1.
Proof.
  intros Hk Hk_notin Hpresent Hf (A & B & C & D & E & O).
  destruct (H_dest k Hk) as (path & target & Hdest & Hpath & Htarget).
  destruct (H_file k Hk) as (data & st & Hfile0).
  assert (Hfile : find_node (tree w) ["output"; k] = Some (File data st))
    by (rewrite A; [exact Hfile0 | now left]).
  destruct (rewrite_one myRe myFormat k path target (dir k) (file k) data st w)
    as (t1 & E1 & F1 & F2 & F3 & Frame); auto.
  { intros q Hq Hp. now apply (Hf k). }
  { intros q Hp. now apply (B k). }
  exists t1. split; [exact E1|].
  assert (Hlen : 3 <= length ("output" :: dir k ++ [file k])).
  { pose proof (H_dir k Hk) as Hd. cbn [length]. rewrite length_app.
    destruct (dir k); [congruence | cbn; lia]. }
  split; [|split; [|split; [|split; [|split]]]].
  - (* the names still to go *)
    intros k' Hk'.
    destruct (Frame ["output"; k']) as [Eq|(Hp & Hn & _)].
    + intros Hp. apply is_prefix_same_length in Hp; [|reflexivity].
      injection Hp as ->. contradiction.
    + intros Hp. apply is_prefix_length in Hp. cbn [length] in *. lia.
    + rewrite Eq. apply A. now right.
    + rewrite A in Hn by (now right). now apply Hpresent in Hn.
  - (* the directories on the way *)
    intros k' q Hk' Hq.
    destruct (is_prefix_dec ["output"; k] q) as [P1|P1].
    { exfalso. apply (S2 k' k Hk' Hk). eapply is_prefix_trans; eauto. }
    destruct (is_prefix_dec ("output" :: dir k ++ [file k]) q) as [P2|P2].
    { exfalso. apply (S1 k' k Hk' Hk). eapply is_prefix_trans; eauto. }
    destruct (Frame q P1 P2) as [Eq|(_ & _ & Eq)]; [|now right].
    rewrite Eq. now apply (B k').
  - (* the places to move to *)
    intros k' Hk'.
    destruct (is_prefix_dec ("output" :: dir k ++ [file k])
                            ("output" :: dir k' ++ [file k'])) as [P2|P2].
    { rewrite <- (dst_in_dst k k' Hk Hk' P2). rewrite F1. discriminate. }
    destruct (Frame ("output" :: dir k' ++ [file k'])) as [Eq|(Hp & _)].
    + now apply src_not_in_dst.
    + exact P2.
    + rewrite Eq. now apply C.
    + exfalso. exact (S1 k k' Hk Hk' Hp).
  - (* the names already moved *)
    intros k' Hk' Hnot.
    destruct (string_dec k k') as [<-|Hne].
    { split; [|split]; auto. congruence. }
    assert (Hnot' : ~ In k' (k :: todo)) by (intros [?|?]; [congruence | contradiction]).
    destruct (D k' Hk' Hnot') as (D1 & D2 & D3).
    split; [|split].
    + destruct (Frame ("output" :: dir k' ++ [file k'])) as [Eq|(Hp & _)].
      * now apply src_not_in_dst.
      * intros Hp. apply Hne. now apply dst_in_dst.
      * now rewrite Eq.
      * exfalso. exact (S1 k k' Hk Hk' Hp).
    + destruct (Frame ["output"; k']) as [Eq|(Hp & _)].
      * intros Hp. apply is_prefix_same_length in Hp; [|reflexivity].
        injection Hp as ->. congruence.
      * intros Hp. apply is_prefix_length in Hp. cbn [length] in *. lia.
      * now rewrite Eq.
      * exfalso. exact (S2 k k' Hk Hk' Hp).
    + destruct (Frame ("output" :: dir k')) as [Eq|(_ & _ & Eq)].
      * now apply S2.
      * now apply S1.
      * now rewrite Eq.
      * exact Eq.
  - (* everything else *)
    intros q Hq. destruct (Hq k Hk) as (Q1 & Q2 & Q3).
    destruct (Frame q Q1 Q2) as [Eq|(Hp & _)]; [|contradiction].
    rewrite Eq. now apply E.
  - (* the staging directory itself *)
    destruct (Frame ["output"]) as [Eq|(_ & Hn & _)].
    + intros Hp. apply is_prefix_length in Hp. cbn [length] in Hp. lia.
    + intros Hp. apply is_prefix_length in Hp. cbn [length] in *. lia.
    + now rewrite Eq.
    + congruence.
Qed.

Lemma rewrite_loop (todo : list string) :
  NoDup todo ->
  (forall k, In k todo -> In k names \/ match_ myRe k = None) ->
  (forall k, In k todo -> find_node t0 ["output"; k] <> None) ->
  forall w,
    (forall k q, In k names -> q <> [] -> is_prefix q ("output" :: dir k) ->
                 mkdir_fault w q = None) ->
    rewriting names dir file t0 todo (tree w) ->
    exists t',
      for_each todo (hierarchy_body myRe myFormat) w
      = (Ok tt,
         with_tree
           (with_stdout w (stdout w ++ map nomatch_warning (filter (unmatched myRe) todo)))
           t')
      /\ rewriting names dir file t0 [] t'.
Proof.
  induction todo as [|k todo IH]; intros ND Hsplit Hpresent w Hf Hinv.
  - exists (tree w). split; [|exact Hinv].
    cbn [for_each filter map]. unfold ret. now rewrite app_nil_r, with_stdout_same, with_tree_same.
  - inversion ND as [|? ? Hk_notin ND']; subst.
    assert (Hsplit' : forall k', In k' todo -> In k' names \/ match_ myRe k' = None)
      by (intros k' Hk'; apply Hsplit; now right).
    assert (Hpresent' : forall k', In k' todo -> find_node t0 ["output"; k'] <> None)
      by (intros k' Hk'; apply Hpresent; now right).
    destruct (Hsplit k (or_introl eq_refl)) as [Hk|Hno].
    + destruct (rewriting_step k todo w Hk Hk_notin Hpresent' Hf Hinv) as (t1 & E1 & Hinv1).
      destruct (IH ND' Hsplit' Hpresent' (with_tree w t1) Hf Hinv1) as (t' & E' & Hinv').
      exists t'. split; [|exact Hinv'].
      cbn [for_each filter]. rewrite (matched_name k Hk).
      unfold bind. rewrite E1. exact E'.
    + destruct Hinv as (A & B & C & D & E & O).
      assert (Hk_no : ~ In k names).
      { intros Hk. pose proof (matched_name k Hk) as Hm. unfold unmatched in Hm.
        now rewrite Hno in Hm. }
      destruct (IH ND' Hsplit' Hpresent'
                  (with_stdout w (stdout w ++ [nomatch_warning k])))
        as (t' & E' & Hinv').
      { exact Hf. }
      { cbn [tree with_stdout]. split; [|split; [|split; [|split; [|split]]]]; auto.
        - intros k' Hk'. apply A. now right.
        - intros k' Hk' Hnot. apply D; [exact Hk'|].
          intros [<-|Hin]; contradiction. }
      exists t'. split; [|exact Hinv'].
      cbn [for_each filter]. unfold unmatched at 1. rewrite Hno.
      unfold bind. rewrite hierarchy_body_nomatch by exact Hno. rewrite E'.
      cbn [map stdout with_stdout]. rewrite <- app_assoc. reflexivity.
Qed.

(** The whole of [convertToHierarchy]: the entries that match are moved,
    the others are left with a warning. *)
Lemma rewriter_run (logType : string) (listing : list string) (w : world) :
  myRe = pattern_of logType -> myFormat = format_of logType ->
  t0 = tree w ->
  find_node (tree w) ["output"] = Some Dir ->
  children (tree w) ["output"] = listing ->
  NoDup listing ->
  incl names listing ->
  (forall k, In k listing -> In k names \/ match_ myRe k = None) ->
  (forall k q, In k names -> is_prefix q ("output" :: dir k) ->
               find_node (tree w) q = None \/ find_node (tree w) q = Some Dir) ->
  (forall k, In k names -> find_node (tree w) ("output" :: dir k ++ [file k]) <> Some Dir) ->
  (forall k q, In k names -> q <> [] -> is_prefix q ("output" :: dir k) ->
               mkdir_fault w q = None) ->
  exists t',
    convertToHierarchy logType w
    = (Ok tt,
       with_tree
         (with_stdout w
            (stdout w ++ [rearranging]
               ++ map nomatch_warning (filter (unmatched myRe) listing) ++ ["Done!"]))
         t')
    /\ rewriting names dir file t0 [] t'.
Proof.
  intros Hre Hfmt Ht0 Hout Hls ND Hsub Hsplit B0 C0 Hf.
  rewrite convertToHierarchy_unfold by exact Hout.
  change (resolve OUTDIR) with ["output"]. rewrite Hls, <- Hre, <- Hfmt.
  destruct (rewrite_loop listing ND Hsplit) with (w := with_stdout w (stdout w ++ [rearranging]))
    as (t' & E & Hinv).
  - intros k Hk. rewrite Ht0. rewrite <- Hls in Hk.
    apply in_children in Hk. apply find_in_keys; [discriminate | exact Hk].
  - exact Hf.
  - cbn [tree with_stdout]. rewrite Ht0. split; [|split; [|split; [|split; [|split]]]]; auto.
    intros k Hk Hnot. exfalso. apply Hnot. now apply Hsub.
  - exists t'. split; [|exact Hinv]. rewrite E. rewrite print_run.
    cbn [stdout with_tree with_stdout tree stdin clock creat_mode mkdir_fault].
    unfold with_tree, with_stdout.
    cbn [stdout tree stdin clock creat_mode mkdir_fault].
    now rewrite <- !app_assoc.
Qed.

End Rewriter.

(** ** Paths below the staging directory *)
Lemma split_on_app (a rest : string) :
  contains "/" a = false ->
  split_on "/" (a +:+ String "/" rest) = a :: split_on "/" rest.
Proof.
  induction a as [|c a IH]; intros H.
  - reflexivity.
  - cbn [contains] in H. apply orb_false_iff in H. destruct H as [Hc Ha].
    cbn [String.append split_on]. rewrite Hc, IH by assumption. reflexivity.
Qed.

Lemma split_on_join (comps : list string) :
  comps <> [] -> Forall (fun c => plain_name c = true) comps ->
  split_on "/" (Py.join "/" comps) = comps.
Proof.
  intros Hne F. induction F as [|c comps Hc F IH]; [congruence|].
  apply plain_name_parts in Hc. destruct Hc as (_ & _ & _ & Hc).
  destruct comps as [|c' comps].
  - cbn. now apply split_on_plain.
  - change (Py.join "/" (c :: c' :: comps))
      with (c +:+ String "/" (Py.join "/" (c' :: comps))).
    rewrite split_on_app by assumption. f_equal. apply IH. discriminate.
Qed.

Lemma norm_plain (comps racc : list string) :
  Forall (fun c => plain_name c = true) comps ->
  fold_left norm_step comps racc = rev comps ++ racc.
Proof.
  intros F. revert racc. induction F as [|c comps Hc F IH]; intros racc; [reflexivity|].
  apply plain_name_parts in Hc. destruct Hc as (H0 & H1 & H2 & _).
  cbn [fold_left rev]. unfold norm_step at 2. rewrite H0, H1, H2. cbn [orb].
  rewrite IH, <- app_assoc. reflexivity.
Qed.

(** [OUTDIR] and plain components joined by slashes. *)
Lemma resolve_output_join (comps : list string) :
  comps <> [] -> Forall (fun c => plain_name c = true) comps ->
  resolve (OUTDIR +:+ Py.join "/" comps) = "output" :: comps.
Proof.
  intros Hne F. unfold resolve, OUTDIR.
  cbn [String.append split_on Ascii.eqb Bool.eqb].
  rewrite split_on_join by assumption.
  cbn [fold_left]. unfold norm_step at 2 3. cbn [String.eqb Ascii.eqb Bool.eqb orb].
  rewrite norm_plain by assumption.
  rewrite rev_app_distr, rev_involutive. reflexivity.
Qed.

Lemma contains_substring (c : ascii) (s : string) (n m : nat) :
  contains c s = false -> contains c (substring n m s) = false.
Proof.
  revert n m. induction s as [|a s IH]; intros n m H.
  - destruct n, m; reflexivity.
  - cbn [contains] in H. apply orb_false_iff in H. destruct H as [Ha Hs].
    destruct n as [|n]; destruct m as [|m]; cbn [substring contains]; auto.
    rewrite Ha. now apply IH.
Qed.

Lemma all_in_no (a : cset) (c : ascii) (s : string) :
  in_cset a c = false -> all_in a s = true -> contains c s = false.
Proof.
  intros Hc. induction s as [|x s IH]; [reflexivity|].
  cbn [all_in contains]. intros H. apply andb_true_iff in H. destruct H as [Hx Hs].
  rewrite (IH Hs), orb_false_r. apply Ascii.eqb_neq. intros ->. congruence.
Qed.

Lemma dashed_is_plain (s : string) :
  contains "-" s = true -> contains "/" s = false -> plain_name s = true.
Proof.
  intros Hd Hs. unfold plain_name. rewrite Hs.
  destruct (String.eqb s "") eqn:E0; [apply String.eqb_eq in E0; subst; discriminate|].
  destruct (String.eqb s ".") eqn:E1; [apply String.eqb_eq in E1; subst; discriminate|].
  destruct (String.eqb s "..") eqn:E2; [apply String.eqb_eq in E2; subst; discriminate|].
  reflexivity.
Qed.

Lemma placed_made (myRe : regex) (myFormat k : string) (comps : list string) (f : string) :
  placed myRe myFormat k comps f ->
  made_dir myRe myFormat k = comps /\ moved_name myRe myFormat k = f.
Proof.
  intros (path & target & Hd & Hp & Ht & _). unfold made_dir, moved_name.
  rewrite Hd, Hp, Ht. split; [reflexivity|].
  change ("output" :: comps ++ [f]) with (("output" :: comps) ++ [f]).
  apply last_last.
Qed.

Lemma find_in_children (t : fs) (d : path) (c : string) (n : node) :
  find_node t (d ++ [c]) = Some n -> In c (children t d).
Proof.
  assert (Hne : d ++ [c] <> []) by (destruct d; discriminate).
  unfold find_node. destruct (d ++ [c]) as [|x p] eqn:E; [congruence|]. rewrite <- E. clear E.
  unfold children. induction t as [|[k m] t IH]; [discriminate|].
  cbn [assoc flat_map fst]. destruct (path_eqb k (d ++ [c])) eqn:Ek.
  - intros _. apply path_eqb_eq in Ek. subst k. apply in_or_app. left.
    assert (Es : strip_prefix d (d ++ [c]) = Some [c]) by now apply strip_prefix_some.
    rewrite Es. now left.
  - intros H. apply in_or_app. right. now apply IH.
Qed.

Lemma unmatched_none (myRe : regex) (k : string) :
  unmatched myRe k = true <-> match_ myRe k = None.
Proof. unfold unmatched. destruct (match_ myRe k); split; congruence. Qed.

Lemma placed_matched (myRe : regex) (myFormat k : string) (comps : list string) (f : string) :
  placed myRe myFormat k comps f -> unmatched myRe k = false.
Proof. intros (path & target & Hd & _). exact (destination_matched _ _ _ _ Hd). Qed.

(** The rewriter on a fresh staging directory: the entries that match go
    to directories of one depth, the others stay. *)
Lemma rewriter_places (logType : string) (depth : nat) (w : world) :
  let names := children (tree w) ["output"] in
  let myRe := pattern_of logType in
  let myFormat := format_of logType in
  find_node (tree w) ["output"] = Some Dir ->
  NoDup names ->
  (forall k, In k names ->
     match_ myRe k = None
     \/ ((exists data st, find_node (tree w) ["output"; k] = Some (File data st))
         /\ exists comps f, placed myRe myFormat k comps f /\ length comps = depth
                            /\ ~ In (hd "" comps) names)) ->
  (forall k k' comps f, In k names -> In k' names ->
     placed myRe myFormat k comps f -> placed myRe myFormat k' comps f -> k = k') ->
  (forall q, is_prefix ["output"] q -> 2 < length q -> find_node (tree w) q = None) ->
  (forall q, mkdir_fault w q = None) ->
  exists w',
    convertToHierarchy logType w = (Ok tt, w')
    /\ stdout w'
       = stdout w ++ [rearranging]
           ++ map nomatch_warning (filter (unmatched myRe) names) ++ ["Done!"]
    /\ (forall k comps f, In k names -> placed myRe myFormat k comps f ->
          find_node (tree w') ("output" :: comps ++ [f]) = find_node (tree w) ["output"; k]
          /\ find_node (tree w') ["output"; k] = None
          /\ find_node (tree w') ("output" :: comps) = Some Dir)
    /\ (forall k, In k names -> match_ myRe k = None ->
          find_node (tree w') ["output"; k] = find_node (tree w) ["output"; k])
    /\ (forall q, ~ is_prefix ["output"] q -> find_node (tree w') q = find_node (tree w) q)
    /\ find_node (tree w') ["output"] = Some Dir
    /\ (forall c, In c (children (tree w') ["output"]) ->
          (In c names /\ match_ myRe c = None)
          \/ (exists k comps f, In k names /\ placed myRe myFormat k comps f
                                /\ c = hd "" comps)).
Proof.
  intros names myRe myFormat Hout ND Hsplit Hinj Hdeep Hfault.
  set (dir := made_dir myRe myFormat). set (file := moved_name myRe myFormat).
  set (matched := filter (fun k => negb (unmatched myRe k)) names).
  assert (Hmade : forall k, In k matched ->
            In k names
            /\ (exists data st, find_node (tree w) ["output"; k] = Some (File data st))
            /\ exists comps f, placed myRe myFormat k comps f /\ length comps = depth
                               /\ ~ In (hd "" comps) names
                               /\ dir k = comps /\ file k = f).
  { intros k Hk. apply filter_In in Hk. destruct Hk as [Hk Hm].
    apply negb_true_iff in Hm. split; [exact Hk|].
    destruct (Hsplit k Hk) as [Hno|(Hfile & comps & f & Hp & Hl & Hh)].
    - apply unmatched_none in Hno. congruence.
    - split; [exact Hfile|].
      destruct (placed_made _ _ _ _ _ Hp) as [E1 E2]. exists comps, f. auto. }
  assert (Hin_matched : forall k comps f, In k names -> placed myRe myFormat k comps f ->
                                          In k matched).
  { intros k comps f Hk Hp. apply filter_In. split; [exact Hk|].
    now rewrite (placed_matched _ _ _ _ _ Hp). }
  destruct (rewriter_run myRe myFormat matched dir file (tree w))
    with (logType := logType) (listing := names) (w := w)
    as (t' & E & (_ & _ & _ & D & Efr & Fout)); auto.
  - (* H_dest *)
    intros k Hk. destruct (Hmade k Hk) as (_ & _ & comps & f & Hp & _ & _ & -> & ->).
    destruct Hp as (path & target & H1 & H2 & H3 & _). eauto.
  - (* H_plain *)
    intros k Hk. destruct (Hmade k Hk) as (_ & _ & comps & f & Hp & _).
    destruct Hp as (path & target & _ & _ & _ & _ & Hpl). now apply resolve_staged.
  - (* H_dir *)
    intros k Hk. destruct (Hmade k Hk) as (_ & _ & comps & f & Hp & _ & _ & -> & _).
    destruct Hp as (path & target & _ & _ & _ & Hne & _). exact Hne.
  - (* H_file *)
    intros k Hk. now destruct (Hmade k Hk) as (_ & Hfile & _).
  - (* S1 *)
    intros k k' Hk Hk' Hp.
    destruct (Hmade k Hk) as (_ & _ & comps & f & _ & Hl & _ & Ed & _).
    destruct (Hmade k' Hk') as (_ & _ & comps' & f' & _ & Hl' & _ & Ed' & _).
    rewrite Ed, Ed' in Hp. apply is_prefix_length in Hp.
    cbn [length] in Hp. rewrite length_app in Hp. cbn in Hp. lia.
  - (* S2 *)
    intros k k' Hk Hk' Hp.
    destruct (Hmade k Hk) as (_ & _ & comps & f & Hpl & _ & Hh & Ed & _).
    destruct (Hmade k' Hk') as (Hk'n & _).
    rewrite Ed in Hp. destruct Hp as (r & Er).
    destruct comps as [|c0 cs].
    + destruct Hpl as (? & ? & _ & _ & _ & Hne & _). congruence.
    + cbn in Er. injection Er as -> _. apply Hh. exact Hk'n.
  - (* S3 *)
    intros k k' Hk Hk' Heq.
    destruct (Hmade k Hk) as (Hkn & _ & comps & f & Hpl & _ & _ & Ed & Ef).
    destruct (Hmade k' Hk') as (Hkn' & _ & comps' & f' & Hpl' & _ & _ & Ed' & Ef').
    rewrite Ed, Ef, Ed', Ef' in Heq. apply app_inj_tail in Heq. destruct Heq as [-> ->].
    now apply (Hinj k k' comps' f').
  - (* the entries that match are entries *)
    intros k Hk. now destruct (Hmade k Hk).
  - (* every entry matches or does not *)
    intros k Hk. destruct (match_ myRe k) as [m|] eqn:Em; [left | now right].
    apply filter_In. split; [exact Hk|]. unfold unmatched. now rewrite Em.
  - (* the directories on the way *)
    intros k q Hk Hq.
    destruct (Hmade k Hk) as (_ & _ & comps & f & Hpl & _ & Hh & Ed & _).
    rewrite Ed in Hq.
    destruct q as [|q0 [|q1 [|q2 q]]].
    + right. reflexivity.
    + right. destruct Hq as (r & Er). injection Er as <- _. exact Hout.
    + destruct (find_node (tree w) [q0; q1]) as [n|] eqn:En; [|now left].
      exfalso. apply Hh. destruct Hq as (r & Er).
      destruct comps as [|c0 cs]; [discriminate Er|]. injection Er as <- <- _.
      apply (find_in_children (tree w) ["output"] c0 n). exact En.
    + left. apply Hdeep; [|cbn; lia].
      destruct Hq as (r & Er). injection Er as <- _. eexists. reflexivity.
  - (* the places to move to *)
    intros k Hk. destruct (Hmade k Hk) as (_ & _ & comps & f & Hpl & _ & _ & Ed & Ef).
    rewrite Hdeep; [discriminate| |].
    + eexists. reflexivity.
    + destruct Hpl as (? & ? & _ & _ & _ & Hne & _). fold dir. rewrite Ed.
      cbn [length]. rewrite length_app. destruct comps; [congruence | cbn; lia].
  - eexists. split; [exact E|]. split; [reflexivity|]. cbn [tree with_tree]. split.
    + intros k comps f Hk Hpl. destruct (placed_made _ _ _ _ _ Hpl) as [Ed Ef].
      fold dir in Ed. fold file in Ef. rewrite <- Ed, <- Ef.
      apply D; [now apply (Hin_matched k comps f) | auto].
    + split.
      * intros k Hk Hno. apply Efr. intros k2 Hk2.
        destruct (Hmade k2 Hk2) as (Hkn & _ & comps & f & Hpl & _ & Hh & Ed & Ef).
        fold dir file. rewrite Ed, Ef. split; [|split].
        -- intros Hp. apply is_prefix_same_length in Hp; [|reflexivity].
           injection Hp as ->. apply unmatched_none in Hno.
           rewrite (placed_matched _ _ _ _ _ Hpl) in Hno. discriminate.
        -- intros Hp. apply is_prefix_length in Hp. cbn [length] in Hp.
           rewrite length_app in Hp.
           destruct Hpl as (? & ? & _ & _ & _ & Hne & _).
           destruct comps; [congruence | cbn in Hp; lia].
        -- intros (r & Er). destruct comps as [|c0 cs]; [discriminate Er|].
           injection Er as <- _. apply Hh. exact Hk.
      * split; [|split; [exact Fout|]].
        { intros q Hq. destruct q as [|q0 q]; [reflexivity|].
          apply Efr. intros k2 Hk2. fold dir file.
          split; [|split].
          - intros (r & Er). apply Hq. injection Er as -> _. now exists q.
          - intros (r & Er). apply Hq. injection Er as -> _. now exists q.
          - intros (r & Er). apply Hq. injection Er as <- _. now exists q. }
        intros c Hc.
        assert (Hthere : find_node t' ["output"; c] <> None).
        { apply (in_children t' ["output"] c) in Hc.
          apply find_in_keys; [discriminate | exact Hc]. }
        destruct (in_dec string_dec c names) as [Hcn|Hcn].
        { left. split; [exact Hcn|].
          destruct (match_ myRe c) as [m|] eqn:Em; [|reflexivity].
          exfalso. apply Hthere.
          assert (Hcm : In c matched).
          { apply filter_In. split; [exact Hcn|]. unfold unmatched. now rewrite Em. }
          now destruct (D c Hcm (fun H => H)) as (_ & D2 & _). }
        right.
        destruct (Exists_dec (fun k => is_prefix ["output"; c] ("output" :: dir k)) matched)
          as [Hex|Hnone].
        { intros k. apply is_prefix_dec. }
        { apply Exists_exists in Hex. destruct Hex as (k & Hk & (r & Er)).
          destruct (Hmade k Hk) as (Hkn & _ & comps & f & Hpl & _ & _ & Ed & _).
          exists k, comps, f. split; [exact Hkn|]. split; [exact Hpl|].
          rewrite Ed in Er. destruct comps as [|c0 cs]; [discriminate Er|].
          injection Er as <- _. reflexivity. }
        exfalso. apply Hthere. rewrite Efr.
        { destruct (find_node (tree w) ["output"; c]) as [n|] eqn:En; [|reflexivity].
          exfalso. apply Hcn. apply (find_in_children (tree w) ["output"] c n). exact En. }
        intros k2 Hk2. destruct (Hmade k2 Hk2) as (Hkn & _ & comps & f & Hpl & _ & _ & Ed & Ef).
        split; [|split].
        { intros Hp. apply is_prefix_same_length in Hp; [|reflexivity].
          injection Hp as ->. contradiction. }
        { intros Hp. apply is_prefix_length in Hp. rewrite Ed in Hp.
          cbn [length] in Hp. rewrite length_app in Hp.
          destruct Hpl as (? & ? & _ & _ & _ & Hne & _).
          destruct comps; [congruence | cbn in Hp; lia]. }
        { intros Hp. apply Hnone. apply Exists_exists. exists k2. auto. }
Qed.

(** ** The fields of a name *)
Lemma marked_is_plain (c : ascii) (s : string) :
  contains c s = true -> contains c ".." = false -> contains "/" s = false ->
  plain_name s = true.
Proof.
  intros Hd Hc Hs. unfold plain_name. rewrite Hs.
  cbn [contains] in Hc. rewrite orb_false_r in Hc. apply orb_false_iff in Hc.
  destruct Hc as [Hc _].
  destruct (String.eqb s "") eqn:E0; [apply String.eqb_eq in E0; subst; discriminate|].
  destruct (String.eqb s ".") eqn:E1.
  { apply String.eqb_eq in E1. subst. cbn [contains] in Hd. rewrite Hc in Hd. discriminate. }
  destruct (String.eqb s "..") eqn:E2.
  { apply String.eqb_eq in E2. subst. cbn [contains] in Hd. rewrite Hc in Hd. discriminate. }
  reflexivity.
Qed.

Lemma dir_field_parts (s : string) :
  dir_field s = true ->
  plain_name s = true /\ s <> "" /\ all_in Dot s = true /\ contains "/" s = false.
Proof.
  unfold dir_field. rewrite andb_true_iff. intros [Hp Ha].
  destruct (plain_name_parts s Hp) as (H0 & _ & _ & H3).
  repeat split; auto. now apply String.eqb_neq.
Qed.

Lemma user_field_parts (s : string) :
  user_field s = true -> dir_field s = true /\ contains "_" s = false.
Proof.
  unfold user_field. rewrite andb_true_iff, negb_true_iff. tauto.
Qed.

Lemma network_field_parts (s : string) :
  network_field s = true ->
  s <> "" /\ all_in word_or_dash s = true /\ contains "_" s = false
  /\ plain_name s = true.
Proof.
  unfold network_field. rewrite !andb_true_iff, !negb_true_iff.
  intros [[H0 Ha] Hu]. apply String.eqb_neq in H0.
  repeat split; auto.
  assert (Hs : contains "/" s = false) by (apply (all_in_no word_or_dash); auto).
  assert (Hd : contains "." s = false) by (apply (all_in_no word_or_dash); auto).
  unfold plain_name. rewrite Hs.
  destruct (String.eqb s "") eqn:E0; [apply String.eqb_eq in E0; congruence|].
  destruct (String.eqb s ".") eqn:E1; [apply String.eqb_eq in E1; subst; discriminate|].
  destruct (String.eqb s "..") eqn:E2; [apply String.eqb_eq in E2; subst; discriminate|].
  reflexivity.
Qed.

Lemma date_field_parts (s : string) :
  date_field s = true ->
  s <> "" /\ all_in digit s = true /\ contains "/" s = false /\ contains "_" s = false.
Proof.
  unfold date_field. rewrite andb_true_iff, negb_true_iff.
  intros [H0 Ha]. apply String.eqb_neq in H0.
  repeat split; auto; apply (all_in_no digit); auto.
Qed.

Lemma dated_plain (d : string) : date_field d = true -> plain_name (dated d) = true.
Proof.
  intros H. destruct (date_field_parts d H) as (_ & _ & Hs & _).
  unfold dated, reformat_date, Py.slice. cbn [Py.join String.concat].
  apply (marked_is_plain "-"); [|reflexivity|].
  - rewrite !contains_app. cbn [contains]. rewrite Ascii.eqb_refl.
    cbn [orb]. now rewrite orb_true_r.
  - rewrite !contains_app, !contains_substring by assumption. reflexivity.
Qed.

Lemma path_join_snoc (comps : list string) (f : string) :
  comps <> [] ->
  (OUTDIR +:+ Py.join "/" comps) +:+ "/" +:+ f = OUTDIR +:+ Py.join "/" (comps ++ [f]).
Proof.
  intros Hne. rewrite append_assoc. f_equal.
  induction comps as [|c comps IH]; [congruence|].
  destruct comps as [|c' comps]; [reflexivity|].
  change (Py.join "/" (c :: c' :: comps)) with (c +:+ "/" +:+ Py.join "/" (c' :: comps)).
  change (Py.join "/" ((c :: c' :: comps) ++ [f]))
    with (c +:+ "/" +:+ Py.join "/" ((c' :: comps) ++ [f])).
  rewrite <- IH by discriminate. now rewrite !append_assoc.
Qed.

Lemma placed_intro (myRe : regex) (myFormat k : string) (comps : list string) (d : string) :
  destination myRe myFormat k
  = Some (OUTDIR +:+ Py.join "/" comps,
          (OUTDIR +:+ Py.join "/" comps) +:+ "/" +:+ dated d) ->
  comps <> [] -> Forall (fun c => plain_name c = true) comps ->
  date_field d = true -> plain_name k = true ->
  placed myRe myFormat k comps (dated d).
Proof.
  intros Hd Hne F Hdate Hk. do 2 eexists. split; [exact Hd|].
  split; [now apply resolve_output_join|]. split; [|auto].
  rewrite path_join_snoc by assumption.
  change ("output" :: comps ++ [dated d]) with ("output" :: (comps ++ [dated d])).
  apply resolve_output_join.
  - destruct comps; discriminate.
  - apply Forall_app. split; [exact F|]. constructor; [now apply dated_plain | constructor].
Qed.

Lemma global_name_plain (u n w d : string) :
  user_field u = true -> network_field n = true -> dir_field w = true ->
  date_field d = true -> plain_name (global_name u n w d) = true.
Proof.
  intros Hu Hn Hw Hd.
  destruct (user_field_parts u Hu) as (Hu1 & _).
  destruct (dir_field_parts u Hu1) as (_ & _ & _ & Us).
  destruct (network_field_parts n Hn) as (_ & _ & _ & Np).
  destruct (plain_name_parts n Np) as (_ & _ & _ & Ns).
  destruct (dir_field_parts w Hw) as (_ & _ & _ & Ws).
  destruct (date_field_parts d Hd) as (_ & _ & Ds & _).
  apply (marked_is_plain "_"); [|reflexivity|]; unfold global_name;
    rewrite !contains_app.
  - cbn [contains]. rewrite Ascii.eqb_refl. cbn [orb]. now rewrite orb_true_r.
  - rewrite Us, Ns, Ws, Ds. reflexivity.
Qed.

Lemma global_placed (u n w d : string) :
  user_field u = true -> network_field n = true -> dir_field w = true ->
  date_field d = true ->
  placed globalRe globalDirFormat (global_name u n w d) [u; n; w] (dated d).
Proof.
  intros Hu Hn Hw Hd.
  destruct (user_field_parts u Hu) as (Hu1 & Uu).
  destruct (dir_field_parts u Hu1) as (Up & U0 & Ua & _).
  destruct (network_field_parts n Hn) as (N0 & Na & Nu & Np).
  destruct (dir_field_parts w Hw) as (Wp & W0 & Wa & _).
  destruct (date_field_parts d Hd) as (D0 & Da & _ & _).
  apply placed_intro; auto; [|discriminate|now apply global_name_plain].
  exact (global_destination u n w d U0 Ua Uu N0 Na Nu W0 Wa D0 Da).
Qed.

Lemma pattern_of_global (logType : string) :
  String.eqb logType "N" = false -> String.eqb logType "U" = false ->
  pattern_of logType = globalRe /\ format_of logType = globalDirFormat.
Proof. intros H1 H2. unfold pattern_of, format_of. now rewrite H1, H2. Qed.

Lemma global_name_marked (u n c d : string) : contains "_" (global_name u n c d) = true.
Proof.
  unfold global_name. rewrite contains_app. cbn [String.append contains].
  rewrite Ascii.eqb_refl. cbn [orb]. apply orb_true_r.
Qed.

(** What a staging directory of Global names gives [rewriter_places]. *)
Lemma global_staging (names : list string) (is_file : string -> Prop) :
  (forall k, In k names ->
     match_ globalRe k = None
     \/ (is_file k
         /\ exists u n c d,
              k = global_name u n c d /\ user_field u = true /\ network_field n = true
              /\ dir_field c = true /\ date_field d = true /\ ~ In u names)) ->
  (forall u n c d d',
     In (global_name u n c d) names -> In (global_name u n c d') names ->
     date_field d = true -> date_field d' = true -> dated d = dated d' -> d = d') ->
  (forall k, In k names ->
     match_ globalRe k = None
     \/ (is_file k
         /\ exists comps f, placed globalRe globalDirFormat k comps f /\ length comps = 3
                            /\ ~ In (hd "" comps) names))
  /\ (forall k k' comps f, In k names -> In k' names ->
        placed globalRe globalDirFormat k comps f ->
        placed globalRe globalDirFormat k' comps f -> k = k').
Proof.
  intros Hent Hdates.
  assert (Hfields : forall k comps f, In k names -> placed globalRe globalDirFormat k comps f ->
            exists u n c d,
              k = global_name u n c d /\ comps = [u; n; c] /\ f = dated d
              /\ date_field d = true).
  { intros k comps f Hk Hp.
    destruct (Hent k Hk) as [Hno|(_ & u & n & c & d & -> & Hu & Hn & Hc & Hd & _)].
    - apply unmatched_none in Hno. rewrite (placed_matched _ _ _ _ _ Hp) in Hno. discriminate.
    - destruct (placed_made _ _ _ _ _ Hp) as [E1 E2].
      destruct (placed_made _ _ _ _ _ (global_placed u n c d Hu Hn Hc Hd)) as [F1 F2].
      exists u, n, c, d. repeat split; congruence. }
  split.
  - intros k Hk.
    destruct (Hent k Hk) as [Hno|(Hfile & u & n & c & d & -> & Hu & Hn & Hc & Hd & Hnot)];
      [now left | right].
    split; [exact Hfile|].
    exists [u; n; c], (dated d). split; [now apply global_placed|]. auto.
  - intros k k' comps f Hk Hk' Hp Hp'.
    destruct (Hfields k comps f Hk Hp) as (u & n & c & d & -> & -> & -> & Hd).
    destruct (Hfields k' _ _ Hk' Hp') as (u' & n' & c' & d' & -> & E & E' & Hd').
    injection E as <- <- <-.
    rewrite (Hdates u n c d d'); auto.
Qed.

Lemma user_name_plain (n c d : string) :
  network_field n = true -> dir_field c = true -> date_field d = true ->
  plain_name (user_name n c d) = true.
Proof.
  intros Hn Hc Hd.
  destruct (network_field_parts n Hn) as (_ & _ & _ & Np).
  destruct (plain_name_parts n Np) as (_ & _ & _ & Ns).
  destruct (dir_field_parts c Hc) as (_ & _ & _ & Cs).
  destruct (date_field_parts d Hd) as (_ & _ & Ds & _).
  apply (marked_is_plain "_"); [|reflexivity|]; unfold user_name;
    rewrite !contains_app.
  - cbn [contains]. rewrite Ascii.eqb_refl. cbn [orb]. now rewrite orb_true_r.
  - rewrite Ns, Cs, Ds. reflexivity.
Qed.

Lemma network_name_plain (c d : string) :
  dir_field c = true -> date_field d = true -> plain_name (network_name c d) = true.
Proof.
  intros Hc Hd.
  destruct (dir_field_parts c Hc) as (_ & _ & _ & Cs).
  destruct (date_field_parts d Hd) as (_ & _ & Ds & _).
  apply (marked_is_plain "_"); [|reflexivity|]; unfold network_name;
    rewrite !contains_app.
  - cbn [contains]. rewrite Ascii.eqb_refl. cbn [orb]. now rewrite orb_true_r.
  - rewrite Cs, Ds. reflexivity.
Qed.

Lemma user_placed (n c d : string) :
  network_field n = true -> dir_field c = true -> date_field d = true ->
  placed userRe userDirFormat (user_name n c d) [n; c] (dated d).
Proof.
  intros Hn Hc Hd.
  destruct (network_field_parts n Hn) as (N0 & Na & Nu & Np).
  destruct (dir_field_parts c Hc) as (Cp & C0 & Ca & _).
  destruct (date_field_parts d Hd) as (D0 & Da & _ & _).
  apply placed_intro; auto; [|discriminate|now apply user_name_plain].
  exact (user_destination n c d N0 Na Nu C0 Ca D0 Da).
Qed.

Lemma network_placed (c d : string) :
  dir_field c = true -> date_field d = true ->
  placed networkRe networkDirFormat (network_name c d) [c] (dated d).
Proof.
  intros Hc Hd.
  destruct (dir_field_parts c Hc) as (Cp & C0 & Ca & _).
  destruct (date_field_parts d Hd) as (D0 & Da & _ & _).
  apply placed_intro; auto; [|discriminate|now apply network_name_plain].
  exact (network_destination c d C0 Ca D0 Da).
Qed.

Lemma user_staging (names : list string) (is_file : string -> Prop) :
  (forall k, In k names ->
     match_ userRe k = None
     \/ (is_file k
         /\ exists n c d,
              k = user_name n c d /\ network_field n = true
              /\ dir_field c = true /\ date_field d = true /\ ~ In n names)) ->
  (forall n c d d',
     In (user_name n c d) names -> In (user_name n c d') names ->
     date_field d = true -> date_field d' = true -> dated d = dated d' -> d = d') ->
  (forall k, In k names ->
     match_ userRe k = None
     \/ (is_file k
         /\ exists comps f, placed userRe userDirFormat k comps f /\ length comps = 2
                            /\ ~ In (hd "" comps) names))
  /\ (forall k k' comps f, In k names -> In k' names ->
        placed userRe userDirFormat k comps f ->
        placed userRe userDirFormat k' comps f -> k = k').
Proof.
  intros Hent Hdates.
  assert (Hfields : forall k comps f, In k names -> placed userRe userDirFormat k comps f ->
            exists n c d,
              k = user_name n c d /\ comps = [n; c] /\ f = dated d /\ date_field d = true).
  { intros k comps f Hk Hp.
    destruct (Hent k Hk) as [Hno|(_ & n & c & d & -> & Hn & Hc & Hd & _)].
    - apply unmatched_none in Hno. rewrite (placed_matched _ _ _ _ _ Hp) in Hno. discriminate.
    - destruct (placed_made _ _ _ _ _ Hp) as [E1 E2].
      destruct (placed_made _ _ _ _ _ (user_placed n c d Hn Hc Hd)) as [F1 F2].
      exists n, c, d. repeat split; congruence. }
  split.
  - intros k Hk.
    destruct (Hent k Hk) as [Hno|(Hfile & n & c & d & -> & Hn & Hc & Hd & Hnot)];
      [now left | right].
    split; [exact Hfile|].
    exists [n; c], (dated d). split; [now apply user_placed|]. auto.
  - intros k k' comps f Hk Hk' Hp Hp'.
    destruct (Hfields k comps f Hk Hp) as (n & c & d & -> & -> & -> & Hd).
    destruct (Hfields k' _ _ Hk' Hp') as (n' & c' & d' & -> & E & E' & Hd').
    injection E as <- <-.
    rewrite (Hdates n c d d'); auto.
Qed.

Lemma network_staging (names : list string) (is_file : string -> Prop) :
  (forall k, In k names ->
     match_ networkRe k = None
     \/ (is_file k
         /\ exists c d,
              k = network_name c d /\ dir_field c = true /\ date_field d = true
              /\ ~ In c names)) ->
  (forall c d d',
     In (network_name c d) names -> In (network_name c d') names ->
     date_field d = true -> date_field d' = true -> dated d = dated d' -> d = d') ->
  (forall k, In k names ->
     match_ networkRe k = None
     \/ (is_file k
         /\ exists comps f, placed networkRe networkDirFormat k comps f /\ length comps = 1
                            /\ ~ In (hd "" comps) names))
  /\ (forall k k' comps f, In k names -> In k' names ->
        placed networkRe networkDirFormat k comps f ->
        placed networkRe networkDirFormat k' comps f -> k = k').
Proof.
  intros Hent Hdates.
  assert (Hfields : forall k comps f, In k names ->
            placed networkRe networkDirFormat k comps f ->
            exists c d, k = network_name c d /\ comps = [c] /\ f = dated d
                        /\ date_field d = true).
  { intros k comps f Hk Hp.
    destruct (Hent k Hk) as [Hno|(_ & c & d & -> & Hc & Hd & _)].
    - apply unmatched_none in Hno. rewrite (placed_matched _ _ _ _ _ Hp) in Hno. discriminate.
    - destruct (placed_made _ _ _ _ _ Hp) as [E1 E2].
      destruct (placed_made _ _ _ _ _ (network_placed c d Hc Hd)) as [F1 F2].
      exists c, d. repeat split; congruence. }
  split.
  - intros k Hk.
    destruct (Hent k Hk) as [Hno|(Hfile & c & d & -> & Hc & Hd & Hnot)];
      [now left | right].
    split; [exact Hfile|].
    exists [c], (dated d). split; [now apply network_placed|]. auto.
  - intros k k' comps f Hk Hk' Hp Hp'.
    destruct (Hfields k comps f Hk Hp) as (c & d & -> & -> & -> & Hd).
    destruct (Hfields k' _ _ Hk' Hp') as (c' & d' & -> & E & E' & Hd').
    injection E as <-.
    rewrite (Hdates c d d'); auto.
Qed.

Lemma dupenames_exact
    (items : list (string * nat) -> list (string * nat))
    (items_perm : forall l, Permutation (items l) l) (names : list string) :
  let dupenames :=
    map fst (filter (fun kv => Nat.eqb (snd kv) 2) (items (Counter (map Py.lower names)))) in
  NoDup dupenames
  /\ forall k, In k dupenames <-> count_occ string_dec (map Py.lower names) k = 2.
Proof.
  intros dupenames. subst dupenames.
  set (counts := items (Counter (map Py.lower names))).
  destruct (Counter_counts (map Py.lower names)) as [ND0 Hin0].
  assert (ND : NoDup (map fst counts)).
  { apply Permutation_NoDup with (l := map fst (Counter (map Py.lower names))); [|exact ND0].
    apply Permutation_map, Permutation_sym, items_perm. }
  assert (Hin : forall k v, In (k, v) counts
                            <-> v = count_occ string_dec (map Py.lower names) k /\ 0 < v).
  { intros k v. rewrite <- Hin0.
    split; apply Permutation_in; [apply items_perm | apply Permutation_sym, items_perm]. }
  split; [now apply NoDup_map_fst_filter|].
  intros k. rewrite in_map_iff. split.
  - intros ([k' v] & E & Hf). cbn in E. subst k'.
    apply filter_In in Hf. destruct Hf as [Hf Hv]. cbn in Hv. apply Nat.eqb_eq in Hv.
    apply Hin in Hf. lia.
  - intros Hk. exists (k, 2). split; [reflexivity|]. apply filter_In. split; [|reflexivity].
    apply Hin. lia.
Qed.

Lemma stage_write_paths (names : list string) (t : fs) (dupenames others : list string) :
  stage_ready names t ->
  (forall k, In k dupenames -> count_occ string_dec (map Py.lower names) k = 2) ->
  (forall n, In n others -> In n names) ->
  let copies k := filter (fun v => String.eqb (Py.lower v) k) names in
  forall pn,
    In pn (map (merge_write t) (map copies dupenames) ++ map (copy_write t) others) ->
    exists n, In n names /\ fst pn = ["output"; Py.lower n].
Proof.
  intros (_ & H2 & _) Hcount Hsub copies pn Hin.
  apply in_app_or in Hin. destruct Hin as [Hin|Hin].
  - apply in_map_iff in Hin. destruct Hin as (d & <- & Hd).
    apply in_map_iff in Hd. destruct Hd as (k & <- & Hk).
    destruct (copies_pair names k (Hcount k Hk)) as (a & b & E & Ha & Hb & _).
    fold (copies k) in E. rewrite E.
    destruct (H2 a Ha) as (d1 & s1 & E1). destruct (H2 b Hb) as (d2 & s2 & E2).
    exists a. split; [exact Ha|]. unfold merge_write. now rewrite E1, E2.
  - apply in_map_iff in Hin. destruct Hin as (n & <- & Hn).
    destruct (H2 n (Hsub n Hn)) as (d1 & s1 & E1).
    exists n. split; [now apply Hsub|]. unfold copy_write. now rewrite E1.
Qed.

Lemma staged_listing (names dupenames : list string) (w : world) :
  stage_ready names (tree w) ->
  NoDup (map fst (tree w)) ->
  (forall q, In q (map fst (tree w)) -> is_prefix ["output"] q -> q = ["output"]) ->
  (forall k, In k dupenames -> count_occ string_dec (map Py.lower names) k = 2) ->
  let copies k := filter (fun v => String.eqb (Py.lower v) k) names in
  exists w',
    mergeAndCopyLogs names (map copies dupenames) w = (Ok tt, w')
    /\ mkdir_fault w' = mkdir_fault w
    /\ find_node (tree w') ["output"] = Some Dir
    /\ NoDup (children (tree w') ["output"])
    /\ (forall k, In k (children (tree w') ["output"]) ->
          (exists n, In n names /\ k = Py.lower n)
          /\ exists data st, find_node (tree w') ["output"; k] = Some (File data st))
    /\ (forall q, is_prefix ["output"] q -> 2 < length q -> find_node (tree w') q = None)
    /\ (forall q, ~ is_prefix ["output"] q -> find_node (tree w') q = find_node (tree w) q).
Proof.
  intros Hready ND Hempty Hcount copies.
  set (dupes := map copies dupenames).
  set (others := filter (fun n => negb (existsb (String.eqb n) (List.concat dupes))) names).
  assert (Hd : forall d, In d dupes -> exists a b, d = [a; b] /\ In a names /\ In b names).
  { intros d Hin. apply in_map_iff in Hin. destruct Hin as (k & <- & Hk).
    destruct (copies_pair names k (Hcount k Hk)) as (a & b & E & Ha & Hb & _).
    exists a, b. auto. }
  assert (Hsub : forall n, In n others -> In n names).
  { intros n Hn. apply filter_In in Hn. tauto. }
  set (ws := map (merge_write (tree w)) dupes ++ map (copy_write (tree w)) others).
  assert (Hws : Forall staging_write ws).
  { apply Forall_app. split.
    - now apply (merge_writes_staging names).
    - now apply (copy_writes_staging names). }
  assert (Hpaths : forall pn, In pn ws -> exists n, In n names /\ fst pn = ["output"; Py.lower n]).
  { apply (stage_write_paths names (tree w) dupenames others); auto. }
  pose proof (stage_ready_writes names ws Hws (tree w) Hready) as Hready'.
  eexists. split; [apply (mergeAndCopyLogs_run names dupes w Hready Hd)|].
  cbn [tree with_tree with_stdout mkdir_fault]. fold others. fold ws.
  split; [reflexivity|].
  split; [apply Hready'|].
  split; [apply NoDup_children; now apply NoDup_keys_apply_writes|].
  split; [|split].
  - intros k Hk. apply in_children in Hk. cbn [app] in Hk.
    apply in_keys_apply_writes in Hk. destruct Hk as [Hk|Hk].
    { apply Hempty in Hk; [discriminate | now exists [k]]. }
    apply in_map_iff in Hk. destruct Hk as (pn & Ek & Hpn).
    destruct (Hpaths pn Hpn) as (n & Hn & Ep). rewrite Ek in Ep. injection Ep as ->.
    split; [now exists n|].
    destruct Hready' as (_ & _ & _ & H4). specialize (H4 n Hn).
    destruct (find_node (apply_writes (tree w) ws) ["output"; Py.lower n]) as [[data st|]|] eqn:Ef.
    + eauto.
    + congruence.
    + exfalso. assert (Hne : find_node (apply_writes (tree w) ws) ["output"; Py.lower n] <> None).
      { apply find_in_keys; [discriminate|]. apply in_keys_apply_writes. right.
        apply in_map_iff. exists pn. auto. }
      congruence.
  - intros q Hq Hlen.
    destruct (find_node (apply_writes (tree w) ws) q) eqn:Ef; [|reflexivity].
    exfalso.
    assert (Hin : In q (map fst (apply_writes (tree w) ws))).
    { apply find_in_keys; [intros ->; cbn in Hlen; lia | congruence]. }
    apply in_keys_apply_writes in Hin. destruct Hin as [Hin|Hin].
    + rewrite (Hempty q Hin Hq) in Hlen. cbn in Hlen. lia.
    + apply in_map_iff in Hin. destruct Hin as (pn & Ek & Hpn).
      destruct (Hpaths pn Hpn) as (m & _ & Ep). rewrite <- Ek, Ep in Hlen. cbn in Hlen. lia.
  - intros q Hq. apply find_apply_writes_untouched. intros n Hin.
    apply (in_map fst) in Hin. cbn [fst] in Hin.
    apply in_map_iff in Hin. destruct Hin as (pn & Ek & Hpn).
    destruct (Hpaths pn Hpn) as (m & _ & Ep). rewrite Ek in Ep.
    apply Hq. rewrite Ep. now exists [Py.lower m].
Qed.

Lemma substring_add (s : string) (n a b : nat) :
  substring n a s +:+ substring (n + a) b s = substring n (a + b) s.
Proof.
  revert n a b. induction s as [|c s IH]; intros n a b.
  - destruct n, a, b; reflexivity.
  - destruct n as [|n].
    + destruct a as [|a].
      * reflexivity.
      * cbn [substring Nat.add String.append]. f_equal. apply (IH 0 a b).
    + cbn [substring Nat.add]. apply IH.
Qed.

Lemma substring_short (s : string) (n : nat) :
  String.length s <= n -> substring 0 n s = s.
Proof.
  revert n. induction s as [|c s IH]; intros n H.
  - destruct n; reflexivity.
  - destruct n as [|n]; [cbn in H; lia|]. cbn [substring]. f_equal. apply IH.
    cbn in H. lia.
Qed.

Lemma remove_char_app (c : ascii) (a b : string) :
  Py.remove_char c (a +:+ b) = Py.remove_char c a +:+ Py.remove_char c b.
Proof.
  induction a as [|x a IH]; [reflexivity|]. cbn [String.append Py.remove_char].
  destruct (Ascii.eqb x c); [exact IH | cbn [String.append]; now rewrite IH].
Qed.

Lemma remove_char_absent (c : ascii) (s : string) :
  contains c s = false -> Py.remove_char c s = s.
Proof.
  induction s as [|x s IH]; [reflexivity|]. cbn [contains Py.remove_char].
  intros H. apply orb_false_iff in H. destruct H as [Hx Hs].
  rewrite Hx. f_equal. now apply IH.
Qed.

(** Taking the dashes out of the new date gives the first eight characters
    of the old one back. *)
Lemma reformat_date_undone (date : string) :
  contains "-" date = false ->
  Py.remove_char "-" (reformat_date date) = Py.slice 0 8 date.
Proof.
  intros H. unfold reformat_date, Py.slice. cbn [Py.join String.concat Nat.sub].
  rewrite !remove_char_app.
  rewrite (remove_char_absent "-" (substring 0 4 date)) by (now apply contains_substring).
  rewrite (remove_char_absent "-" (substring 4 2 date)) by (now apply contains_substring).
  rewrite (remove_char_absent "-" (substring 6 2 date)) by (now apply contains_substring).
  cbn [Py.remove_char]. rewrite Ascii.eqb_refl. cbn [String.append].
  change (substring 6 2 date) with (substring (4 + 2) 2 date).
  rewrite (substring_add date 4 2 2).
  exact (substring_add date 0 4 4).
Qed.

Lemma dated_injective (d d' : string) :
  date_field d = true -> date_field d' = true ->
  String.length d <= 8 -> String.length d' <= 8 ->
  dated d = dated d' -> d = d'.
Proof.
  intros Hd Hd' L L' E. unfold dated in E. apply append_inj_r in E.
  apply (f_equal (Py.remove_char "-")) in E.
  destruct (date_field_parts d Hd) as (_ & Ha & _).
  destruct (date_field_parts d' Hd') as (_ & Ha' & _).
  rewrite !reformat_date_undone in E by (apply (all_in_no digit); auto).
  unfold Py.slice in E. cbn [Nat.sub] in E.
  now rewrite !substring_short in E by assumption.
Qed.

Lemma script_answered
    (items : list (string * nat) -> list (string * nat))
    (enter answer : string) (rest : list keystroke) (w : world) :
  stdin w = Line enter :: Line answer :: rest ->
  let logs := select_logfiles (children (tree w) []) in
  let dupes := map (fun k => filter (fun v => String.eqb (Py.lower v) k) logs)
                   (map fst (filter (fun kv => Nat.eqb (snd kv) 2)
                                    (items (Counter (map Py.lower logs))))) in
  exists w2,
    tree w2 = tree w /\ mkdir_fault w2 = mkdir_fault w
    /\ script items w
       = (catch (mkdir OUTDIR)
                (fun e => match e with OSError _ => Some (ret tt) | _ => None end) ;;
          mergeAndCopyLogs logs dupes ;;
          convertToHierarchy (normalise_logType answer)) w2.
Proof.
  intros Hin logs dupes. unfold script. unfold bind at 1. rewrite listdir_here.
  unfold bind at 1. rewrite findMixedCaseDupes_run. fold logs. fold dupes.
  unfold bind at 1.
  rewrite (ask_answered _ _ enter answer rest) by exact Hin.
  eexists. split; [|split; [|reflexivity]]; reflexivity.
Qed.

Lemma mkdir_output_fresh (w : world) :
  find_node (tree w) ["output"] = None -> mkdir_fault w ["output"] = None ->
  catch (mkdir OUTDIR)
        (fun e => match e with OSError _ => Some (ret tt) | _ => None end) w
  = (Ok tt, with_tree w (set_node (tree w) ["output"] Dir)).
Proof.
  intros Hn Hf. unfold catch, mkdir. change (resolve OUTDIR) with ["output"].
  now rewrite mkdir_at_new.
Qed.

Lemma fresh_no_output (t : fs) (q : path) :
  fresh_folder t -> is_prefix ["output"] q -> find_node t q = None.
Proof.
  intros [_ H] (r & ->). destruct (find_node t (["output"] ++ r)) as [n|] eqn:E; [|reflexivity].
  exfalso. assert (Hin : In (["output"] ++ r) (map fst t)).
  { apply find_in_keys; [discriminate | congruence]. }
  apply in_map_iff in Hin. destruct Hin as ([p m] & Ep & Hpm). cbn in Ep. subst p.
  now apply (H _ _ Hpm).
Qed.

Lemma plain_name_of_lower (s : string) :
  plain_name (Py.lower s) = true -> plain_name s = true.
Proof.
  intros H. apply plain_name_parts in H. destruct H as (H0 & H1 & H2 & H3).
  rewrite lower_contains_slash in H3. unfold plain_name. rewrite H3.
  destruct (String.eqb s "") eqn:E0; [apply String.eqb_eq in E0; subst; discriminate|].
  destruct (String.eqb s ".") eqn:E1; [apply String.eqb_eq in E1; subst; discriminate|].
  destruct (String.eqb s "..") eqn:E2; [apply String.eqb_eq in E2; subst; discriminate|].
  reflexivity.
Qed.

Lemma global_log_plain (name : string) : global_log name -> plain_name name = true.
Proof.
  intros (u & n & c & d & -> & Hu & Hn & Hc & Hd & _). now apply global_name_plain.
Qed.

Lemma global_date_unique (u n c d u' n' c' d' : string) :
  global_name u n c d = global_name u' n' c' d' ->
  date_field d = true -> date_field d' = true -> d = d'.
Proof.
  intros E Hd Hd'. unfold global_name in E.
  replace (u +:+ "_" +:+ n +:+ "_" +:+ c +:+ "_" +:+ d +:+ ".log")
    with (((u +:+ "_" +:+ n +:+ "_" +:+ c) +:+ "_" +:+ d) +:+ ".log") in E by norm_append.
  replace (u' +:+ "_" +:+ n' +:+ "_" +:+ c' +:+ "_" +:+ d' +:+ ".log")
    with (((u' +:+ "_" +:+ n' +:+ "_" +:+ c') +:+ "_" +:+ d') +:+ ".log") in E by norm_append.
  apply append_inj_r in E.
  destruct (date_field_parts d Hd) as (_ & _ & _ & H1).
  destruct (date_field_parts d' Hd') as (_ & _ & _ & H2).
  now apply last_underscore_unique in E.
Qed.

Lemma length_filter_split {A : Type} (p : A -> bool) (l : list A) :
  length (filter p l) + length (filter (fun x => negb (p x)) l) = length l.
Proof.
  induction l as [|x l IH]; [reflexivity|]. cbn [filter].
  destruct (p x); cbn [negb length]; lia.
Qed.

Lemma length_filter_or {A : Type} (p q : A -> bool) (l : list A) :
  (forall x, In x l -> p x = true -> q x = false) ->
  length (filter (fun x => p x || q x) l) = length (filter p l) + length (filter q l).
Proof.
  induction l as [|x l IH]; intros H; [reflexivity|]. cbn [filter].
  assert (IH' := IH (fun y Hy => H y (or_intror Hy))).
  destruct (p x) eqn:Ep; cbn [orb length].
  - rewrite (H x (or_introl eq_refl) Ep). cbn [length]. lia.
  - destruct (q x); cbn [length]; lia.
Qed.

(** The names the pairs are made of are as many as twice the pairs. *)
Lemma paired_names (names dupenames : list string) :
  NoDup dupenames ->
  (forall k, In k dupenames -> count_occ string_dec (map Py.lower names) k = 2) ->
  length (filter (fun n => existsb (String.eqb (Py.lower n)) dupenames) names)
  = 2 * length dupenames.
Proof.
  induction 1 as [|k ks Hk ND IH]; intros Hcount.
  - cbn [existsb]. rewrite filter_none; [reflexivity | auto].
  - cbn [existsb length].
    rewrite length_filter_or.
    + rewrite IH by (intros k' Hk'; apply Hcount; now right).
      rewrite <- count_occ_map_filter, (Hcount k) by now left. lia.
    + intros n _ E. apply String.eqb_eq in E.
      destruct (existsb (String.eqb (Py.lower n)) ks) eqn:Ex; [|reflexivity].
      exfalso. apply Hk. apply existsb_exists in Ex. destruct Ex as (x & Hx & Ex).
      apply String.eqb_eq in Ex. congruence.
Qed.

Lemma in_pairs (names dupenames : list string) (n : string) :
  let copies k := filter (fun v => String.eqb (Py.lower v) k) names in
  In n names ->
  existsb (String.eqb n) (List.concat (map copies dupenames))
  = existsb (String.eqb (Py.lower n)) dupenames.
Proof.
  intros copies Hn. apply eq_true_iff_eq.
  rewrite existsb_eqb_In, existsb_eqb_In, in_concat. split.
  - intros (d & Hd & Hnd). apply in_map_iff in Hd. destruct Hd as (k & <- & Hk).
    apply filter_In in Hnd. destruct Hnd as [_ E]. apply String.eqb_eq in E. now rewrite E.
  - intros Hk. exists (copies (Py.lower n)). split; [now apply in_map|].
    apply filter_In. split; [exact Hn | apply String.eqb_refl].
Qed.

Lemma find_apply_writes_last (ws1 ws2 : list (path * node)) (t : fs) (p : path) (n : node) :
  p <> [] -> (forall m, ~ In (p, m) ws2) ->
  find_node (apply_writes t (ws1 ++ (p, n) :: ws2)) p = Some n.
Proof.
  intros Hp Hno. rewrite apply_writes_app.
  change (apply_writes (apply_writes t ws1) ((p, n) :: ws2))
    with (apply_writes (set_node (apply_writes t ws1) p n) ws2).
  rewrite find_apply_writes_untouched by exact Hno. now apply find_set_same.
Qed.

Lemma substring_app_l (a b : string) (n m : nat) :
  n + m <= String.length a -> substring n m (a +:+ b) = substring n m a.
Proof.
  revert n m. induction a as [|c a IH]; intros n m H.
  - cbn in H. assert (n = 0) by lia. assert (m = 0) by lia. subst.
    destruct b; reflexivity.
  - destruct n as [|n]; cbn [String.append substring].
    + destruct m as [|m]; [reflexivity|]. f_equal. apply (IH 0 m). cbn in H. lia.
    + apply IH. cbn in H. lia.
Qed.

Lemma substring_prefix (a b : string) :
  substring 0 (String.length a) (a +:+ b) = a.
Proof.
  rewrite substring_app_l by lia. apply substring_all.
Qed.

Lemma substring_skip (a b : string) (m : nat) :
  substring (String.length a) m (a +:+ b) = substring 0 m b.
Proof.
  induction a as [|c a IH]; [reflexivity|]. exact IH.
Qed.

(** A table with no path longer than two components has nothing deep in
    the staging directory. *)
Lemma shallow_table (t : fs) :
  Forall (fun kn => length (fst kn) <= 2) t ->
  forall q, is_prefix ["output"] q -> 2 < length q -> find_node t q = None.
Proof.
  intros F q _ Hlen. destruct (find_node t q) eqn:E; [|reflexivity].
  exfalso. assert (Hin : In q (map fst t)).
  { apply find_in_keys; [intros Eq; subst q; cbn [length] in Hlen; lia | congruence]. }
  apply in_map_iff in Hin. destruct Hin as (kn & <- & Hkn).
  rewrite Forall_forall in F. specialize (F kn Hkn). apply Nat.lt_nge in Hlen. apply Hlen. exact F.
Qed.





(** ** Keys, warnings and a second run *)

Lemma remove_char_colons (ts : string) : Py.remove_char ":" ts = without_colons ts.
Proof.
  unfold without_colons. induction ts as [|c ts IH]; [reflexivity|].
  cbn [Py.remove_char list_ascii_of_string filter].
  destruct (Ascii.eqb c ":"); cbn [negb]; [exact IH|].
  cbn [string_of_list_ascii]. now rewrite IH.
Qed.

Lemma one_line_app (a : string) (c : ascii) (b : string) :
  one_line (a +:+ String c b) = true ->
  contains Py.nl a = false /\ one_line (String c b) = true.
Proof.
  induction a as [|x a IH]; [auto|].
  cbn [String.append one_line contains].
  destruct (Ascii.eqb x Py.nl).
  - destruct a; discriminate.
  - exact IH.
Qed.

(** The sort key of a line is what stands between its opening bracket and
    its first closing one, colons out. *)
Lemma sort_key_of_line (line ts rest : string) :
  one_line line = true -> line = "[" +:+ ts +:+ "]" +:+ rest ->
  contains "]" ts = false -> sort_key line = without_colons ts.
Proof.
  intros Hone -> Hts.
  assert (H : contains Py.nl ts = false /\ one_line (String "]" rest) = true).
  { apply one_line_app. cbn [String.append one_line] in Hone.
    change (Ascii.eqb "[" Py.nl) with false in Hone. exact Hone. }
  destruct H as [Hnl Hrest]. cbn [one_line] in Hrest.
  change (Ascii.eqb "]" Py.nl) with false in Hrest.
  unfold sort_key. rewrite timestamp_of_bracketed by assumption.
  apply remove_char_colons.
Qed.





Lemma has_date_field_marked (s : string) :
  has_date_field s = true -> contains "_" s = true.
Proof.
  induction s as [|c s IH]; cbn [has_date_field contains]; [discriminate|].
  destruct (Ascii.eqb c "_"); [reflexivity|]. cbn [andb orb]. exact IH.
Qed.

(** A name without underscore matches none of the three patterns. *)
Lemma no_underscore_no_match (logType s : string) :
  contains "_" s = false -> match_ (pattern_of logType) s = None.
Proof.
  intros H. destruct (match_ (pattern_of logType) s) as [m|] eqn:Em; [|reflexivity].
  apply matched_has_date_field, has_date_field_marked in Em. congruence.
Qed.

Lemma moves_nothing_intro (logType : string) (w : world) :
  find_node (tree w) ["output"] = Some Dir ->
  (forall n, In n (children (tree w) ["output"]) -> match_ (pattern_of logType) n = None) ->
  moves_nothing logType w.
Proof.
  intros Hdir Hno. eexists. split; [|split].
  - rewrite convertToHierarchy_unfold by exact Hdir.
    change (resolve OUTDIR) with ["output"].
    rewrite hierarchy_loop_nomatch by exact Hno. apply print_run.
  - reflexivity.
  - cbn [stdout with_stdout]. now rewrite <- !app_assoc.
Qed.

(** When the directories a first run makes at the top match nothing, a
    second run moves nothing. *)
Lemma second_run_quiet (logType : string) (depth : nat) (w : world) :
  let names := children (tree w) ["output"] in
  let myRe := pattern_of logType in
  let myFormat := format_of logType in
  flat_staging w ->
  (forall k, In k names ->
     match_ myRe k = None
     \/ ((exists data st, find_node (tree w) ["output"; k] = Some (File data st))
         /\ exists comps f, placed myRe myFormat k comps f /\ length comps = depth
                            /\ ~ In (hd "" comps) names)) ->
  (forall k k' comps f, In k names -> In k' names ->
     placed myRe myFormat k comps f -> placed myRe myFormat k' comps f -> k = k') ->
  (forall k comps f, In k names -> placed myRe myFormat k comps f ->
     match_ myRe (hd "" comps) = None) ->
  exists w1,
    convertToHierarchy logType w = (Ok tt, w1) /\ moves_nothing logType w1.
Proof.
  intros names myRe myFormat (Hout & ND & Hdeep & Hfault) Hsplit Hinj Htop.
  destruct (rewriter_places logType depth w)
    as (w1 & Erun & _ & _ & _ & _ & Hout1 & Hls); auto.
  exists w1. split; [exact Erun|].
  apply moves_nothing_intro; [exact Hout1|].
  intros c Hc. destruct (Hls c Hc) as [[_ Hno]|(k & comps & f & Hk & Hp & ->)];
    [exact Hno | now apply (Htop k comps f)].
Qed.

(** ** Staging directories written out *)

Lemma children_staged (names : list string) :
  children (tree (staged names)) ["output"] = names.
Proof.
  unfold staged, children. cbn [tree flat_map fst strip_prefix app].
  change (String.eqb "output" "output") with true. cbn [strip_prefix app].
  induction names as [|n names IH]; [reflexivity|].
  cbn [map flat_map fst strip_prefix].
  change (String.eqb "output" "output") with true. cbn [strip_prefix app].
  now rewrite IH.
Qed.

Lemma staged_shallow (names : list string) :
  Forall (fun kn => length (fst kn) <= 2) (tree (staged names)).
Proof.
  unfold staged. cbn [tree]. constructor; [cbn; lia|].
  apply Forall_forall. intros kn Hin. apply in_map_iff in Hin.
  destruct Hin as (n & <- & _). cbn. lia.
Qed.

Lemma staged_is_flat (names : list string) : NoDup names -> flat_staging (staged names).
Proof.
  intros ND. split; [reflexivity|]. split; [now rewrite children_staged|].
  split; [apply shallow_table, staged_shallow | reflexivity].
Qed.

Lemma staged_file (names : list string) (k : string) :
  In k names ->
  find_node (tree (staged names)) ["output"; k]
  = Some (File (ln ("[00:00:01] log of " +:+ k)) stat_a).
Proof.
  intros Hk. unfold staged. cbn [tree find_node assoc path_eqb].
  change (String.eqb "output" "output") with true. cbn [andb].
  induction names as [|n names IH]; [contradiction|].
  cbn [map assoc path_eqb]. change (String.eqb "output" "output") with true.
  cbn [andb]. destruct (String.eqb n k) eqn:E.
  - apply String.eqb_eq in E. now subst.
  - destruct Hk as [->|Hk]; [now rewrite String.eqb_refl in E | now apply IH].
Qed.

(** What [global_staged] holds: two well-formed Global names and a name
    that matches nothing. *)
Lemma global_staged_entries (k : string) :
  In k (children (tree global_staged) ["output"]) ->
  match_ globalRe k = None
  \/ ((exists data st, find_node (tree global_staged) ["output"; k] = Some (File data st))
      /\ exists u n c d,
           k = global_name u n c d /\ user_field u = true /\ network_field n = true
           /\ dir_field c = true /\ date_field d = true
           /\ ~ In u (children (tree global_staged) ["output"])).
Proof.
  intros Hk. vm_compute in Hk. destruct Hk as [<-|[<-|[<-|[]]]].
  - right. split; [do 2 eexists; reflexivity|].
    exists "alice", "freenode", "#chan", "20160115".
    repeat split; try reflexivity. vm_compute. intuition discriminate.
  - right. split; [do 2 eexists; reflexivity|].
    exists "bob", "efnet", "#x", "20160116".
    repeat split; try reflexivity. vm_compute. intuition discriminate.
  - left. reflexivity.
Qed.

Lemma global_staged_dates (u n c d d' : string) :
  In (global_name u n c d) (children (tree global_staged) ["output"]) ->
  In (global_name u n c d') (children (tree global_staged) ["output"]) ->
  date_field d = true -> date_field d' = true -> dated d = dated d' -> d = d'.
Proof.
  intros H1 H2 Hd Hd' E.
  assert (L : forall x, In (global_name u n c x) (children (tree global_staged) ["output"]) ->
                        date_field x = true -> String.length x <= 8).
  { intros x Hx Hdx.
    change (In (global_name u n c x)
              ["alice_freenode_#chan_20160115.log"; "bob_efnet_#x_20160116.log"; "backlog"])
      in Hx.
    destruct Hx as [Hx|[Hx|[Hx|[]]]].
    - rewrite <- (global_date_unique "alice" "freenode" "#chan" "20160115" u n c x Hx);
        [cbn; lia | reflexivity | exact Hdx].
    - rewrite <- (global_date_unique "bob" "efnet" "#x" "20160116" u n c x Hx);
        [cbn; lia | reflexivity | exact Hdx].
    - exfalso. apply (f_equal (contains "_")) in Hx.
      rewrite global_name_marked in Hx. discriminate. }
  apply dated_injective; auto.
Qed.

Lemma global_staged_distinct : NoDup (children (tree global_staged) ["output"]).
Proof.
  vm_compute. repeat (constructor; [cbn; intuition discriminate|]). constructor.
Qed.

(* ================================================================== *)
(** * The properties of the specification *)
(* ================================================================== *)




(** C2. Merging a pair [(f1, f2)] writes, at the staged lowercase name of
    [f1], the log lines of [f1] followed by those of [f2], sorted stably
    by sort key in ascending byte order: the result is a permutation of
    those lines, every line is followed only by lines of equal or greater
    key, a line of smaller key stands before any line of greater key
    wherever each came from, and the lines of one key are in the order they
    were read, [f1]'s first. The sort key of a line is the text between its
    opening bracket and its first closing bracket with every colon taken
    out, so that [[1:23:45]] sorts before [[12:3:46]]. *)
Theorem merge_sorts_by_timestamp
    (f1 f2 data1 data2 : string) (st1 st2 : stat) (w : world) :
  plain_name f1 = true -> plain_name f2 = true ->
  find_node (tree w) [f1] = Some (File data1 st1) ->
  find_node (tree w) [f2] = Some (File data2 st2) ->
  find_node (tree w) ["output"] = Some Dir ->
  find_node (tree w) ["output"; Py.lower f1] <> Some Dir ->
  let lines := filter is_log_line (Py.readlines data1 ++ Py.readlines data2) in
  exists (out : list string) (w' : world),
    merge_dupe [f1; f2] w = (Ok tt, w')
    /\ find_node (tree w') (resolve (OUTDIR +:+ Py.lower f1))
       = Some (File (file_text out) st2)
    /\ Permutation out lines
    /\ StronglySorted key_le out
    /\ (forall a b, In a out -> In b out ->
          String.ltb (sort_key a) (sort_key b) = true ->
          exists l1 l2 l3, out = l1 ++ a :: l2 ++ b :: l3)
    /\ (forall k, filter (fun line => String.eqb (sort_key line) k) out
                  = filter (fun line => String.eqb (sort_key line) k) lines)
    /\ (forall line ts rest,
          In line out -> line = "[" +:+ ts +:+ "]" +:+ rest -> contains "]" ts = false ->
          sort_key line = without_colons ts
          /\ contains ":" (sort_key line) = false).
Proof.
  intros P1 P2 H1 H2 Hout Hdst lines.
  exists (Py.sorted sort_key lines). eexists.
  split; [apply (merge_dupe_run f1 f2 data1 data2 st1 st2 w); assumption|].
  split.
  { rewrite (resolve_staged _ (plain_name_lower f1 P1)).
    cbn [tree with_tree]. apply find_set_same. discriminate. }
  split; [apply sorted_perm|].
  split; [apply (sorted_ascending sort_key)|].
  split; [intros a b; apply ascending_precedes; apply (sorted_ascending sort_key)|].
  split; [intros k; apply sorted_stable|].
  intros line ts rest Hin E Hts.
  apply (Permutation_in _ (sorted_perm sort_key _)) in Hin.
  apply filter_In in Hin. destruct Hin as [Hin _].
  assert (Hone : one_line line = true).
  { apply in_app_iff in Hin. destruct Hin; eapply readlines_one_line; eauto. }
  rewrite (sort_key_of_line line ts rest Hone E Hts). split; [reflexivity|].
  unfold without_colons. clear. induction (list_ascii_of_string ts) as [|c l IH]; [reflexivity|].
  cbn [filter]. destruct (Ascii.eqb c ":") eqn:Ec; cbn [negb]; [exact IH|].
  cbn [string_of_list_ascii contains]. now rewrite Ec, IH.
Qed.

Lemma merge_sorts_witness :
  (exists (out : list string) (w' : world),
      merge_dupe ["Chat_20160115.log"; "chat_20160115.log"] uneven_folder = (Ok tt, w')
      /\ find_node (tree w') (resolve (OUTDIR +:+ Py.lower "Chat_20160115.log"))
         = Some (File (file_text out) stat_b)
      /\ StronglySorted key_le out
      /\ sort_key (ln "[12:3:46] late") = without_colons "12:3:46")
  /\ without_colons "12:3:46" = "12346"
  /\ find_node (tree (snd (merge_dupe ["Chat_20160115.log"; "chat_20160115.log"]
                                      uneven_folder)))
               ["output"; "chat_20160115.log"]
     = Some (File (ln "[1:23:45] early" +:+ ln "[12:3:46] late") stat_b)
  /\ find_node (tree (snd (merge_dupe [first_copy; second_copy] log_folder_ready)))
               ["output"; "alice_freenode_#chan_20160115.log"]
     = Some (File (ln "[00:00:30] b" +:+ ln "[00:01:00] a" +:+ ln "[00:01:00] d"
                     +:+ ln "[00:02:00] c")
                  stat_b).
Proof.
  split; [|split; [|split]]; [|reflexivity|vm_compute; reflexivity|vm_compute; reflexivity].
  destruct (merge_sorts_by_timestamp "Chat_20160115.log" "chat_20160115.log"
              (ln "[12:3:46] late") (ln "[1:23:45] early")
              stat_a stat_b uneven_folder
              eq_refl eq_refl eq_refl eq_refl eq_refl)
    as (out & w' & Hrun & Hfile & Hperm & Hsorted & _ & _ & Hkey).
  - discriminate.
  - exists out, w'. split; [exact Hrun|]. split; [exact Hfile|]. split; [exact Hsorted|].
    apply (Hkey (ln "[12:3:46] late") "12:3:46" (" late" +:+ String Py.nl ""));
      [|reflexivity|reflexivity].
    apply (Permutation_in _ (Permutation_sym Hperm)). vm_compute. auto.
Defined.

(** C3. Whatever order the counter hands its entries out in, the duplicate
    finder returns one group per lowercase form that occurs exactly twice
    and none for any other form; forms that occur three times or more get
    one warning each and nothing else happens. A group is the two names of
    that form as they are written, in the order they come in the input. *)
Theorem findMixedCaseDupes_exactly_pairs
    (items : list (string * nat) -> list (string * nat))
    (items_perm : forall l, Permutation (items l) l)
    (names : list string) (w : world) :
  let occurrences k := count_occ string_dec (map Py.lower names) k in
  let copies k := filter (fun v => String.eqb (Py.lower v) k) names in
  exists dupenames heavy : list string,
    findMixedCaseDupes items names w
    = (Ok (map copies dupenames),
       with_stdout w (stdout w ++ map dupe_warning heavy))
    /\ NoDup dupenames
    /\ (forall k, In k dupenames <-> occurrences k = 2)
    /\ NoDup heavy
    /\ (forall k, In k heavy <-> 2 < occurrences k)
    /\ (forall k, In k dupenames ->
          exists a b before between after,
            copies k = [a; b]
            /\ names = before ++ a :: between ++ b :: after
            /\ Py.lower a = k /\ Py.lower b = k
            /\ (forall x, In x (before ++ between ++ after) -> Py.lower x <> k)).
Proof.
  intros occurrences copies.
  set (counts := items (Counter (map Py.lower names))).
  assert (ND : NoDup (map fst counts)).
  { apply Permutation_NoDup with (l := map fst (Counter (map Py.lower names))).
    - apply Permutation_map, Permutation_sym, items_perm.
    - apply Counter_counts. }
  assert (Hin : forall k v, In (k, v) counts <-> v = occurrences k /\ 0 < v).
  { intros k v. unfold occurrences.
    rewrite <- (proj2 (Counter_counts (map Py.lower names)) k v).
    split; apply Permutation_in; [apply items_perm | apply Permutation_sym, items_perm]. }
  assert (Hsel : forall (p : string * nat -> bool) (q : nat -> Prop),
             (forall kv, p kv = true <-> q (snd kv)) -> (q 0 -> False) ->
             forall k, In k (map fst (filter p counts)) <-> q (occurrences k)).
  { intros p q Hp Hq k. rewrite in_map_iff. split.
    - intros ([k' v] & E & Hf). simpl in E. subst k'.
      apply filter_In in Hf. destruct Hf as [Hf Hpv].
      apply Hin in Hf. apply Hp in Hpv. simpl in Hpv. destruct Hf as [-> _]. exact Hpv.
    - intros Hk. exists (k, occurrences k). split; [reflexivity|].
      apply filter_In. split.
      + apply Hin. split; [reflexivity|].
        destruct (occurrences k); [contradiction | lia].
      + apply Hp. exact Hk. }
  exists (map fst (filter (fun kv => Nat.eqb (snd kv) 2) counts)),
         (map fst (filter (fun kv => Nat.ltb 2 (snd kv)) counts)).
  split; [apply findMixedCaseDupes_run|].
  assert (Hdupe : forall k,
             In k (map fst (filter (fun kv => Nat.eqb (snd kv) 2) counts))
             <-> occurrences k = 2).
  { apply (Hsel _ (fun v => v = 2)); [|discriminate].
    intros kv. apply Nat.eqb_eq. }
  split; [now apply NoDup_map_fst_filter|].
  split; [exact Hdupe|].
  split; [now apply NoDup_map_fst_filter|].
  split.
  - apply (Hsel _ (fun v => 2 < v)); [|lia]. intros kv. apply Nat.ltb_lt.
  - intros k Hk. apply Hdupe in Hk. unfold occurrences in Hk.
    rewrite count_occ_map_filter in Hk. fold (copies k) in Hk.
    destruct (copies k) as [|a [|b [|c r]]] eqn:Ec; try discriminate.
    unfold copies in Ec.
    destruct (filter_cons_split _ _ _ _ Ec) as (before & l2 & -> & Hb & Ha & Er).
    destruct (filter_cons_split _ _ _ _ Er) as (between & after & -> & Hm & Hb' & Ee).
    exists a, b, before, between, after.
    apply String.eqb_eq in Ha, Hb'. repeat split; auto.
    intros x Hx. apply String.eqb_neq.
    rewrite !in_app_iff in Hx. destruct Hx as [Hx|[Hx|Hx]]; auto.
    apply (filter_nil_iff _ _ Ee x Hx).
Qed.

Lemma findMixedCaseDupes_witness :
  (exists dupenames heavy : list string,
      findMixedCaseDupes (fun l => rev l)
        ["a.LOG"; "b.log"; "A.log"; "c.log"; "C.log"; "C.Log"] (staged [])
      = (Ok (map (fun k => filter (fun v => String.eqb (Py.lower v) k)
                                  ["a.LOG"; "b.log"; "A.log"; "c.log"; "C.log"; "C.Log"])
                 dupenames),
         with_stdout (staged []) ([] ++ map dupe_warning heavy))
      /\ NoDup dupenames
      /\ (forall k, In k dupenames <->
                    count_occ string_dec
                      (map Py.lower ["a.LOG"; "b.log"; "A.log"; "c.log"; "C.log"; "C.Log"]) k
                    = 2))
  /\ findMixedCaseDupes (fun l => rev l)
       ["a.LOG"; "b.log"; "A.log"; "c.log"; "C.log"; "C.Log"] (staged [])
     = (Ok [["a.LOG"; "A.log"]],
        with_stdout (staged [])
          ["Warning: c.log has more than two occurrences. Skipping."]).
Proof.
  split; [|vm_compute; reflexivity].
  destruct (findMixedCaseDupes_exactly_pairs (fun l => rev l)
              (fun l => Permutation_sym (Permutation_rev l))
              ["a.LOG"; "b.log"; "A.log"; "c.log"; "C.log"; "C.Log"] (staged []))
    as (dupenames & heavy & E & ND & Hd & _).
  exists dupenames, heavy. auto.
Defined.

(** C4. Merging a pair [(f1, f2)] leaves, at the staged lowercase name of
    [f1], a file whose permission bits and times are those of [f2]; when
    the two differ in metadata, the merged file does not have that of
    [f1]. *)
Theorem merged_file_has_second_metadata
    (f1 f2 data1 data2 : string) (st1 st2 : stat) (w : world) :
  plain_name f1 = true -> plain_name f2 = true ->
  find_node (tree w) [f1] = Some (File data1 st1) ->
  find_node (tree w) [f2] = Some (File data2 st2) ->
  find_node (tree w) ["output"] = Some Dir ->
  find_node (tree w) ["output"; Py.lower f1] <> Some Dir ->
  exists (text : string) (w' : world),
    merge_dupe [f1; f2] w = (Ok tt, w')
    /\ find_node (tree w') (resolve (OUTDIR +:+ Py.lower f1)) = Some (File text st2)
    /\ (st1 <> st2 ->
        forall t, find_node (tree w') (resolve (OUTDIR +:+ Py.lower f1))
                  <> Some (File t st1)).
Proof.
  intros P1 P2 H1 H2 Hout Hdst.
  eexists. eexists.
  split; [apply (merge_dupe_run f1 f2 data1 data2 st1 st2 w); assumption|].
  rewrite (resolve_staged _ (plain_name_lower f1 P1)). cbn [tree with_tree].
  rewrite find_set_same by discriminate.
  split; [reflexivity|]. intros Hne t E. injection E as _ E. congruence.
Qed.

Lemma merged_metadata_witness :
  exists (text : string) (w' : world),
    merge_dupe [first_copy; second_copy] log_folder_ready = (Ok tt, w')
    /\ find_node (tree w') (resolve (OUTDIR +:+ Py.lower first_copy))
       = Some (File text stat_b)
    /\ find_node (tree w') (resolve (OUTDIR +:+ Py.lower first_copy))
       <> Some (File text stat_a).
Proof.
  destruct (merged_file_has_second_metadata first_copy second_copy
              (ln "[00:01:00] a" +:+ ln "-- topic changed --" +:+ ln "[00:02:00] c")
              (ln "[00:00:30] b" +:+ ln "[00:01:00] d")
              stat_a stat_b log_folder_ready
              eq_refl eq_refl eq_refl eq_refl eq_refl)
    as (text & w' & Hrun & Hfile & Hnot).
  - discriminate.
  - exists text, w'. split; [exact Hrun|]. split; [exact Hfile|].
    apply Hnot. discriminate.
Defined.



(** C6. When making the directory of a matched file fails: if the reason is
    that the path exists and is a directory, the failure is dropped and the
    file is moved; for any other reason the error is raised again, the loop
    stops at that file, and [convertToHierarchy] ends with that error in the
    world the failure left, so that no later file is looked at and "Done!"
    is never printed. *)
Theorem makedirs_failure_policy
    (logType logfile path target : string) (e : errno) (w w1 : world) :
  destination (pattern_of logType) (format_of logType) logfile = Some (path, target) ->
  makedirs path w = (Raise (OSError e), w1) ->
  let body := hierarchy_body (pattern_of logType) (format_of logType) in
  let exists_as_dir := errno_eqb e EEXIST && is_dir (tree w1) (resolve path) in
  (exists_as_dir = true ->
     body logfile w = move (OUTDIR +:+ logfile) target w1)
  /\
  (exists_as_dir = false ->
     body logfile w = (Raise (OSError e), w1)
     /\ (forall later, for_each (logfile :: later) body w = (Raise (OSError e), w1))
     /\ (forall w0 earlier later,
           find_node (tree w0) (resolve OUTDIR) = Some Dir ->
           children (tree w0) (resolve OUTDIR) = earlier ++ logfile :: later ->
           for_each earlier body (with_stdout w0 (stdout w0 ++ [rearranging])) = (Ok tt, w) ->
           convertToHierarchy logType w0 = (Raise (OSError e), w1))).
Proof.
  intros Hdest Hmk body exists_as_dir.
  assert (Hbody : body logfile w
                  = if exists_as_dir then move (OUTDIR +:+ logfile) target w1
                    else (Raise (OSError e), w1)).
  { unfold body. rewrite (hierarchy_body_matched _ _ _ _ _ _ Hdest).
    unfold bind at 1, ensure_dir, catch. rewrite Hmk.
    unfold exists_as_dir, bind, isdir, ret, raise.
    destruct (errno_eqb e EEXIST); cbn [andb];
      [destruct (is_dir (tree w1) (resolve path))|]; reflexivity. }
  split; intros Hex; rewrite Hex in Hbody; [exact Hbody|].
  split; [exact Hbody|]. split.
  - intros later. cbn [for_each]. unfold bind. now rewrite Hbody.
  - intros w0 earlier later Hdir Hls Hearlier.
    rewrite convertToHierarchy_unfold by assumption.
    rewrite Hls, for_each_app. fold body. rewrite Hearlier.
    cbn [for_each]. unfold bind. now rewrite Hbody.
Qed.

(** Two runs of the policy: a directory that is already there, and a
    regular file [alice] standing where the directory should be made. *)
Lemma makedirs_failure_witness :
  (let w := staged ["alice_freenode_#chan_20160116.log"; "alice"; "freenode"; "#chan"] in
   let w := with_tree w (set_node (set_node (set_node (tree w)
                ["output"; "alice"] Dir)
                ["output"; "alice"; "freenode"] Dir)
                ["output"; "alice"; "freenode"; "#chan"] Dir) in
   hierarchy_body (pattern_of "G") (format_of "G") "alice_freenode_#chan_20160116.log" w
   = move (OUTDIR +:+ "alice_freenode_#chan_20160116.log")
          "./output/alice/freenode/#chan/2016-01-16.log" w)
  /\
  (let w0 := staged ["alice"; "alice_freenode_#chan_20160115.log";
                     "bob_freenode_#chan_20160116.log"] in
   convertToHierarchy "G" w0
   = (Raise (OSError ENOTDIR),
      with_stdout w0 [rearranging; nomatch_warning "alice"])).
Proof.
  cbv zeta. split.
  - refine (proj1 (makedirs_failure_policy "G" "alice_freenode_#chan_20160116.log"
                     "./output/alice/freenode/#chan"
                     "./output/alice/freenode/#chan/2016-01-16.log"
                     EEXIST _ _ _ _) _).
    + vm_compute. reflexivity.
    + vm_compute. reflexivity.
    + vm_compute. reflexivity.
  - refine (proj2 (proj2 (proj2 (makedirs_failure_policy "G"
                     "alice_freenode_#chan_20160115.log"
                     "./output/alice/freenode/#chan"
                     "./output/alice/freenode/#chan/2016-01-15.log"
                     ENOTDIR
                     (with_stdout
                        (staged ["alice"; "alice_freenode_#chan_20160115.log";
                                 "bob_freenode_#chan_20160116.log"])
                        [rearranging; nomatch_warning "alice"])
                     (with_stdout
                        (staged ["alice"; "alice_freenode_#chan_20160115.log";
                                 "bob_freenode_#chan_20160116.log"])
                        [rearranging; nomatch_warning "alice"])
                     _ _) _))
              (staged ["alice"; "alice_freenode_#chan_20160115.log";
                       "bob_freenode_#chan_20160116.log"])
              ["alice"] ["bob_freenode_#chan_20160116.log"] _ _ _).
    + vm_compute. reflexivity.
    + vm_compute. reflexivity.
    + vm_compute. reflexivity.
    + vm_compute. reflexivity.
    + vm_compute. reflexivity.
    + vm_compute. reflexivity.
Defined.


(** C8 (as stated, refuted). A tree the rewriter has rearranged can hold a
    top-level entry that matches the grammar in use, and a second run then
    moves it without a warning. Under the Network grammar the staged name
    [#a_1.log_20160115.log] has the window [#a_1.log]; the first run makes
    the directory [#a_1.log] and moves the file into it. The second run
    reads that directory's name as window [#a] and date [1], and moves the
    directory with its file to [#a/1--.log]. *)
Lemma second_run_moves_a_directory :
  let name := "#a_1.log_20160115.log" in
  exists w1 w2,
    convertToHierarchy "N" (staged [name]) = (Ok tt, w1)
    /\ children (tree w1) ["output"] = ["#a_1.log"]
    /\ find_node (tree w1) ["output"; "#a_1.log"] = Some Dir
    /\ find_node (tree w1) ["output"; "#a_1.log"; "2016-01-15.log"]
       = find_node (tree (staged [name])) ["output"; name]
    /\ match_ networkRe "#a_1.log" = Some [(Named "window", "#a"); (Named "date", "1")]
    /\ convertToHierarchy "N" w1 = (Ok tt, w2)
    /\ find_node (tree w2) ["output"; "#a_1.log"] = None
    /\ find_node (tree w2) ["output"; "#a_1.log"; "2016-01-15.log"] = None
    /\ find_node (tree w2) ["output"; "#a"; "1--.log"] = Some Dir
    /\ find_node (tree w2) ["output"; "#a"; "1--.log"; "2016-01-15.log"]
       = find_node (tree (staged [name])) ["output"; name]
    /\ stdout w2 = stdout w1 ++ ["Rearranging logs into 1.6 hierarchy..."; "Done!"].
Proof.
  cbv zeta. do 2 eexists. split; [vm_compute; reflexivity|].
  repeat split; vm_compute; reflexivity.
Qed.

(** C8 (amended). Whenever no entry of the staging directory matches the
    grammar in use, [convertToHierarchy] ends normally, leaves the tree as
    it was, and prints one "did not match" warning per entry between its
    first and last message. That is the case after a first run over a
    staging directory of well-formed names under the Global grammar and
    under the User grammar: the directories the first run makes at the top
    are named after the user or the network, which hold no underscore, and
    the entries it left still do not match. Under the Network grammar it is
    the case when no window holds an underscore. *)
Theorem rearranging_again_moves_nothing :
  (forall (logType : string) (w : world),
      find_node (tree w) ["output"] = Some Dir ->
      (forall n, In n (children (tree w) ["output"]) ->
                 match_ (pattern_of logType) n = None) ->
      moves_nothing logType w)
  /\ (forall (logType : string) (w : world),
        let names := children (tree w) ["output"] in
        String.eqb logType "N" = false -> String.eqb logType "U" = false ->
        flat_staging w ->
        (forall k, In k names ->
           match_ globalRe k = None
           \/ ((exists data st, find_node (tree w) ["output"; k] = Some (File data st))
               /\ exists u n c d,
                    k = global_name u n c d /\ user_field u = true
                    /\ network_field n = true /\ dir_field c = true
                    /\ date_field d = true /\ ~ In u names)) ->
        (forall u n c d d',
           In (global_name u n c d) names -> In (global_name u n c d') names ->
           date_field d = true -> date_field d' = true -> dated d = dated d' -> d = d') ->
        exists w1,
          convertToHierarchy logType w = (Ok tt, w1) /\ moves_nothing logType w1)
  /\ (forall (w : world),
        let names := children (tree w) ["output"] in
        flat_staging w ->
        (forall k, In k names ->
           match_ userRe k = None
           \/ ((exists data st, find_node (tree w) ["output"; k] = Some (File data st))
               /\ exists n c d,
                    k = user_name n c d /\ network_field n = true
                    /\ dir_field c = true /\ date_field d = true /\ ~ In n names)) ->
        (forall n c d d',
           In (user_name n c d) names -> In (user_name n c d') names ->
           date_field d = true -> date_field d' = true -> dated d = dated d' -> d = d') ->
        exists w1,
          convertToHierarchy "U" w = (Ok tt, w1) /\ moves_nothing "U" w1)
  /\ (forall (w : world),
        let names := children (tree w) ["output"] in
        flat_staging w ->
        (forall k, In k names ->
           match_ networkRe k = None
           \/ ((exists data st, find_node (tree w) ["output"; k] = Some (File data st))
               /\ exists c d,
                    k = network_name c d /\ dir_field c = true /\ date_field d = true
                    /\ contains "_" c = false /\ ~ In c names)) ->
        (forall c d d',
           In (network_name c d) names -> In (network_name c d') names ->
           date_field d = true -> date_field d' = true -> dated d = dated d' -> d = d') ->
        exists w1,
          convertToHierarchy "N" w = (Ok tt, w1) /\ moves_nothing "N" w1).
Proof.
  split; [exact moves_nothing_intro|]. split; [|split].
  - intros logType w names HN HU Hflat Hent Hdates.
    destruct (pattern_of_global logType HN HU) as [Ere Efmt].
    destruct (global_staging names _ Hent Hdates) as [Hplaced Hinj].
    apply (second_run_quiet logType 3 w Hflat); rewrite Ere, Efmt; auto.
    intros k comps f Hk Hp.
    destruct (Hent k Hk) as [Hno|(_ & u & n & c & d & -> & Hu & Hn & Hc & Hd & _)].
    + apply unmatched_none in Hno. rewrite (placed_matched _ _ _ _ _ Hp) in Hno.
      discriminate.
    + destruct (placed_made _ _ _ _ _ Hp) as [E1 _].
      destruct (placed_made _ _ _ _ _ (global_placed u n c d Hu Hn Hc Hd)) as [F1 _].
      rewrite <- E1, F1. destruct (user_field_parts u Hu) as [_ Hus].
      exact (no_underscore_no_match "G" u Hus).
  - intros w names Hflat Hent Hdates.
    destruct (user_staging names _ Hent Hdates) as [Hplaced Hinj].
    apply (second_run_quiet "U" 2 w Hflat); auto.
    intros k comps f Hk Hp.
    destruct (Hent k Hk) as [Hno|(_ & n & c & d & -> & Hn & Hc & Hd & _)].
    + apply unmatched_none in Hno.
      change (pattern_of "U") with userRe in Hp.
      rewrite (placed_matched _ _ _ _ _ Hp) in Hno. discriminate.
    + destruct (placed_made _ _ _ _ _ Hp) as [E1 _].
      destruct (placed_made _ _ _ _ _ (user_placed n c d Hn Hc Hd)) as [F1 _].
      change (made_dir (pattern_of "U") (format_of "U") (user_name n c d))
        with (made_dir userRe userDirFormat (user_name n c d)) in E1.
      rewrite <- E1, F1. destruct (network_field_parts n Hn) as (_ & _ & Hus & _).
      exact (no_underscore_no_match "U" n Hus).
  - intros w names Hflat Hent Hdates.
    assert (Hent' : forall k, In k names ->
              match_ networkRe k = None
              \/ ((exists data st, find_node (tree w) ["output"; k] = Some (File data st))
                  /\ exists c d,
                       k = network_name c d /\ dir_field c = true /\ date_field d = true
                       /\ ~ In c names)).
    { intros k Hk. destruct (Hent k Hk) as [Hno|(Hf & c & d & E & Hc & Hd & _ & Hnot)];
        [now left | right]. split; [exact Hf|]. exists c, d. auto. }
    destruct (network_staging names _ Hent' Hdates) as [Hplaced Hinj].
    apply (second_run_quiet "N" 1 w Hflat); auto.
    intros k comps f Hk Hp.
    destruct (Hent k Hk) as [Hno|(_ & c & d & -> & Hc & Hd & Hus & _)].
    + apply unmatched_none in Hno.
      change (pattern_of "N") with networkRe in Hp.
      rewrite (placed_matched _ _ _ _ _ Hp) in Hno. discriminate.
    + destruct (placed_made _ _ _ _ _ Hp) as [E1 _].
      destruct (placed_made _ _ _ _ _ (network_placed c d Hc Hd)) as [F1 _].
      change (made_dir (pattern_of "N") (format_of "N") (network_name c d))
        with (made_dir networkRe networkDirFormat (network_name c d)) in E1.
      rewrite <- E1, F1.
      exact (no_underscore_no_match "N" c Hus).
Qed.

Lemma rearranging_again_witness :
  children (tree rearranged) ["output"] = ["backlog"; "alice"; "bob"]
  /\ moves_nothing "G" rearranged
  /\ exists w1,
       convertToHierarchy "G" global_staged = (Ok tt, w1) /\ moves_nothing "G" w1.
Proof.
  split; [vm_compute; reflexivity|]. split.
  - apply (proj1 rearranging_again_moves_nothing "G" rearranged).
    + vm_compute. reflexivity.
    + intros n Hn. vm_compute in Hn.
      destruct Hn as [<-|[<-|[<-|[]]]]; vm_compute; reflexivity.
  - apply (proj1 (proj2 rearranging_again_moves_nothing) "G" global_staged).
    + reflexivity.
    + reflexivity.
    + split; [reflexivity|]. split; [exact global_staged_distinct|].
      split; [apply shallow_table, staged_shallow | reflexivity].
    + exact global_staged_entries.
    + exact global_staged_dates.
Defined.

(** C9. The Network and User patterns are not anchored at the end: the
    staged name [#chan_20160115.log.bak] matches under the Network grammar
    with window [#chan] and date [20160115], and the file is moved to
    [#chan/2016-01-15.log], the trailing [.bak] gone from its name; the same
    under the User grammar. The Global pattern, anchored, does not match
    such a name. *)
Theorem unanchored_patterns_drop_the_tail :
  match_ networkRe "#chan_20160115.log.bak"
  = Some [(Named "window", "#chan"); (Named "date", "20160115")]
  /\ destination networkRe networkDirFormat "#chan_20160115.log.bak"
     = Some ("./output/#chan", "./output/#chan/2016-01-15.log")
  /\ (exists w',
        convertToHierarchy "N" (staged ["#chan_20160115.log.bak"]) = (Ok tt, w')
        /\ find_node (tree w') (resolve "./output/#chan/2016-01-15.log")
           = find_node (tree (staged ["#chan_20160115.log.bak"]))
                       (resolve (OUTDIR +:+ "#chan_20160115.log.bak"))
        /\ find_node (tree w') (resolve (OUTDIR +:+ "#chan_20160115.log.bak")) = None
        /\ map fst (tree w')
           = [["output"]; ["output"; "#chan"; "2016-01-15.log"]; ["output"; "#chan"]]
        /\ stdout w' = [rearranging; "Done!"])
  /\ match_ userRe "freenode_#chan_20160115.log.bak"
     = Some [(Named "network", "freenode"); (Named "window", "#chan");
             (Named "date", "20160115")]
  /\ (exists w',
        convertToHierarchy "U" (staged ["freenode_#chan_20160115.log.bak"]) = (Ok tt, w')
        /\ find_node (tree w') (resolve "./output/freenode/#chan/2016-01-15.log")
           = find_node (tree (staged ["freenode_#chan_20160115.log.bak"]))
                       (resolve (OUTDIR +:+ "freenode_#chan_20160115.log.bak"))
        /\ find_node (tree w') (resolve (OUTDIR +:+ "freenode_#chan_20160115.log.bak")) = None
        /\ stdout w' = [rearranging; "Done!"])
  /\ match_ globalRe "alice_freenode_#chan_20160115.log.bak" = None.
Proof.
  split; [vm_compute; reflexivity|].
  split; [vm_compute; reflexivity|].
  split; [eexists; split; [vm_compute; reflexivity|]; repeat split; vm_compute; reflexivity|].
  split; [vm_compute; reflexivity|].
  split; [eexists; split; [vm_compute; reflexivity|]; repeat split; vm_compute; reflexivity|].
  vm_compute; reflexivity.
Qed.

(** C10. The input filter keeps exactly the names that end in the three
    characters [log]: [backlog] and [catalog] pass, no dot is asked for, and
    the case of the letters counts. Run over [log_folder], the script takes
    [backlog] as a log and copies it to the staging directory, and leaves
    [notes.txt] out. *)
Theorem select_logfiles_suffix_only :
  (forall (filenames : list string) (x : string),
      In x (select_logfiles filenames) <->
      In x filenames /\ exists stem, x = stem +:+ "log")
  /\ select_logfiles
       ["backlog"; "notes.txt"; "a_20160101.log"; "catalog"; "x.LOG"; "log"; "logs"]
     = ["backlog"; "a_20160101.log"; "catalog"; "log"]
  /\ find_node (tree rearranged) ["output"; "backlog"]
     = find_node (tree log_folder) ["backlog"]
  /\ find_node (tree rearranged) ["output"; "notes.txt"] = None.
Proof.
  split; [|split; [|split]].
  - intros filenames x. unfold select_logfiles.
    rewrite filter_In, endswith_iff. reflexivity.
  - reflexivity.
  - vm_compute. reflexivity.
  - vm_compute. reflexivity.
Qed.

(* ================================================================== *)
(** * Further properties of the script *)
(* ================================================================== *)

(** X1. Sorting is settled after one pass: given its own result again,
    [sortLines] returns it unchanged and prints nothing. Sorting two lists
    one after the other and then the two results put end to end gives the
    same lines and the same warnings as sorting the two lists put end to
    end. *)
Theorem sortLines_settles (l1 l2 : list string) (w : world) :
  exists (out o1 o2 : list string) (wa w1 : world),
    sortLines (l1 ++ l2) w = (Ok out, w1)
    /\ sortLines out w1 = (Ok out, w1)
    /\ sortLines l1 w = (Ok o1, wa)
    /\ sortLines l2 wa = (Ok o2, w1)
    /\ sortLines (o1 ++ o2) w1 = (Ok out, w1).
Proof.
  set (drop := fun l => map line_warning (filter (fun line => negb (is_log_line line)) l)).
  exists (Py.sorted sort_key (filter is_log_line (l1 ++ l2))),
         (Py.sorted sort_key (filter is_log_line l1)),
         (Py.sorted sort_key (filter is_log_line l2)),
         (with_stdout w (stdout w ++ drop l1)),
         (with_stdout w (stdout w ++ drop (l1 ++ l2))).
  split; [apply sortLines_run|].
  split; [|split; [apply sortLines_run|split]].
  - rewrite sortLines_run, sorted_kept, sorted_none_dropped, sorted_sorted.
    cbn [map stdout with_stdout]. now rewrite app_nil_r.
  - rewrite sortLines_run. cbn [stdout with_stdout]. unfold drop.
    now rewrite filter_app, map_app, <- app_assoc.
  - rewrite sortLines_run.
    rewrite !filter_app, !sorted_kept, !sorted_none_dropped, sorted_app_sorted.
    cbn [map app stdout with_stdout]. now rewrite app_nil_r.
Qed.

(** X2. When every line [sortLines] keeps opens with a stamp [[HH:MM:SS]] of
    two digits each, minutes and seconds below 60, the lines it returns are
    the kept lines in the order of the time of day: each is followed only by
    lines of the same second or later. *)
Theorem stamped_lines_come_out_in_time_order (lines : list string) (w : world) :
  (forall line, In line lines -> is_log_line line = true -> clock_stamped line = true) ->
  exists (out : list string) (w' : world),
    sortLines lines w = (Ok out, w')
    /\ Permutation out (filter is_log_line lines)
    /\ StronglySorted (fun a b => seconds_of a <= seconds_of b) out.
Proof.
  intros H. do 2 eexists. split; [apply sortLines_run|].
  split; [apply sorted_perm|].
  apply (StronglySorted_weaken key_le); [|apply (sorted_ascending sort_key)].
  intros a b Ha Hb.
  apply (Permutation_in _ (sorted_perm sort_key _)) in Ha, Hb.
  apply filter_In in Ha, Hb. destruct Ha as [Ha La], Hb as [Hb Lb].
  apply clock_order; auto.
Qed.

Lemma stamped_witness :
  exists (out : list string) (w' : world),
    sortLines [ln "[10:00:00] late"; ln "no stamp"; ln "[09:59:59] early"] (staged [])
    = (Ok out, w')
    /\ Permutation out
         (filter is_log_line [ln "[10:00:00] late"; ln "no stamp"; ln "[09:59:59] early"])
    /\ StronglySorted (fun a b => seconds_of a <= seconds_of b) out.
Proof.
  apply (stamped_lines_come_out_in_time_order
           [ln "[10:00:00] late"; ln "no stamp"; ln "[09:59:59] early"] (staged [])).
  intros line [<-|[<-|[<-|[]]]]; vm_compute; congruence.
Defined.

(** X3. When the two files of a pair end with a newline (or are empty), the
    merged file read back line by line gives the kept lines in sorted
    order: no two lines are run together by the writing. *)
Theorem merged_file_reads_back
    (f1 f2 data1 data2 : string) (st1 st2 : stat) (w : world) :
  plain_name f1 = true -> plain_name f2 = true ->
  find_node (tree w) [f1] = Some (File data1 st1) ->
  find_node (tree w) [f2] = Some (File data2 st2) ->
  find_node (tree w) ["output"] = Some Dir ->
  find_node (tree w) ["output"; Py.lower f1] <> Some Dir ->
  ends_with_newline data1 = true -> ends_with_newline data2 = true ->
  exists (text : string) (w' : world),
    merge_dupe [f1; f2] w = (Ok tt, w')
    /\ find_node (tree w') ["output"; Py.lower f1] = Some (File text st2)
    /\ Py.readlines text
       = Py.sorted sort_key
           (filter is_log_line (Py.readlines data1 ++ Py.readlines data2)).
Proof.
  intros P1 P2 H1 H2 Hout Hdst E1 E2. do 2 eexists.
  split; [apply (merge_dupe_run f1 f2 data1 data2 st1 st2 w); assumption|].
  cbn [tree with_tree]. rewrite find_set_same by discriminate.
  split; [reflexivity|]. apply readlines_file_text.
  eapply Permutation_Forall; [symmetry; apply sorted_perm|].
  apply Forall_forall. intros line Hin. apply filter_In in Hin. destruct Hin as [Hin _].
  assert (F : Forall terminated (Py.readlines data1 ++ Py.readlines data2))
    by (apply Forall_app; split; now apply readlines_terminated).
  rewrite Forall_forall in F. now apply F.
Qed.

Lemma merged_reads_back_witness :
  exists (text : string) (w' : world),
    merge_dupe [first_copy; second_copy] log_folder_ready = (Ok tt, w')
    /\ find_node (tree w') ["output"; Py.lower first_copy] = Some (File text stat_b)
    /\ Py.readlines text
       = [ln "[00:00:30] b"; ln "[00:01:00] a"; ln "[00:01:00] d"; ln "[00:02:00] c"].
Proof.
  apply (merged_file_reads_back first_copy second_copy
           (ln "[00:01:00] a" +:+ ln "-- topic changed --" +:+ ln "[00:02:00] c")
           (ln "[00:00:30] b" +:+ ln "[00:01:00] d") stat_a stat_b log_folder_ready);
    try reflexivity.
  vm_compute. discriminate.
Defined.

(** X4. The second stage accounts for every name it is given, when the
    names are regular files and the staging directory is there: with the
    groups the duplicate finder returns, twice the number of logs it reports
    as merged plus the number of files it reports as copied is the number of
    names, and the two reports are printed after the merge warnings. *)
Theorem merged_and_copied_add_up
    (items : list (string * nat) -> list (string * nat))
    (items_perm : forall l, Permutation (items l) l)
    (names : list string) (w : world) :
  stage_ready names (tree w) ->
  exists (dupes : list (list string)) (warnings : list string) (copied : nat)
         (w1 w2 : world),
    findMixedCaseDupes items names w = (Ok dupes, w1)
    /\ mergeAndCopyLogs names dupes w1 = (Ok tt, w2)
    /\ stdout w2
       = stdout w1 ++ ["Merging logs..."] ++ warnings
           ++ [Py.str (length dupes) +:+ " logs merged.";
               "Copying remaining logs...";
               Py.str copied +:+ " files copied."]
    /\ 2 * length dupes + copied = length names.
Proof.
  intros Hready.
  destruct (dupenames_exact items items_perm names) as [ND Hdn].
  set (dupenames := map fst (filter (fun kv => Nat.eqb (snd kv) 2)
                                    (items (Counter (map Py.lower names))))) in *.
  set (copies := fun k => filter (fun v => String.eqb (Py.lower v) k) names).
  assert (Hcount : forall k, In k dupenames ->
                             count_occ string_dec (map Py.lower names) k = 2)
    by (intros k; apply Hdn).
  assert (Hd : forall d, In d (map copies dupenames) ->
                         exists a b, d = [a; b] /\ In a names /\ In b names).
  { intros d Hin. apply in_map_iff in Hin. destruct Hin as (k & <- & Hk).
    destruct (copies_pair names k (Hcount k Hk)) as (a & b & E & Ha & Hb & _).
    exists a, b. auto. }
  do 5 eexists. split; [apply findMixedCaseDupes_run|].
  fold dupenames. fold copies.
  split; [apply (mergeAndCopyLogs_run names (map copies dupenames)); [exact Hready | exact Hd]|].
  cbn [stdout with_tree with_stdout tree]. split; [reflexivity|].
  rewrite length_map.
  rewrite (filter_ext_in _ (fun n => negb (existsb (String.eqb (Py.lower n)) dupenames)))
    by (intros n Hn; f_equal; now apply in_pairs).
  rewrite <- (paired_names names dupenames ND Hcount).
  apply length_filter_split.
Qed.

Lemma log_folder_stage_ready : stage_ready log_names (tree log_folder_ready).
Proof.
  repeat split.
  - intros n Hn. cbn in Hn. destruct Hn as [<-|[<-|[<-|[<-|[]]]]]; reflexivity.
  - intros n Hn. cbn in Hn.
    destruct Hn as [<-|[<-|[<-|[<-|[]]]]]; do 2 eexists; reflexivity.
  - intros n Hn. cbn in Hn.
    destruct Hn as [<-|[<-|[<-|[<-|[]]]]]; vm_compute; discriminate.
Qed.

Lemma counts_add_up_witness :
  exists (warnings : list string) (w1 w2 : world),
    findMixedCaseDupes (fun counts => counts) log_names log_folder_ready
    = (Ok [[first_copy; second_copy]], w1)
    /\ mergeAndCopyLogs log_names [[first_copy; second_copy]] w1 = (Ok tt, w2)
    /\ stdout w2
       = stdout w1 ++ ["Merging logs..."] ++ warnings
           ++ ["1 logs merged."; "Copying remaining logs..."; "2 files copied."].
Proof.
  destruct (merged_and_copied_add_up (fun counts => counts) (fun l => Permutation_refl l)
              log_names log_folder_ready log_folder_stage_ready)
    as (dupes & warnings & copied & w1 & w2 & E1 & E2 & E3 & E4).
  assert (Ed : dupes = [[first_copy; second_copy]]).
  { assert (E : fst (findMixedCaseDupes (fun counts => counts) log_names log_folder_ready)
                = Ok [[first_copy; second_copy]]) by reflexivity.
    rewrite E1 in E. cbn [fst] in E. now injection E. }
  subst dupes.
  assert (Ec : copied = 2) by (cbn [length log_names] in E4; lia).
  subst copied.
  exists warnings, w1, w2. split; [exact E1|]. split; [exact E2 | exact E3].
Defined.

(** X5. A name whose lowercase form is not shared by exactly one other name
    is copied, and when several spellings of it are present the one listed
    last is what the staging directory holds in the end, the earlier copies
    being written over. With three spellings or more the duplicate finder
    has printed its "more than two occurrences" warning for the form. *)
Theorem last_spelling_is_staged
    (items : list (string * nat) -> list (string * nat))
    (items_perm : forall l, Permutation (items l) l)
    (before after : list string) (n : string) (w : world) :
  let names := before ++ n :: after in
  let occurrences := count_occ string_dec (map Py.lower names) (Py.lower n) in
  stage_ready names (tree w) ->
  occurrences <> 2 ->
  (forall x, In x after -> Py.lower x <> Py.lower n) ->
  exists (dupes : list (list string)) (w1 w2 : world),
    findMixedCaseDupes items names w = (Ok dupes, w1)
    /\ mergeAndCopyLogs names dupes w1 = (Ok tt, w2)
    /\ find_node (tree w2) ["output"; Py.lower n] = find_node (tree w) [n]
    /\ (2 < occurrences -> In ("Warning: " +:+ Py.lower n +:+ " has more than two occurrences. Skipping.")
             (stdout w1)).
Proof.
  intros names occurrences Hready Hocc Hafter.
  destruct (dupenames_exact items items_perm names) as [ND Hdn].
  set (dupenames := map fst (filter (fun kv => Nat.eqb (snd kv) 2)
                                    (items (Counter (map Py.lower names))))) in *.
  set (copies := fun k => filter (fun v => String.eqb (Py.lower v) k) names).
  assert (Hcount : forall k, In k dupenames ->
                             count_occ string_dec (map Py.lower names) k = 2)
    by (intros k; apply Hdn).
  assert (Hd : forall d, In d (map copies dupenames) ->
                         exists a b, d = [a; b] /\ In a names /\ In b names).
  { intros d Hin. apply in_map_iff in Hin. destruct Hin as (k & <- & Hk).
    destruct (copies_pair names k (Hcount k Hk)) as (a & b & E & Ha & Hb & _).
    exists a, b. auto. }
  assert (Hn : In n names) by (apply in_or_app; right; now left).
  assert (Hnot : ~ In (Py.lower n) dupenames) by (intros H; apply Hdn in H; contradiction).
  do 3 eexists. split; [apply findMixedCaseDupes_run|].
  fold dupenames. fold copies.
  split; [apply (mergeAndCopyLogs_run names (map copies dupenames)); [exact Hready | exact Hd]|].
  cbn [stdout with_tree with_stdout tree]. split.
  - set (keep := fun x => negb (existsb (String.eqb x) (List.concat (map copies dupenames)))).
    assert (Hkeep : keep n = true).
    { unfold keep. pose proof (in_pairs names dupenames n Hn) as Hp.
      cbv zeta in Hp. fold copies in Hp. rewrite Hp.
      destruct (existsb (String.eqb (Py.lower n)) dupenames) eqn:Ex; [|reflexivity].
      exfalso. apply Hnot. now apply existsb_eqb_In. }
    change (filter keep names) with (filter keep (before ++ n :: after)).
    rewrite filter_app. cbn [filter]. rewrite Hkeep.
    rewrite map_app. cbn [map]. rewrite app_assoc.
    destruct Hready as (_ & H2 & _). destruct (H2 n Hn) as (data & st & Ef).
    assert (Ew : copy_write (tree w) n = (["output"; Py.lower n], File data st))
      by (unfold copy_write; now rewrite Ef).
    rewrite Ew, Ef. apply find_apply_writes_last; [discriminate|].
    intros m Hin. apply in_map_iff in Hin. destruct Hin as (x & Ex & Hx).
    apply filter_In in Hx. destruct Hx as [Hx _].
    unfold copy_write in Ex.
    destruct (find_node (tree w) [x]); [|discriminate].
    injection Ex as Ex _. now apply (Hafter x).
  - intros Hmany. apply in_or_app. right.
    change ("Warning: " +:+ Py.lower n +:+ " has more than two occurrences. Skipping.")
      with (dupe_warning (Py.lower n)).
    apply in_map. apply in_map_iff. exists (Py.lower n, occurrences). split; [reflexivity|].
    apply filter_In. split; [|now apply Nat.ltb_lt].
    apply (Permutation_in _ (Permutation_sym (items_perm _))).
    apply (proj2 (Counter_counts (map Py.lower names))). split; [reflexivity | lia].
Qed.

Lemma last_spelling_witness :
  exists (dupes : list (list string)) (w1 w2 : world),
    findMixedCaseDupes (fun counts => counts)
      (["Bob_efnet_#x_20160116.log"; "bob_EFnet_#x_20160116.log"]
         ++ "bob_efnet_#X_20160116.log" :: ["carol_efnet_#x_20160116.log"])
      triple_folder = (Ok dupes, w1)
    /\ mergeAndCopyLogs
         (["Bob_efnet_#x_20160116.log"; "bob_EFnet_#x_20160116.log"]
            ++ "bob_efnet_#X_20160116.log" :: ["carol_efnet_#x_20160116.log"])
         dupes w1 = (Ok tt, w2)
    /\ find_node (tree w2) ["output"; "bob_efnet_#x_20160116.log"]
       = Some (File (ln "[12:00:00] third") stat_b)
    /\ In "Warning: bob_efnet_#x_20160116.log has more than two occurrences. Skipping."
          (stdout w1).
Proof.
  destruct (last_spelling_is_staged (fun counts => counts) (fun l => Permutation_refl l)
              ["Bob_efnet_#x_20160116.log"; "bob_EFnet_#x_20160116.log"]
              ["carol_efnet_#x_20160116.log"] "bob_efnet_#X_20160116.log" triple_folder)
    as (dupes & w1 & w2 & E1 & E2 & E3 & E4).
  - repeat split.
    + intros n Hn. cbn in Hn. destruct Hn as [<-|[<-|[<-|[<-|[]]]]]; reflexivity.
    + intros n Hn. cbn in Hn.
      destruct Hn as [<-|[<-|[<-|[<-|[]]]]]; do 2 eexists; reflexivity.
    + intros n Hn. cbn in Hn.
      destruct Hn as [<-|[<-|[<-|[<-|[]]]]]; vm_compute; discriminate.
  - vm_compute. discriminate.
  - intros x [<-|[]]. vm_compute. discriminate.
  - exists dupes, w1, w2. split; [exact E1|]. split; [exact E2|]. split; [exact E3|].
    apply E4. vm_compute. lia.
Defined.

(** X6. The new name is cut from the date by position: a date of four, two
    and two characters followed by anything gives year-month-day and the
    rest is lost. Taking the dashes out gives the first eight characters of
    the date back, so two dates of at most eight digits never give the same
    new name. *)
Theorem date_is_cut_by_position :
  (forall year month day tail : string,
      String.length year = 4 -> String.length month = 2 -> String.length day = 2 ->
      reformat_date (year +:+ month +:+ day +:+ tail)
      = year +:+ "-" +:+ month +:+ "-" +:+ day)
  /\ (forall date : string,
        contains "-" date = false ->
        Py.remove_char "-" (reformat_date date) = Py.slice 0 8 date)
  /\ (forall d d' : string,
        all_in digit d = true -> all_in digit d' = true ->
        String.length d <= 8 -> String.length d' <= 8 ->
        reformat_date d = reformat_date d' -> d = d').
Proof.
  split; [|split].
  - intros year month day tail Hy Hm Hd.
    unfold reformat_date, Py.slice. cbn [Py.join String.concat Nat.sub].
    rewrite <- Hy at 1. rewrite substring_prefix.
    replace 4 with (String.length year) at 1 by exact Hy. rewrite substring_skip.
    rewrite <- Hm at 1. rewrite substring_prefix.
    replace (year +:+ month +:+ day +:+ tail) with ((year +:+ month) +:+ day +:+ tail)
      by now rewrite append_assoc.
    replace 6 with (String.length (year +:+ month)) by (rewrite length_append; lia).
    rewrite substring_skip. rewrite <- Hd. now rewrite substring_prefix.
  - apply reformat_date_undone.
  - intros d d' Ha Ha' L L' E.
    apply (f_equal (Py.remove_char "-")) in E.
    rewrite !reformat_date_undone in E by (apply (all_in_no digit); auto).
    unfold Py.slice in E. cbn [Nat.sub] in E.
    now rewrite !substring_short in E by assumption.
Qed.

Lemma date_cut_witness :
  reformat_date "201601150" = "2016-01-15"
  /\ Py.remove_char "-" (reformat_date "201601150") = "20160115".
Proof.
  destruct date_is_cut_by_position as (Hcut & Hback & _). split.
  - apply (Hcut "2016" "01" "15" "0"); reflexivity.
  - apply (Hback "201601150"). reflexivity.
Defined.







(** X10. Two staged logs of one window whose dates differ only after the
    eighth digit get the same new name, and the one listed later replaces
    the other: the run ends normally and prints no warning, the new name
    holds the later file and both staged names are gone. *)
Theorem later_log_replaces_the_earlier
    (logType u n c d1 d2 : string) (node1 node2 : node) (w : world) :
  let k1 := global_name u n c d1 in
  let k2 := global_name u n c d2 in
  String.eqb logType "N" = false -> String.eqb logType "U" = false ->
  user_field u = true -> network_field n = true -> dir_field c = true ->
  date_field d1 = true -> date_field d2 = true ->
  d1 <> d2 -> dated d1 = dated d2 ->
  find_node (tree w) ["output"] = Some Dir ->
  children (tree w) ["output"] = [k1; k2] ->
  (exists data st, node1 = File data st) -> (exists data st, node2 = File data st) ->
  find_node (tree w) ["output"; k1] = Some node1 ->
  find_node (tree w) ["output"; k2] = Some node2 ->
  (forall q, is_prefix ["output"] q -> 2 < length q -> find_node (tree w) q = None) ->
  (forall q, mkdir_fault w q = None) ->
  exists w',
    convertToHierarchy logType w = (Ok tt, w')
    /\ stdout w' = stdout w ++ ["Rearranging logs into 1.6 hierarchy..."; "Done!"]
    /\ find_node (tree w') ["output"; u; n; c; dated d2] = Some node2
    /\ find_node (tree w') ["output"; k1] = None
    /\ find_node (tree w') ["output"; k2] = None.
Proof.
  intros k1 k2 HN HU Hu Hn Hc Hd1 Hd2 Hne Hsame Hout Hls (data1 & st1 & ->)
         (data2 & st2 & ->) Hf1 Hf2 Hdeep Hfault.
  destruct (pattern_of_global logType HN HU) as [Ere Efmt].
  destruct (global_placed u n c d1 Hu Hn Hc Hd1) as (p1 & t1 & D1 & P1 & T1 & _ & Hp1).
  destruct (global_placed u n c d2 Hu Hn Hc Hd2) as (p2 & t2 & D2 & P2 & T2 & _ & Hp2).
  fold k1 in D1, Hp1. fold k2 in D2, Hp2.
  rewrite <- Hsame in T2.
  assert (Hk : k1 <> k2).
  { intros E. apply Hne. exact (global_date_unique _ _ _ _ _ _ _ _ E Hd1 Hd2). }
  assert (Hmark : k1 <> u /\ k2 <> u).
  { destruct (user_field_parts _ Hu) as [_ Hno].
    split; intros E; rewrite <- E in Hno; unfold k1, k2 in Hno;
      rewrite global_name_marked in Hno; discriminate. }
  destruct Hmark as [Hm1 Hm2].
  assert (B0 : forall q, is_prefix q ["output"; u; n; c] ->
                         find_node (tree w) q = None \/ find_node (tree w) q = Some Dir).
  { intros q Hq. destruct q as [|q0 [|q1 [|q2 q]]].
    - now right.
    - right. destruct Hq as (r & Er). injection Er as <- _. exact Hout.
    - destruct (find_node (tree w) [q0; q1]) as [x|] eqn:En; [|now left].
      exfalso. destruct Hq as (r & Er). injection Er as <- <- _.
      apply (find_in_children (tree w) ["output"] u x) in En. rewrite Hls in En.
      destruct En as [E|[E|[]]]; contradiction.
    - left. apply Hdeep; [|cbn; lia].
      destruct Hq as (r & Er). injection Er as <- _. eexists. reflexivity. }
  rewrite convertToHierarchy_unfold by exact Hout.
  change (resolve OUTDIR) with ["output"]. rewrite Hls, Ere, Efmt.
  set (w0 := with_stdout w (stdout w ++ [rearranging])).
  assert (C0 : find_node (tree w) ("output" :: [u; n; c] ++ [dated d1]) <> Some Dir).
  { rewrite Hdeep; [discriminate | | cbn; lia]. eexists. reflexivity. }
  assert (Hnil : [u; n; c] <> []) by discriminate.
  destruct (rewrite_one globalRe globalDirFormat k1 p1 t1 [u; n; c] (dated d1) data1 st1 w0
              D1 (resolve_staged _ Hp1) P1 Hnil T1 (fun q _ _ => Hfault q) B0 Hf1 C0)
    as (ta & Ea & A1 & A2 & A3 & FrameA).
  assert (Bb : forall q, is_prefix q ["output"; u; n; c] ->
                         find_node ta q = None \/ find_node ta q = Some Dir).
  { intros q Hq.
    destruct (FrameA q) as [E|(_ & _ & E)]; [ | |rewrite E; now apply B0|now right].
    - intros (r & ->). destruct Hq as (r' & Er). injection Er as Er _.
      now apply Hm1.
    - intros Hp. apply is_prefix_length in Hp. apply is_prefix_length in Hq.
      cbn [length app] in *. lia. }
  assert (Fb : find_node ta ["output"; k2] = Some (File data2 st2)).
  { destruct (FrameA ["output"; k2]) as [E|(_ & E & _)].
    - intros Hp. apply is_prefix_same_length in Hp; [|reflexivity]. congruence.
    - intros Hp. apply is_prefix_length in Hp. cbn [length app] in Hp. lia.
    - now rewrite E.
    - cbn [tree w0 with_stdout] in E. congruence. }
  assert (Cb : find_node ta ("output" :: [u; n; c] ++ [dated d1]) <> Some Dir).
  { rewrite A1. discriminate. }
  destruct (rewrite_one globalRe globalDirFormat k2 p2 t2 [u; n; c] (dated d1) data2 st2
              (with_tree w0 ta)
              D2 (resolve_staged _ Hp2) P2 Hnil T2 (fun q _ _ => Hfault q) Bb Fb Cb)
    as (tb & Eb & B1 & B2 & B3 & FrameB).
  cbn [for_each]. unfold bind. rewrite Ea, Eb. unfold ret. rewrite print_run.
  eexists. split; [reflexivity|].
  cbn [stdout tree with_tree with_stdout w0]. split; [now rewrite <- app_assoc|].
  rewrite <- Hsame. split; [exact B1|]. split; [|exact B2].
  destruct (FrameB ["output"; k1]) as [E|(Hp & _)].
  - intros Hp. apply is_prefix_same_length in Hp; [|reflexivity]. congruence.
  - intros Hp. apply is_prefix_length in Hp. cbn [length app] in Hp. lia.
  - rewrite E. exact A2.
  - exfalso. destruct Hp as (r & Er). injection Er as Er _. now apply Hm1.
Qed.

Lemma later_log_witness :
  exists w',
    convertToHierarchy "G" crowded_staged = (Ok tt, w')
    /\ stdout w' = ["Rearranging logs into 1.6 hierarchy..."; "Done!"]
    /\ find_node (tree w') ["output"; "alice"; "freenode"; "#chan"; "2016-01-15.log"]
       = find_node (tree crowded_staged) ["output"; "alice_freenode_#chan_201601151.log"]
    /\ find_node (tree w') ["output"; "alice_freenode_#chan_201601150.log"] = None
    /\ find_node (tree w') ["output"; "alice_freenode_#chan_201601151.log"] = None.
Proof.
  apply (later_log_replaces_the_earlier "G" "alice" "freenode" "#chan"
           "201601150" "201601151"
           (File (ln "[00:00:01] log of alice_freenode_#chan_201601150.log") stat_a)
           (File (ln "[00:00:01] log of alice_freenode_#chan_201601151.log") stat_a)
           crowded_staged);
    try reflexivity.
  - discriminate.
  - do 2 eexists; reflexivity.
  - do 2 eexists; reflexivity.
  - apply shallow_table. vm_compute. repeat constructor.
Defined.

(** X11. When the two questions are not both answered, the script stops
    before it writes anything: Ctrl+C at either prompt ends it with exit
    status 1, the end of the input with [EOFError], and the tree is as it
    was. *)
Theorem nothing_is_written_before_the_answers
    (items : list (string * nat) -> list (string * nat)) (e : exn) (w : world) :
  interruption (stdin w) = Some e ->
  exists w', script items w = (Raise e, w') /\ tree w' = tree w.
Proof.
  intros H. unfold script. unfold bind at 1. rewrite listdir_here.
  unfold bind at 1. rewrite findMixedCaseDupes_run.
  unfold bind at 1.
  match goal with
  | |- context [ask ?n ?d ?w1] =>
      destruct (ask_interrupted n d e w1 H) as (w' & -> & Ht)
  end.
  exists w'. split; [reflexivity | exact Ht].
Qed.

Lemma nothing_is_written_witness :
  exists w',
    script (fun counts => counts) (with_stdin log_folder [Line ""; CtrlC])
    = (Raise (SystemExit 1), w')
    /\ tree w' = tree (with_stdin log_folder [Line ""; CtrlC]).
Proof.
  apply (nothing_is_written_before_the_answers (fun counts => counts) (SystemExit 1)
           (with_stdin log_folder [Line ""; CtrlC])).
  reflexivity.
Defined.

(** X12. Only the first character of the answer to the second question
    counts, whatever its case: [n] or [N] selects the Network pattern and
    directory template, [u] or [U] the User ones, and anything else, the
    empty answer included, the Global ones. *)
Theorem module_is_chosen_by_first_letter (answer : string) :
  let logType := normalise_logType answer in
  (pattern_of logType, format_of logType)
  = match answer with
    | String c _ =>
        if Ascii.eqb c "n" || Ascii.eqb c "N" then (networkRe, networkDirFormat)
        else if Ascii.eqb c "u" || Ascii.eqb c "U" then (userRe, userDirFormat)
        else (globalRe, globalDirFormat)
    | EmptyString => (globalRe, globalDirFormat)
    end.
Proof.
  destruct answer as [|c rest]; [reflexivity|].
  destruct c as [[] [] [] [] [] [] [] []]; reflexivity.
Qed.

(** X13. The script from the start, on a folder of well-formed Global logs
    with dates of at most eight digits, no [output] entry yet, and both
    questions answered for the Global module: it ends normally; nothing
    outside [output] is changed, the sources included; a log with no other
    spelling is found at [output/user/network/window/YYYY-MM-DD.log], fields
    in lowercase, with its content and metadata; a pair that differs in case
    only is found there as one file, the kept lines of the two sorted, with
    the metadata of the second. *)
Theorem script_converts_a_global_folder
    (items : list (string * nat) -> list (string * nat))
    (items_perm : forall l, Permutation (items l) l)
    (enter answer : string) (rest : list keystroke) (w : world) :
  let logs := select_logfiles (children (tree w) []) in
  let twins n := filter (fun v => String.eqb (Py.lower v) (Py.lower n)) logs in
  fresh_folder (tree w) ->
  (forall q, mkdir_fault w q = None) ->
  stdin w = Line enter :: Line answer :: rest ->
  String.eqb (normalise_logType answer) "N" = false ->
  String.eqb (normalise_logType answer) "U" = false ->
  (forall n, In n logs -> exists data st, find_node (tree w) [n] = Some (File data st)) ->
  (forall n, In n logs -> global_log (Py.lower n)) ->
  exists w',
    script items w = (Ok tt, w')
    /\ (forall p, hd "" p <> "output" -> find_node (tree w') p = find_node (tree w) p)
    /\ (forall n u nw c d,
          In n logs -> twins n = [n] ->
          Py.lower n = global_name u nw c d ->
          user_field u = true -> network_field nw = true ->
          dir_field c = true -> date_field d = true ->
          find_node (tree w') ["output"; u; nw; c; dated d] = find_node (tree w) [n])
    /\ (forall a b u nw c d data1 st1 data2 st2,
          In a logs -> twins a = [a; b] ->
          Py.lower a = global_name u nw c d ->
          user_field u = true -> network_field nw = true ->
          dir_field c = true -> date_field d = true ->
          find_node (tree w) [a] = Some (File data1 st1) ->
          find_node (tree w) [b] = Some (File data2 st2) ->
          find_node (tree w') ["output"; u; nw; c; dated d]
          = Some (File (file_text (Py.sorted sort_key
                          (filter is_log_line (Py.readlines data1 ++ Py.readlines data2))))
                       st2)).
Proof.
  intros logs twins Hfresh Hfault Hin HN HU Hfiles Hlogs.
  destruct (script_answered items enter answer rest w Hin) as (w2 & Et2 & Ef2 & Erun).
  fold logs in Erun.
  set (dupenames := map fst (filter (fun kv => Nat.eqb (snd kv) 2)
                                    (items (Counter (map Py.lower logs))))) in *.
  destruct (dupenames_exact items items_perm logs) as [NDd Hdn]. fold dupenames in NDd, Hdn.
  set (copies := fun k => filter (fun v => String.eqb (Py.lower v) k) logs) in *.
  (* the staging directory is made *)
  set (t3 := set_node (tree w) ["output"] Dir).
  assert (E3 : catch (mkdir OUTDIR)
                 (fun e => match e with OSError _ => Some (ret tt) | _ => None end) w2
               = (Ok tt, with_tree w2 t3)).
  { unfold t3. rewrite <- Et2. apply mkdir_output_fresh.
    - rewrite Et2. apply fresh_no_output; [exact Hfresh | apply is_prefix_refl].
    - rewrite Ef2. apply Hfault. }
  (* the second stage *)
  assert (Hsrc3 : forall q, q <> ["output"] -> find_node t3 q = find_node (tree w) q).
  { intros q Hq. unfold t3. apply find_set_other. congruence. }
  assert (Hnot_out : forall n, In n logs -> [n] <> ["output"]).
  { intros n Hn E. injection E as ->. destruct (Hfiles _ Hn) as (data & st & Ef).
    rewrite (fresh_no_output (tree w)) in Ef; [discriminate | exact Hfresh|].
    apply is_prefix_refl. }
  assert (Hready : stage_ready logs t3).
  { split; [|split; [|split]].
    - intros n Hn. apply plain_name_of_lower, global_log_plain. now apply Hlogs.
    - intros n Hn. rewrite Hsrc3 by now apply Hnot_out. now apply Hfiles.
    - unfold t3. now apply find_set_same.
    - intros n Hn. rewrite Hsrc3 by discriminate.
      rewrite (fresh_no_output (tree w)); [discriminate | exact Hfresh | now exists [Py.lower n]]. }
  assert (Hcount : forall k, In k dupenames ->
                             count_occ string_dec (map Py.lower logs) k = 2)
    by (intros k; apply Hdn).
  destruct (staged_listing logs dupenames (with_tree w2 t3))
    as (w4 & E4 & Ef4 & Hout4 & ND4 & Hls4 & Hdeep4 & Hframe4); auto.
  { cbn [tree with_tree]. unfold t3. apply NoDup_keys_set_node. apply Hfresh. }
  { cbn [tree with_tree]. unfold t3. intros q Hq Hp.
    apply in_keys_set_node in Hq. destruct Hq as [Hq|Hq]; [|exact Hq].
    exfalso. apply in_map_iff in Hq. destruct Hq as ([p m] & Ep & Hpm). cbn in Ep. subst p.
    destruct Hfresh as [_ Hno]. destruct Hp as (r & ->). now apply (Hno _ _ Hpm). }
  destruct (second_stage logs dupenames (with_tree w2 t3) Hready NDd Hcount)
    as (w4' & E4' & Hsrc4 & Hpairs4 & Hsingles4).
  fold copies in E4, E4'. rewrite E4 in E4'. injection E4' as <-.
  cbn [tree with_tree mkdir_fault] in *.
  (* the third stage *)
  set (staged := children (tree w4) ["output"]) in *.
  assert (Hwf : forall k, In k staged ->
            exists u n c d,
              k = global_name u n c d /\ user_field u = true /\ network_field n = true
              /\ dir_field c = true /\ date_field d = true /\ String.length d <= 8).
  { intros k Hk. destruct (Hls4 k Hk) as ((n & Hn & ->) & _). now apply Hlogs. }
  destruct (pattern_of_global _ HN HU) as [Ere Efmt].
  destruct (global_staging staged
              (fun k => exists data st, find_node (tree w4) ["output"; k] = Some (File data st)))
    as [Hplaced Hinj].
  { intros k Hk. right. split; [now destruct (Hls4 k Hk)|].
    destruct (Hwf k Hk) as (u & n & c & d & H & Hu & Hn & Hc & Hd & _).
    exists u, n, c, d. repeat split; auto.
    intros Hu_in. destruct (Hwf u Hu_in) as (u' & n' & c' & d' & E & _).
    destruct (user_field_parts u Hu) as [_ Hno].
    rewrite E, global_name_marked in Hno. discriminate. }
  { intros u n c d d' H1 H2 Hd Hd' E.
    destruct (Hwf _ H1) as (u1 & n1 & c1 & d1 & E1 & Hu1 & Hn1 & Hc1 & Hd1 & L1).
    destruct (Hwf _ H2) as (u2 & n2 & c2 & d2 & E2 & Hu2 & Hn2 & Hc2 & Hd2 & L2).
    rewrite (global_date_unique _ _ _ _ _ _ _ _ E1 Hd Hd1) in *.
    rewrite (global_date_unique _ _ _ _ _ _ _ _ E2 Hd' Hd2) in *.
    now apply dated_injective. }
  destruct (rewriter_places (normalise_logType answer) 3 w4)
    as (w' & Erun' & _ & Hmoved & _ & Hframe' & _); fold staged; try rewrite Ere, Efmt; auto.
  { intros q. rewrite Ef4, Ef2. apply Hfault. }
  assert (Hto_src : forall n, In n logs -> find_node (tree w4) [n] = find_node (tree w) [n]).
  { intros n Hn. rewrite Hsrc4. now apply Hsrc3, Hnot_out. }
  assert (Hmove : forall n u nw c d,
            Py.lower n = global_name u nw c d ->
            user_field u = true -> network_field nw = true ->
            dir_field c = true -> date_field d = true ->
            find_node (tree w4) ["output"; Py.lower n] <> None ->
            find_node (tree w') ["output"; u; nw; c; dated d]
            = find_node (tree w4) ["output"; Py.lower n]).
  { intros n u nw c d En Hu Hn Hc Hd Hthere.
    destruct (find_node (tree w4) ["output"; Py.lower n]) as [node|] eqn:Ef; [|congruence].
    assert (Hst : In (Py.lower n) staged)
      by (apply (find_in_children (tree w4) ["output"] _ node); exact Ef).
    destruct (Hmoved (Py.lower n) [u; nw; c] (dated d) Hst) as (M1 & _).
    - rewrite Ere, Efmt, En. now apply global_placed.
    - rewrite <- Ef. exact M1. }
  exists w'. split; [|split; [|split]].
  - rewrite Erun. unfold bind at 1. rewrite E3. unfold bind at 1. rewrite E4. exact Erun'.
  - intros p Hp.
    assert (Hnp : ~ is_prefix ["output"] p).
    { intros (r & ->). now apply Hp. }
    rewrite Hframe', Hframe4 by assumption. cbn [tree with_tree]. apply Hsrc3.
    intros ->. now apply Hp.
  - intros n u nw c d Hn Htw En Hu Hnw Hc Hd.
    assert (Hone : count_occ string_dec (map Py.lower logs) (Py.lower n) = 1).
    { rewrite count_occ_map_filter. fold (twins n). now rewrite Htw. }
    pose proof (Hsingles4 n Hn Hone) as Hs.
    destruct (Hfiles n Hn) as (data & st & Ef).
    rewrite (Hmove n u nw c d); auto.
    + rewrite Hs. apply Hsrc3. now apply Hnot_out.
    + rewrite Hs, Hsrc3 by (now apply Hnot_out). congruence.
  - intros a b u nw c d data1 st1 data2 st2 Ha Htw En Hu Hnw Hc Hd E1 E2.
    assert (Htwo : count_occ string_dec (map Py.lower logs) (Py.lower a) = 2).
    { rewrite count_occ_map_filter. fold (twins a). now rewrite Htw. }
    assert (Hk : In (Py.lower a) dupenames) by now apply Hdn.
    assert (Hb : In b logs).
    { assert (H : In b (twins a)) by (rewrite Htw; right; now left).
      apply filter_In in H. tauto. }
    pose proof (Hpairs4 (Py.lower a) a b data1 st1 data2 st2 Hk Htw) as Hp.
    rewrite !Hsrc3 in Hp by (now apply Hnot_out).
    specialize (Hp E1 E2).
    rewrite (Hmove a u nw c d); auto. congruence.
Qed.

Lemma script_converts_witness :
  exists w',
    script (fun counts => counts) znc_folder = (Ok tt, w')
    /\ find_node (tree w') ["notes.txt"] = Some (File "todo" stat_a)
    /\ find_node (tree w') ["output"; "bob"; "efnet"; "#x"; "2016-01-16.log"]
       = Some (File (ln "[10:00:00] x") stat_a)
    /\ find_node (tree w') ["output"; "alice"; "freenode"; "#chan"; "2016-01-15.log"]
       = Some (File (ln "[00:00:30] b" +:+ ln "[00:01:00] a" +:+ ln "[00:02:00] c") stat_b).
Proof.
  destruct (script_converts_a_global_folder (fun counts => counts)
              (fun l => Permutation_refl l) "" "global" [] znc_folder)
    as (w' & Erun & Hkept & Hsingle & Hpair).
  - split.
    + vm_compute. repeat (constructor; [cbn; intuition discriminate|]). constructor.
    + intros p n Hin. cbn in Hin.
      destruct Hin as [E|[E|[E|[E|[]]]]]; injection E as <- _; discriminate.
  - reflexivity.
  - reflexivity.
  - reflexivity.
  - reflexivity.
  - intros n Hn. vm_compute in Hn.
    destruct Hn as [<-|[<-|[<-|[]]]]; do 2 eexists; reflexivity.
  - intros n Hn. vm_compute in Hn. destruct Hn as [<-|[<-|[<-|[]]]].
    + exists "alice", "freenode", "#chan", "20160115".
      repeat split; try reflexivity; cbn; lia.
    + exists "alice", "freenode", "#chan", "20160115".
      repeat split; try reflexivity; cbn; lia.
    + exists "bob", "efnet", "#x", "20160116".
      repeat split; try reflexivity; cbn; lia.
  - exists w'. split; [exact Erun|]. split; [|split].
    + rewrite Hkept by discriminate. reflexivity.
    + change "2016-01-16.log" with (dated "20160116").
      rewrite (Hsingle "bob_efnet_#x_20160116.log" "bob" "efnet" "#x" "20160116");
        try reflexivity. vm_compute. auto.
    + change "2016-01-15.log" with (dated "20160115").
      rewrite (Hpair "alice_FreeNode_#chan_20160115.log" "alice_freenode_#chan_20160115.log"
                 "alice" "freenode" "#chan" "20160115"
                 (ln "[00:01:00] a" +:+ ln "[00:02:00] c") stat_a
                 (ln "[00:00:30] b") stat_b);
        try reflexivity. vm_compute. auto.
Defined.
